(** * imageio/testing.py: test and style-check scaffolding

    A shallow embedding of [imageio/testing.py] and the properties of
    its specification.

    - Text is [string], one [ascii] per character of the decoded text:
      an [ascii] is the code point of that number, so the texts covered
      are those whose code points lie below 256, and the [str] methods
      below are Python's on that range (among them NEL, the no-break
      space and the numeric characters of Latin-1 such as superscript
      two or one half).  String literals in this file are ASCII; other
      characters are written by their number.
    - Paths are POSIX paths; [os.path.normpath], [relpath] and [join]
      follow [posixpath].
    - The process-global state the module touches (working directory,
      the list object behind [sys.argv], [sys.stdout], [sys.modules],
      the [sys.last_*] slots) is one record, threaded through a
      state-and-exception monad.  What reaches the real standard output
      and every invocation of flake8 is recorded in a trace.
    - [os.chdir] always succeeds.
    - flake8's [main] is a function from [sys.argv] and the working
      directory to what it prints and how it ends; [pytest.main] and
      the original [pytest_runtest_call] are arbitrary state
      transformers; [os.walk], the reading of files and
      [imageio.core.appdata_dir] are parameters as well.
    - For [get_test_dir] the file system is a finite map from paths to
      directories and files. *)

From Stdlib Require Import Ascii String DecimalString ZArith.
From stdpp Require Import gmap strings list.


(** ** Python [str] methods used by the module *)

Module PyStr.

(** [s.startswith(p)] *)
Fixpoint startswith (p s : string) : bool :=
  match p, s with
  | EmptyString, _ => true
  | String a p', String b s' => Ascii.eqb a b && startswith p' s'
  | String _ _, EmptyString => false
  end.

(** [s.endswith(p)]: [p] is [s] or ends the tail of [s] *)
Fixpoint endswith (p s : string) : bool :=
  String.eqb p s ||
  match s with
  | EmptyString => false
  | String _ s' => endswith p s'
  end.

(** [sub in s] *)
Fixpoint contains (sub s : string) : bool :=
  startswith sub s ||
  match s with
  | EmptyString => false
  | String _ s' => contains sub s'
  end.

(** [s.replace(old, new)] for one-character [old] and [new] *)
Fixpoint replace (old new : ascii) (s : string) : string :=
  match s with
  | EmptyString => EmptyString
  | String c s' =>
      String (if Ascii.eqb c old then new else c) (replace old new s')
  end.

(** [s.split(sep)] for a one-character [sep]: every occurrence of the
    separator cuts, so the result has one more piece than there are
    separators and may contain empty strings. *)
Fixpoint split (sep : ascii) (s : string) : list string :=
  match s with
  | EmptyString => [EmptyString]
  | String c s' =>
      let r := split sep s' in
      if Ascii.eqb c sep then EmptyString :: r
      else match r with
           | w :: ws => String c w :: ws
           | [] => [String c EmptyString]
           end
  end.

(** [sep.join(l)] *)
Fixpoint join (sep : string) (l : list string) : string :=
  match l with
  | [] => EmptyString
  | [w] => w
  | w :: ws => w +:+ sep +:+ join sep ws
  end.

(** [c.isspace()]: tab, LF, VT, FF, CR, FS, GS, RS, US, space, NEL
    (U+0085) and the no-break space (U+00A0) *)
Definition isspace (c : ascii) : bool :=
  let n := nat_of_ascii c in
  ((9 <=? n) && (n <=? 13)) || ((28 <=? n) && (n <=? 31)) || (n =? 32)
  || (n =? 133) || (n =? 160).

Fixpoint lstrip (s : string) : string :=
  match s with
  | EmptyString => EmptyString
  | String c s' => if isspace c then lstrip s' else s
  end.

Fixpoint rstrip (s : string) : string :=
  match s with
  | EmptyString => EmptyString
  | String c s' =>
      match rstrip s' with
      | EmptyString => if isspace c then EmptyString else String c EmptyString
      | r => String c r
      end
  end.

(** [s.strip()] *)
Definition strip (s : string) : string := rstrip (lstrip s).

(** The ten digits [0] to [9] *)
Definition isdigit_char (c : ascii) : bool :=
  let n := nat_of_ascii c in (48 <=? n) && (n <=? 57).

Fixpoint all_chars (p : ascii -> bool) (s : string) : bool :=
  match s with
  | EmptyString => true
  | String c s' => p c && all_chars p s'
  end.

(** [c.isnumeric()]: the digits, superscript two, three and one
    (U+00B2, U+00B3, U+00B9) and the fractions one quarter, one half
    and three quarters (U+00BC, U+00BD, U+00BE) *)
Definition isnumeric_char (c : ascii) : bool :=
  let n := nat_of_ascii c in
  isdigit_char c || (n =? 178) || (n =? 179) || (n =? 185)
  || (n =? 188) || (n =? 189) || (n =? 190).

(** [s.isnumeric()]: at least one character and all of them numeric *)
Definition isnumeric (s : string) : bool :=
  match s with
  | EmptyString => false
  | _ => all_chars isnumeric_char s
  end.

(** [c in letters] for a one-character string [c] *)
Fixpoint char_in (c : ascii) (letters : string) : bool :=
  match letters with
  | EmptyString => false
  | String d rest => Ascii.eqb c d || char_in c rest
  end.

(** Line boundaries of [str.splitlines]: LF, VT, FF, CR, FS, GS, RS
    and NEL (U+0085) *)
Definition is_linebreak (c : ascii) : bool :=
  let n := nat_of_ascii c in
  ((10 <=? n) && (n <=? 13)) || ((28 <=? n) && (n <=? 30)) || (n =? 133).

(** [s.splitlines()]: CR LF is one boundary, and a final boundary
    does not open an empty last line. *)
Fixpoint splitlines (s : string) : list string :=
  match s with
  | EmptyString => []
  | String c s' =>
      if is_linebreak c then
        EmptyString ::
          (if Ascii.eqb c "013"%char then
             match s' with
             | String c2 s'' => if Ascii.eqb c2 "010"%char then splitlines s'' else splitlines s'
             | EmptyString => []
             end
           else splitlines s')
      else
        match splitlines s' with
        | l :: ls => String c l :: ls
        | [] => [String c EmptyString]
        end
  end.

(** ['%i' % n] for a non-negative count *)
Definition format_i (n : nat) : string := NilZero.string_of_uint (Nat.to_uint n).

End PyStr.

(** ** Inline style directives: [_get_style_test_options] *)

(** The test of the last comprehension:
    [w[1:].isnumeric() and w[0] in 'EWFCN'].  On the empty word the
    slice is empty, [isnumeric] is false and [w[0]] is not evaluated. *)
Definition is_code (w : string) : bool :=
  match w with
  | EmptyString => false
  | String c rest => PyStr.isnumeric rest && PyStr.char_in c "EWFCN"
  end.

(** The body of the [for] loop for one line: the directive marker
    gates everything, [skip] is tested before [ignore]. *)
Definition scan_line (line : string) (acc : bool * list string) : bool * list string :=
  let '(skip, ignores) := acc in
  if PyStr.startswith "# styletest:" line then
    if PyStr.contains "skip" line then (true, ignores)
    else if PyStr.contains "ignore" line then
      let words := PyStr.split " "%char (PyStr.replace ","%char " "%char line) in
      let words := map PyStr.strip (List.filter (fun w => negb (String.eqb (PyStr.strip w) "")) words) in
      let words := List.filter is_code words in
      (skip, ignores ++ words)
    else (skip, ignores)
  else (skip, ignores).

(** The [for i, line in enumerate(...)] loop with its [if i > 20: break]. *)
Fixpoint scan_lines (i : nat) (lines : list string) (acc : bool * list string)
  : bool * list string :=
  match lines with
  | [] => acc
  | line :: rest =>
      if 20 <? i then acc
      else scan_lines (S i) rest (scan_line line acc)
  end.

(** The result of [_get_style_test_options] from the decoded text on. *)
Definition scan_text (text : string) : bool * list string :=
  scan_lines 0 (PyStr.splitlines text) (false, []).

(** ** Exceptions and outcomes *)

Inductive pyvalue := VNone | VInt (z : Z) | VStr (s : string).

(** The exception classes the module meets.  [SystemExit],
    [KeyboardInterrupt] and [GeneratorExit] derive from [BaseException]
    only; [OtherBaseException] stands for any further class of that
    kind and [OtherException] for any further subclass of [Exception]. *)
Inductive exc_class :=
| RuntimeError | ValueError | ImportError | AttributeError | IOError
| FileExistsError | FileNotFoundError | NotADirectoryError
| OtherException (name : string)
| SystemExit | KeyboardInterrupt | GeneratorExit
| OtherBaseException (name : string).

(** [issubclass(c, Exception)] *)
Definition is_Exception (c : exc_class) : bool :=
  match c with
  | SystemExit | KeyboardInterrupt | GeneratorExit | OtherBaseException _ => false
  | _ => true
  end.

(** An exception instance: its class and its argument ([ex.code] for
    [SystemExit], the message for [RuntimeError]). *)
Record exception := Exc { exc_type : exc_class; exc_arg : pyvalue }.

Inductive outcome (A : Type) :=
| Return (a : A)
| Raise (e : exception).
Arguments Return {A} a.
Arguments Raise {A} e.

(** ** POSIX [os.path] *)

Module PosixPath.

Definition isabs (p : string) : bool := PyStr.startswith "/" p.

(** One step of [os.path.join]'s loop *)
Definition join2 (path b : string) : string :=
  if PyStr.startswith "/" b then b
  else if String.eqb path "" || PyStr.endswith "/" path then path +:+ b
  else path +:+ "/" +:+ b.

(** [os.path.join(a, *p)] *)
Definition join (a : string) (p : list string) : string := fold_left join2 p a.

(** The loop of [normpath] over the components, [new_comps] kept
    reversed; [initial_slashes] is 0, 1 or 2. *)
Fixpoint norm_comps (initial_slashes : nat) (comps : list string) (rev_new : list string)
  : list string :=
  match comps with
  | [] => rev rev_new
  | comp :: rest =>
      if String.eqb comp "" || String.eqb comp "." then
        norm_comps initial_slashes rest rev_new
      else if negb (String.eqb comp "..")
              || ((initial_slashes =? 0) && (match rev_new with [] => true | _ => false end))
              || (match rev_new with last :: _ => String.eqb last ".." | [] => false end)
      then norm_comps initial_slashes rest (comp :: rev_new)
      else match rev_new with
           | _ :: popped => norm_comps initial_slashes rest popped
           | [] => norm_comps initial_slashes rest rev_new
           end
  end.

Definition normpath (path : string) : string :=
  if String.eqb path "" then "."
  else
    let initial_slashes :=
      if PyStr.startswith "/" path then
        if PyStr.startswith "//" path && negb (PyStr.startswith "///" path) then 2 else 1
      else 0 in
    let comps := norm_comps initial_slashes (PyStr.split "/"%char path) [] in
    let path := PyStr.join "/" comps in
    let path := match initial_slashes with
                | 0 => path | 1 => "/" +:+ path | _ => "//" +:+ path
                end in
    if String.eqb path "" then "." else path.

Definition abspath (cwd path : string) : string :=
  normpath (if isabs path then path else join cwd [path]).

(** [len(commonprefix([l1, l2]))] *)
Fixpoint common_len (l1 l2 : list string) : nat :=
  match l1, l2 with
  | x :: l1', y :: l2' => if String.eqb x y then S (common_len l1' l2') else 0
  | _, _ => 0
  end.

Definition nonempty_comps (p : string) : list string :=
  List.filter (fun x => negb (String.eqb x "")) (PyStr.split "/"%char p).

(** [os.path.relpath(path, start)] in working directory [cwd] *)
Definition relpath (cwd path start : string) : outcome string :=
  if String.eqb path "" then Raise (Exc ValueError (VStr "no path specified"))
  else
    let start_list := nonempty_comps (abspath cwd start) in
    let path_list := nonempty_comps (abspath cwd path) in
    let i := common_len start_list path_list in
    let rel_list := repeat ".." (length start_list - i) ++ drop i path_list in
    match rel_list with
    | [] => Return "."
    | a :: p => Return (join a p)
    end.

End PosixPath.

(** ** Process-global state *)

(** What [sys.stdout] can be bound to: the real standard output, or a
    [FileForTesting] proxy around another stream ([_original]). *)
Inductive stream :=
| Stdout
| FileForTesting (_original : stream).

(** Observable events, in order: text and flushes reaching the real
    standard output, and invocations of flake8's [main] with the
    contents of [sys.argv] and the working directory it sees. *)
Inductive event :=
| StdoutWrite (msg : string)
| StdoutFlush
| Flake8Main (argv : list string) (dir : string).

Definition frame := string.
Definition traceback := list frame.

(** [lists] is the store of list objects and [sys_argv] the object
    [sys.argv] is bound to, so that two names for one list share its
    mutations. *)
Record Process := mkProcess {
  cwd : string;
  lists : gmap nat (list string);
  sys_argv : nat;
  sys_stdout : stream;
  sys_modules : list string;
  sys_last_type : option exc_class;
  sys_last_value : option exception;
  sys_last_traceback : option traceback;
  trace : list event
}.

Definition set_cwd (d : string) (p : Process) : Process :=
  mkProcess d (lists p) (sys_argv p) (sys_stdout p) (sys_modules p)
            (sys_last_type p) (sys_last_value p) (sys_last_traceback p) (trace p).

Definition set_lists (h : gmap nat (list string)) (p : Process) : Process :=
  mkProcess (cwd p) h (sys_argv p) (sys_stdout p) (sys_modules p)
            (sys_last_type p) (sys_last_value p) (sys_last_traceback p) (trace p).

Definition set_stdout (s : stream) (p : Process) : Process :=
  mkProcess (cwd p) (lists p) (sys_argv p) s (sys_modules p)
            (sys_last_type p) (sys_last_value p) (sys_last_traceback p) (trace p).

Definition set_modules (m : list string) (p : Process) : Process :=
  mkProcess (cwd p) (lists p) (sys_argv p) (sys_stdout p) m
            (sys_last_type p) (sys_last_value p) (sys_last_traceback p) (trace p).

Definition set_last (e : exception) (tb : traceback) (p : Process) : Process :=
  mkProcess (cwd p) (lists p) (sys_argv p) (sys_stdout p) (sys_modules p)
            (Some (exc_type e)) (Some e) (Some tb) (trace p).

Definition emit (ev : event) (p : Process) : Process :=
  mkProcess (cwd p) (lists p) (sys_argv p) (sys_stdout p) (sys_modules p)
            (sys_last_type p) (sys_last_value p) (sys_last_traceback p) (trace p ++ [ev]).

(** The contents of the list object at reference [r] *)
Definition deref (p : Process) (r : nat) : list string := default [] (lists p !! r).

(** The current contents of [sys.argv] *)
Definition argv_contents (p : Process) : list string := deref p (sys_argv p).

(** ** A state-and-exception monad for the module's procedures *)

Definition M (A : Type) : Type := Process -> Process * outcome A.

Definition ret {A} (a : A) : M A := fun p => (p, Return a).
Definition raise {A} (e : exception) : M A := fun p => (p, Raise e).

Definition bind {A B} (m : M A) (k : A -> M B) : M B :=
  fun p =>
    match m p with
    | (p1, Return a) => k a p1
    | (p1, Raise e) => (p1, Raise e)
    end.

Notation "x <- m ;; k" := (bind m (fun x => k))
  (at level 100, m at next level, right associativity).
Notation "m ;;; k" := (bind m (fun _ => k))
  (at level 100, right associativity).

Definition get {A} (f : Process -> A) : M A := fun p => (p, Return (f p)).
Definition modify (f : Process -> Process) : M unit := fun p => (f p, Return tt).
Definition lift {A} (o : outcome A) : M A := fun p => (p, o).

(** [try: body finally: fin]: [fin] runs on every exit of [body]; its
    own exception, if any, replaces the outcome of [body]. *)
Definition try_finally {A} (body : M A) (fin : M unit) : M A :=
  fun p =>
    let '(p1, r) := body p in
    match fin p1 with
    | (p2, Return _) => (p2, r)
    | (p2, Raise e) => (p2, Raise e)
    end.

(** [try: body except <class test>: handler] *)
Definition try_except {A} (body : M A) (catches : exception -> bool)
           (handler : exception -> M A) : M A :=
  fun p =>
    match body p with
    | (p1, Raise e) => if catches e then handler e p1 else (p1, Raise e)
    | r => r
    end.

(** [os.getcwd()] and [os.chdir(d)]; the directories the module changes
    to (the root, and a directory that was current before) exist. *)
Definition getcwd : M string := get cwd.
Definition chdir (d : string) : M unit := modify (set_cwd d).

(** How a call ends when tracebacks matter: the traceback lists the
    frames from the callee's outermost one down to the raising one. *)
Inductive traced (A : Type) :=
| Done (a : A)
| Failed (e : exception) (tb : traceback).
Arguments Done {A} a.
Arguments Failed {A} e tb.

(** ** The module's procedures *)

Section Testing.

(** [ROOT_DIR], computed once at import. *)
Variable ROOT_DIR : string.

(** Whether [from flake8.main import main] succeeds. *)
Variable flake8_installed : bool.

(** flake8's [main()]: from the contents of [sys.argv] and the working
    directory to the texts it writes to [sys.stdout], in order, and how
    it ends ([SystemExit] carries the exit code as its argument). *)
Variable flake8_main : list string -> string -> list string * outcome unit.

(** [os.walk(top)]: the (dir, dirnames, filenames) triples, in order. *)
Variable os_walk : string -> list (string * list string * list string).

(** [open(filename, 'rb').read().decode('utf-8')] *)
Variable read_text : string -> outcome string.

(** Whether [import faulthandler; faulthandler.enable()] succeeds. *)
Variable faulthandler_available : bool.

(** [pytest.main(args)]: runs arbitrary test code. *)
Variable pytest_main : string -> M Z.

(** *** [FileForTesting] *)

Fixpoint stream_flush (s : stream) : M unit :=
  match s with
  | Stdout => modify (emit StdoutFlush)
  | FileForTesting original => stream_flush original
  end.

Fixpoint stream_write (s : stream) (msg : string) : M unit :=
  match s with
  | Stdout => modify (emit (StdoutWrite msg))
  | FileForTesting original =>
      msg <- (if PyStr.startswith ROOT_DIR msg
              then (d <- getcwd ;; lift (PosixPath.relpath d msg ROOT_DIR))
              else ret msg) ;;
      stream_write original msg ;;;
      stream_flush original
  end.

(** [s.revert()]: only the proxy has the method. *)
Definition stream_revert (s : stream) : M unit :=
  match s with
  | FileForTesting original => modify (set_stdout original)
  | Stdout => raise (Exc AttributeError (VStr "revert"))
  end.

(** [print(msg)]: the text, then the line end, to the current [sys.stdout]. *)
Definition print (msg : string) : M unit :=
  s <- get sys_stdout ;;
  stream_write s msg ;;;
  stream_write s (String "010"%char "").

(** *** [_enable_faulthandler] and [_clear_imageio] *)

Definition _enable_faulthandler : M unit :=
  try_except
    (if faulthandler_available then print "Faulthandler enabled"
     else raise (Exc ImportError (VStr "faulthandler")))
    (fun e => is_Exception (exc_type e))
    (fun _ => print "Could not enable faulthandler").

Definition _clear_imageio : M unit :=
  modify (fun p => set_modules
                     (List.filter (fun key => negb (PyStr.startswith "imageio" key)) (sys_modules p)) p).

(** *** [test_unit] *)

Definition test_unit (cov_report : string) : M Z :=
  orig_dir <- getcwd ;;
  chdir ROOT_DIR ;;;
  try_finally
    (_clear_imageio ;;;
     _enable_faulthandler ;;;
     pytest_main ("-v --cov imageio --cov-config .coveragerc --cov-report "
                  +:+ cov_report +:+ " tests"))
    (chdir orig_dir).

(** *** [_get_style_test_options] *)

Definition _get_style_test_options (filename : string) : M (bool * list string) :=
  text <- lift (read_text filename) ;;
  ret (scan_text text).

(** *** [_test_style] *)

(** [l[1:] = v] and [l.append(x)] on the list object at reference [r],
    and [l[:] = v] with the contents of the object at [src] *)
Definition list_assign_from1 (r : nat) (v : list string) : M unit :=
  modify (fun p => set_lists (<[r := take 1 (deref p r) ++ v]> (lists p)) p).

Definition list_append (r : nat) (x : string) : M unit :=
  modify (fun p => set_lists (<[r := deref p r ++ [x]]> (lists p)) p).

Definition list_assign_all (r src : nat) : M unit :=
  modify (fun p => set_lists (<[r := deref p src]> (lists p)) p).

Fixpoint write_all (msgs : list string) : M unit :=
  match msgs with
  | [] => ret tt
  | msg :: rest =>
      s <- get sys_stdout ;;
      stream_write s msg ;;;
      write_all rest
  end.

(** [from flake8.main import main; main()] *)
Definition call_flake8_main : M unit :=
  if flake8_installed then
    argv <- get argv_contents ;;
    d <- getcwd ;;
    modify (emit (Flake8Main argv d)) ;;;
    write_all (fst (flake8_main argv d)) ;;;
    lift (snd (flake8_main argv d))
  else raise (Exc ImportError (VStr "flake8")).

(** [ex.code in (None, 0)] *)
Definition code_is_success (code : pyvalue) : bool :=
  match code with
  | VNone => true
  | VInt z => Z.eqb z 0
  | VStr _ => false
  end.

Definition is_SystemExit (e : exception) : bool :=
  match exc_type e with SystemExit => true | _ => false end.

(** The result is [Some false] / [Some true] for the two [return]s and
    [None] when [main()] returns and the function falls off its end. *)
Definition _test_style (filename : string) (ignore : list string) : M (option bool) :=
  let ignore := PyStr.join "," ignore in
  orig_dir <- getcwd ;;
  orig_argv <- get sys_argv ;;
  chdir ROOT_DIR ;;;
  (r <- get sys_argv ;; list_assign_from1 r [filename]) ;;;
  (r <- get sys_argv ;; list_append r ("--ignore=" +:+ ignore)) ;;;
  try_finally
    (try_except
       (call_flake8_main ;;; ret None)
       is_SystemExit
       (fun ex => if code_is_success (exc_arg ex) then ret (Some false) else ret (Some true)))
    (chdir orig_dir ;;;
     r <- get sys_argv ;; list_assign_all r orig_argv).

(** *** [test_style] *)

(** The fixed ignore list of [test_style]. *)
Definition global_ignores : list string := ["E226"; "E241"; "E265"; "W291"; "W293"].

Definition truthy (r : option bool) : bool :=
  match r with Some true => true | _ => false end.

Definition exclude_dirs : list string := [".git"; "docs"; "build"; "dist"; "__pycache__"].

Definition excluded (dir : string) : bool :=
  existsb (fun c => existsb (String.eqb c) exclude_dirs) (PyStr.split "/"%char dir).

(** The inner [for fname in filenames] loop; [st] is ([count], [fail]). *)
Fixpoint check_files (ignores : list string) (dir : string) (filenames : list string)
         (st : nat * bool) : M (nat * bool) :=
  match filenames with
  | [] => ret st
  | fname :: rest =>
      if PyStr.endswith ".py" fname then
        let filename := PosixPath.join ROOT_DIR [dir; fname] in
        opts <- _get_style_test_options filename ;;
        let '(skip, extra_ignores) := opts in
        if skip : bool then check_files ignores dir rest st
        else
          let count := S (fst st) in
          thisfail <- _test_style filename (ignores ++ extra_ignores) ;;
          fail <- (if truthy thisfail then print "----" ;;; ret true else ret (snd st)) ;;
          (s <- get sys_stdout ;; stream_flush s) ;;;
          check_files ignores dir rest (count, fail)
      else check_files ignores dir rest st
  end.

(** The outer [for dir, dirnames, filenames in os.walk(ROOT_DIR)] loop *)
Fixpoint walk_dirs (ignores : list string) (triples : list (string * list string * list string))
         (st : nat * bool) : M (nat * bool) :=
  match triples with
  | [] => ret st
  | (dir, _, filenames) :: rest =>
      d <- getcwd ;;
      dir <- lift (PosixPath.relpath d dir ROOT_DIR) ;;
      if excluded dir then walk_dirs ignores rest st
      else
        st <- check_files ignores dir filenames st ;;
        walk_dirs ignores rest st
  end.

Definition test_style : M unit :=
  if negb flake8_installed then print "Skipping flake8 test, flake8 not installed"
  else
    print ("Running flake8 on " +:+ ROOT_DIR) ;;;
    (s <- get sys_stdout ;; modify (set_stdout (FileForTesting s))) ;;;
    let ignores := global_ignores in
    st <- walk_dirs ignores (os_walk ROOT_DIR) (0, false) ;;
    let '(count, fail) := st in
    (s <- get sys_stdout ;; stream_revert s) ;;;
    if count =? 0 then
      raise (Exc RuntimeError (VStr "    Arg! flake8 did not check any files"))
    else if fail : bool then
      raise (Exc RuntimeError
               (VStr ("    Arg! flake8 failed (checked " +:+ PyStr.format_i count +:+ " files)")))
    else
      print ("    Hooray! flake8 passed (checked " +:+ PyStr.format_i count +:+ " files)").

(** *** The patched [pytest_runtest_call] *)

(** The items pytest hands to the hook. *)
Variable item : Type.

(** [runner.pytest_runtest_call_orig], saved when the module patches pytest. *)
Variable pytest_runtest_call_orig : item -> Process -> Process * traced unit.

(** [tb.tb_next]; the empty list is [None]. *)
Definition tb_next (tb : traceback) : traceback := tl tb.

(** An exception leaving the callee reaches this frame with the
    frame's own entry at the head of its traceback; [except Exception]
    takes only instances of [Exception], and the bare [raise] lets
    the same exception go on. *)
Definition pytest_runtest_call (it : item) : Process -> Process * traced unit :=
  fun p =>
    match pytest_runtest_call_orig it p with
    | (p1, Done _) => (p1, Done tt)
    | (p1, Failed e tb_callee) =>
        let tb := "pytest_runtest_call" :: tb_callee in
        if is_Exception (exc_type e) then
          let tb' := tb_next tb in
          (set_last e tb' p1, Failed e tb)
        else (p1, Failed e tb)
    end.

End Testing.

(** ** The scratch directory: [get_test_dir] *)

(** A file system as a finite map from absolute paths (their
    components, outermost first) to what is there; the root, the empty
    path, is always a directory. *)
Inductive node := Dir | File.

Definition node_at (fs : gmap (list string) node) (p : list string) : option node :=
  match p with
  | [] => Some Dir
  | _ => fs !! p
  end.

(** [os.path.exists] and [os.path.isdir] *)
Definition path_exists (fs : gmap (list string) node) (p : list string) : bool :=
  match node_at fs p with Some _ => true | None => false end.

Definition isdir (fs : gmap (list string) node) (p : list string) : bool :=
  match node_at fs p with Some Dir => true | _ => false end.

Definition parent (p : list string) : list string := take (length p - 1) p.

(** [os.mkdir(p)] *)
Definition mkdir (p : list string) (fs : gmap (list string) node)
  : gmap (list string) node * outcome unit :=
  match node_at fs (parent p) with
  | None => (fs, Raise (Exc FileNotFoundError VNone))
  | Some File => (fs, Raise (Exc NotADirectoryError VNone))
  | Some Dir =>
      if path_exists fs p then (fs, Raise (Exc FileExistsError VNone))
      else (<[p := Dir]> fs, Return tt)
  end.

Definition is_FileExistsError (e : exception) : bool :=
  match exc_type e with FileExistsError => true | _ => false end.

(** [os.makedirs(name)], on the reversed path [rname] (innermost
    component first): a missing head is made first, its
    [FileExistsError] being passed over, then [mkdir(name)]. *)
Fixpoint makedirs_rev (rname : list string) (fs : gmap (list string) node)
  : gmap (list string) node * outcome unit :=
  match rname with
  | [] => mkdir [] fs
  | _ :: rhead =>
      let r :=
        if negb (path_exists fs (rev rhead)) then
          match makedirs_rev rhead fs with
          | (fs1, Raise e) =>
              if is_FileExistsError e then (fs1, Return tt) else (fs1, Raise e)
          | r => r
          end
        else (fs, Return tt) in
      match r with
      | (fs1, Return _) => mkdir (rev rname) fs1
      | r => r
      end
  end.

Definition makedirs (name : list string) (fs : gmap (list string) node)
  : gmap (list string) node * outcome unit :=
  makedirs_rev (rev name) fs.

(** [shutil.rmtree(d)]: [d] and everything below it goes. *)
Definition rmtree (d : list string) (fs : gmap (list string) node) : gmap (list string) node :=
  filter (fun kv => ¬ d `prefix_of` kv.1) fs.

(** The handlers [atexit.register] has been given. *)
Inductive exit_hook := RmtreeTestDir.

Record TestDirState := mkTestDirState {
  fs : gmap (list string) node;
  _the_test_dir : option (list string);
  atexit_hooks : list exit_hook
}.

Section TestDir.

(** [imageio.core.appdata_dir]: it answers with a directory and may
    create it on the way. *)
Variable appdata_dir :
  string -> gmap (list string) node -> gmap (list string) node * outcome (list string).

Definition get_test_dir (st : TestDirState) : TestDirState * outcome (list string) :=
  match _the_test_dir st with
  | Some d => (st, Return d)
  | None =>
      match appdata_dir "imageio" (fs st) with
      | (fs1, Raise e) => (mkTestDirState fs1 None (atexit_hooks st), Raise e)
      | (fs1, Return a) =>
          let d := a ++ ["testdir"] in
          let fs2 := if isdir fs1 d then rmtree d fs1 else fs1 in
          match makedirs d fs2 with
          | (fs3, Raise e) => (mkTestDirState fs3 (Some d) (atexit_hooks st), Raise e)
          | (fs3, Return _) =>
              (mkTestDirState fs3 (Some d) (atexit_hooks st ++ [RmtreeTestDir]), Return d)
          end
      end
  end.

End TestDir.

(** ** The root directory: the module-level loop *)

(** [p[:p.rfind('/') + 1]]: [p] up to and with its last slash *)
Fixpoint head_through_last_sep (p : string) : string :=
  match p with
  | EmptyString => EmptyString
  | String c p' =>
      match head_through_last_sep p' with
      | EmptyString => if Ascii.eqb c "/" then String c EmptyString else EmptyString
      | h => String c h
      end
  end.

Definition is_sep (c : ascii) : bool := Ascii.eqb c "/".

(** [s.rstrip('/')] *)
Fixpoint rstrip_sep (s : string) : string :=
  match s with
  | EmptyString => EmptyString
  | String c s' =>
      match rstrip_sep s' with
      | EmptyString => if is_sep c then EmptyString else String c EmptyString
      | r => String c r
      end
  end.

(** [os.path.dirname(p)]: the head, without its trailing slashes
    unless it consists of slashes only *)
Definition dirname (p : string) : string :=
  let head := head_through_last_sep p in
  if negb (String.eqb head "") && negb (PyStr.all_chars is_sep head)
  then rstrip_sep head
  else head.

Section RootLocator.

(** [os.path.isfile] *)
Variable isfile : string -> bool.

(** The [for i in range(9)] loop with [n] rounds to go: one level up,
    then the test for the marker and the [break]. *)
Fixpoint climb (n : nat) (root : string) : string :=
  match n with
  | 0 => root
  | S n' =>
      let root := dirname root in
      if isfile (PosixPath.join root [".gitignore"]) then root
      else climb n' root
  end.

(** [ROOT_DIR] for the module file [file], imported in directory [d]. *)
Definition locate_root (d file : string) : string :=
  let THIS_DIR := PosixPath.abspath d (dirname file) in
  climb 9 THIS_DIR.

End RootLocator.

(** ** [run_tests_if_main] *)

Definition pyvalue_eqb (a b : pyvalue) : bool :=
  match a, b with
  | VNone, VNone => true
  | VInt x, VInt y => Z.eqb x y
  | VStr x, VStr y => String.eqb x y
  | _, _ => false
  end.

(** [str(v)] *)
Definition py_str (v : pyvalue) : string :=
  match v with
  | VNone => "None"
  | VInt z => NilZero.string_of_int (Z.to_int z)
  | VStr s => s
  end.

Section SingleFile.

Variable ROOT_DIR : string.
Variable faulthandler_available : bool.
Variable pytest_main : string -> M Z.

(** [webbrowser.open_new_tab(url)] *)
Variable open_new_tab : string -> M unit.

(** [local_vars] is the caller's [f_locals]; a missing [__file__] is
    the [KeyError] of the subscript. *)
Definition run_tests_if_main (local_vars : gmap string pyvalue) (show_coverage : bool)
  : M unit :=
  if negb (pyvalue_eqb (default (VStr "") (local_vars !! "__name__")) (VStr "__main__"))
  then ret tt
  else
    chdir ROOT_DIR ;;;
    fname <- match local_vars !! "__file__" with
             | Some v => ret (py_str v)
             | None => raise (Exc (OtherException "KeyError") (VStr "__file__"))
             end ;;
    _clear_imageio ;;;
    _enable_faulthandler ROOT_DIR faulthandler_available ;;;
    pytest_main ("-v -x --color=yes --cov imageio --cov-config .coveragerc --cov-report html "
                 +:+ fname) ;;;
    if show_coverage then
      open_new_tab (PosixPath.join ROOT_DIR ["htmlcov"; "index.html"])
    else ret tt.

End SingleFile.

(** ** The patch of pytest at import *)

(** A function object, as far as the guard looks at it. *)
Record pyfunc := mkFunc { fn_module : string; fn_name : string }.

(** The attributes of [_pytest.runner] the module reads and sets. *)
Record RunnerModule := mkRunner {
  runner_pytest_runtest_call : pyfunc;
  runner_pytest_runtest_call_orig : option pyfunc
}.

(** The wrapper defined in this module, whose [__name__] is [this_module]. *)
Definition wrapper (this_module : string) : pyfunc :=
  mkFunc this_module "pytest_runtest_call".

(** The statements under [# Monkey-patch pytest]. *)
Definition patch_runner (this_module : string) (runner : RunnerModule) : RunnerModule :=
  if negb (PyStr.startswith "imageio" (fn_module (runner_pytest_runtest_call runner))) then
    mkRunner (wrapper this_module) (Some (runner_pytest_runtest_call runner))
  else runner.

(** ** Vocabulary of the specification *)

(** A line is a skip directive when it starts with the marker and
    contains the keyword; it is an ignore directive when it starts with
    the marker, is not a skip directive and contains [ignore]. *)
Definition marker : string := "# styletest:".

Definition skip_directive (line : string) : bool :=
  PyStr.startswith marker line && PyStr.contains "skip" line.

Definition ignore_directive (line : string) : bool :=
  PyStr.startswith marker line && negb (PyStr.contains "skip" line)
  && PyStr.contains "ignore" line.

(** The tokens of a line: its pieces between commas and spaces,
    stripped, the empty ones dropped. *)
Definition tokens (line : string) : list string :=
  map PyStr.strip
      (List.filter (fun w => negb (String.eqb (PyStr.strip w) ""))
                   (PyStr.split " "%char (PyStr.replace ","%char " "%char line))).

(** The shape a token must have to be taken as a code: a letter of E,
    W, F, C, N and then one character or more, all of them numeric in
    the sense of [str.isnumeric]. *)
Definition numeric_shaped (w : string) : Prop :=
  exists c rest,
    w = String c rest /\ In c ["E"; "W"; "F"; "C"; "N"]%char /\
    rest <> "" /\ PyStr.all_chars PyStr.isnumeric_char rest = true.

(** The shape of a diagnostic code in the narrow sense: a letter of E,
    W, F, C, N and then one digit or more. *)
Definition code_shaped (w : string) : Prop :=
  exists c digits,
    w = String c digits /\ In c ["E"; "W"; "F"; "C"; "N"]%char /\
    digits <> "" /\ PyStr.all_chars PyStr.isdigit_char digits = true.

(** A path component as [normpath] leaves it: not empty, not [.] or
    [..], and without a slash. *)
Definition clean (comp : string) : Prop :=
  comp <> "" /\ comp <> "." /\ comp <> ".." /\ PyStr.char_in "/"%char comp = false.

(** The codes an ignore directive line contributes. *)
Definition line_codes (line : string) : list string :=
  if ignore_directive line then List.filter is_code (tokens line) else [].

(** The lines of a text that the scan reaches, and what they yield. *)
Definition scanned_lines (text : string) : list string := take 21 (PyStr.splitlines text).

Definition file_skipped (text : string) : bool := existsb skip_directive (scanned_lines text).

Definition file_codes (text : string) : list string := flat_map line_codes (scanned_lines text).

(** The invocations of flake8 recorded in a trace: the argument list
    and the working directory of each. *)
Definition calls (tr : list event) : list (list string * string) :=
  flat_map (fun ev => match ev with Flake8Main a d => [(a, d)] | _ => [] end) tr.

(** Whether an invocation made the file fail: [main] left through
    [SystemExit] with a code other than [None] and [0]. *)
Definition failing (flake8_main : list string -> string -> list string * outcome unit)
           (call : list string * string) : bool :=
  match snd (flake8_main (fst call) (snd call)) with
  | Raise e => is_SystemExit e && negb (code_is_success (exc_arg e))
  | Return _ => false
  end.

(** The argument list [_test_style] leaves in [sys.argv]. *)
Definition style_argv (old : list string) (filename : string) (ignore : list string)
  : list string :=
  take 1 old ++ [filename; "--ignore=" +:+ PyStr.join "," ignore].

Definition newline : string := String "010"%char "".

(** An invocation as the style check makes it for a file it does not
    skip: whatever [sys.argv] began with (one element at most), the
    file, and the global ignore list followed by the codes of that
    file's own directives, in the root directory. *)
Definition call_for_file (ROOT_DIR : string) (read_text : string -> outcome string)
           (ignores : list string) (call : list string * string) : Prop :=
  exists head filename text,
    fst call = head ++ [filename; "--ignore=" +:+ PyStr.join "," (ignores ++ file_codes text)]
    /\ length head <= 1
    /\ snd call = ROOT_DIR
    /\ read_text filename = Return text
    /\ file_skipped text = false.

(** From [p] to [p']: the working directory, the binding of [sys.argv]
    and [sys.stdout] are as before, and the trace has grown by the
    invocations [added] (and output). *)
Definition run_step (p p' : Process) (added : list (list string * string)) : Prop :=
  cwd p' = cwd p /\ sys_argv p' = sys_argv p /\ sys_stdout p' = sys_stdout p
  /\ calls (trace p') = calls (trace p) ++ added.

(** A sample flake8: one complaint about the file, exit code 1. *)
Definition sample_flake8 (argv : list string) (dir : string) : list string * outcome unit :=
  ([default "" (argv !! 1) +:+ ":1:80: E501 line too long"; newline],
   Raise (Exc SystemExit (VInt 1))).

(** The state in which the walk of [test_style] starts: the
    announcement is out and [sys.stdout] is the proxy around the stream
    it was. *)
Definition walk_start (ROOT_DIR : string) (p : Process) : Process :=
  set_stdout (FileForTesting (sys_stdout p))
             (print ROOT_DIR ("Running flake8 on " +:+ ROOT_DIR) p).1.

(** [p] with further events at the end of its trace. *)
Definition emit_all (evs : list event) (p : Process) : Process :=
  mkProcess (cwd p) (lists p) (sys_argv p) (sys_stdout p) (sys_modules p)
            (sys_last_type p) (sys_last_value p) (sys_last_traceback p) (trace p ++ evs).

(** The text of a file with the given lines, each ended by [eol]. *)
Fixpoint text_of_lines (eol : string) (lines : list string) : string :=
  match lines with
  | [] => ""
  | l :: rest => l +:+ eol +:+ text_of_lines eol rest
  end.

(** A line as [splitlines] yields it: no line boundary inside. *)
Definition one_line (l : string) : Prop :=
  PyStr.all_chars (fun c => negb (PyStr.is_linebreak c)) l = true.

Definition LF : string := String "010"%char "".
Definition CRLF : string := String "013"%char (String "010"%char "").

(** A text that begins with a character other than the slash. *)
Definition relative_comp (w : string) : Prop :=
  exists x rest, w = String x rest /\ Ascii.eqb x "/" = false.

(** [k] levels above [p]. *)
Definition ancestor (k : nat) (p : string) : string := Nat.iter k dirname p.

(** Whether the marker file lies in directory [d]. *)
Definition marked (isfile : string -> bool) (d : string) : bool :=
  isfile (PosixPath.join d [".gitignore"]).

(** The files of one directory that the style check hands to flake8:
    those named [*.py] that can be read and carry no skip directive. *)
Definition checked_in_dir (ROOT_DIR : string) (read_text : string -> outcome string)
           (rel : string) (filenames : list string) : list string :=
  List.filter (fun f => match read_text f with
                        | Return text => negb (file_skipped text)
                        | Raise _ => false
                        end)
              (map (fun fname => PosixPath.join ROOT_DIR [rel; fname])
                   (List.filter (PyStr.endswith ".py") filenames)).

(** The same over a walk, in its order, the excluded directories left
    out; [d] is the working directory. *)
Definition checked_files (ROOT_DIR : string) (read_text : string -> outcome string)
           (d : string) (triples : list (string * list string * list string)) : list string :=
  flat_map (fun t => match PosixPath.relpath d t.1.1 ROOT_DIR with
                     | Return rel =>
                         if excluded rel then []
                         else checked_in_dir ROOT_DIR read_text rel t.2
                     | Raise _ => []
                     end) triples.

(** The invocation for file [f] when [sys.argv] begins with [argv0]. *)
Definition call_of (ROOT_DIR : string) (read_text : string -> outcome string)
           (ignores : list string) (argv0 : string) (f : string) : list string * string :=
  ([argv0; f;
    "--ignore=" +:+
    PyStr.join "," (ignores ++ match read_text f with
                               | Return text => file_codes text
                               | Raise _ => []
                               end)],
   ROOT_DIR).

(** The codes [_get_style_test_options] returns for file [f]. *)
Definition own_codes (read_text : string -> outcome string) (f : string) : list string :=
  match read_text f with
  | Return text => snd (scan_text text)
  | Raise _ => []
  end.

(** How [_test_style] ends for a given end of flake8's [main]. *)
Definition style_result (o : outcome unit) : outcome (option bool) :=
  match o with
  | Return _ => Return None
  | Raise e =>
      if is_SystemExit e then Return (Some (negb (code_is_success (exc_arg e))))
      else Raise e
  end.

(** A walk that meets a file it cannot read. *)
Definition unreadable_walk (top : string) : list (string * list string * list string) :=
  [(top, [], ["setup.py"; "missing.py"])].

(** A browser that records the address in the trace. *)
Definition sample_browser (url : string) : M unit :=
  fun p => (emit (StdoutWrite ("open " +:+ url)) p, Return tt).

(** A home directory where a regular file stands at the place of the
    scratch directory. *)
Definition blocked_fs : gmap (list string) node :=
  list_to_map [(["home"], Dir); (["home"; "dev"], Dir);
               (["home"; "dev"; ".imageio"], Dir);
               (["home"; "dev"; ".imageio"; "testdir"], File);
               (["home"; "dev"; "notes.txt"], File)].

(** ** Sample inputs *)

Fixpoint blank_lines (n : nat) : string :=
  match n with
  | 0 => ""
  | S n' => newline +:+ blank_lines n'
  end.

(** A process just started as [make test style] in [/home/dev]. *)
Definition sample_process : Process :=
  mkProcess "/home/dev" {[ 0 := ["make"; "test"; "style"] ]} 0 Stdout
            ["os"; "imageio"; "imageio.core"; "pytest"] None None None [].

(** Two files that differ on their 21st line only, and two that differ
    on their 22nd line only. *)
Definition sample_files (filename : string) : outcome string :=
  if String.eqb filename "/proj/a.py" then
    Return (blank_lines 20 +:+ "# styletest: skip" +:+ newline)
  else if String.eqb filename "/proj/b.py" then
    Return (blank_lines 20 +:+ "import os" +:+ newline)
  else if String.eqb filename "/proj/c.py" then
    Return (blank_lines 21 +:+ "# styletest: skip" +:+ newline)
  else if String.eqb filename "/proj/d.py" then
    Return (blank_lines 21 +:+ "import os" +:+ newline)
  else Raise (Exc IOError (VStr filename)).

(** A small tree under [/proj]: a file with an ignore directive, a
    file with both kinds of directive, a plain file, and a file in a
    directory the walk leaves out. *)
Definition sample_walk (top : string) : list (string * list string * list string) :=
  [(top, ["imageio"; ".git"], ["setup.py"; "README.md"; "skipped.py"]);
   (top +:+ "/.git", [], ["hook.py"]);
   (top +:+ "/imageio", [], ["core.py"])].

Definition sample_tree (filename : string) : outcome string :=
  if String.eqb filename "/proj/./setup.py" then
    Return ("# styletest: ignore E501,W605" +:+ newline +:+ "import os" +:+ newline)
  else if String.eqb filename "/proj/./skipped.py" then
    Return ("# a module" +:+ newline +:+ "# styletest: ignore E501" +:+ newline
            +:+ "# styletest: skip" +:+ newline)
  else if String.eqb filename "/proj/imageio/core.py" then
    Return ("import sys" +:+ newline)
  else Raise (Exc IOError (VStr filename)).

(** The token [E] followed by the character one half (U+00BD). *)
Definition E_half : string := String "E"%char (String "189"%char "").

(** A file whose ignore directive lists that token and a code. *)
Definition odd_tree (filename : string) : outcome string :=
  if String.eqb filename "/proj/./odd.py" then
    Return ("# styletest: ignore " +:+ E_half +:+ ",W605" +:+ newline)
  else Raise (Exc IOError (VStr filename)).

(** The walk of a tree that holds this file alone. *)
Definition odd_walk (top : string) : list (string * list string * list string) :=
  [(top, [], ["odd.py"])].

(** NEL (U+0085), the no-break space (U+00A0), and the token [E5]
    followed by superscript two (U+00B2). *)
Definition NEL : string := String "133"%char "".
Definition NBSP : string := String "160"%char "".
Definition E5_squared : string := "E5" +:+ String "178"%char "".

(** [n] times the two lines [a] and [b], the first ended by NEL. *)
Fixpoint nel_lines (n : nat) : string :=
  match n with
  | 0 => ""
  | S n' => "a" +:+ NEL +:+ "b" +:+ newline +:+ nel_lines n'
  end.

(** A flake8 that finds nothing and exits with code 0. *)
Definition passing_flake8 (argv : list string) (dir : string) : list string * outcome unit :=
  ([], Raise (Exc SystemExit (VInt 0))).

(** The state in which the walk over the sample tree ends when every
    file passes. *)
Definition sample_walk_end : Process :=
  (walk_dirs "/proj" true passing_flake8 sample_tree global_ignores (sample_walk "/proj")
             (0, false) (walk_start "/proj" sample_process)).1.

(** A test run that changes directory, fails one test and reports
    exit code 1. *)
Definition sample_pytest (args : string) : M Z :=
  fun p => (emit (StdoutWrite ("pytest " +:+ args)) (set_cwd "/tmp/pytest-0" p), Return 1%Z).

(** A test interrupted from the keyboard, and a test that fails an
    assertion. *)
Definition interrupted_test (it : string) (p : Process) : Process * traced unit :=
  (p, Failed (Exc KeyboardInterrupt VNone) ["pytest_runtest_call_orig"; it]).

Definition failing_test (it : string) (p : Process) : Process * traced unit :=
  (p, Failed (Exc (OtherException "AssertionError") (VStr "assert 1 == 2"))
             ["pytest_runtest_call_orig"; it]).

(** Every entry of the file system lies in a directory. *)
Definition wf_fs (fs : gmap (list string) node) : bool :=
  forallb (fun kv => isdir fs (parent kv.1)) (map_to_list fs).

Definition is_file (fs : gmap (list string) node) (p : list string) : bool :=
  match node_at fs p with Some File => true | _ => false end.

(** Neither [d] nor a directory above it is a regular file. *)
Definition no_file_on_path (fs : gmap (list string) node) (d : list string) : bool :=
  forallb (fun n => negb (is_file fs (take n d))) (seq 0 (S (length d))).

(** A home directory where an earlier run has left its scratch
    directory with a file in it, and an [appdata_dir] that answers
    with [/home/dev/.imageio], creating it if need be. *)
Definition sample_fs : gmap (list string) node :=
  list_to_map [(["home"], Dir); (["home"; "dev"], Dir);
               (["home"; "dev"; ".imageio"], Dir);
               (["home"; "dev"; ".imageio"; "testdir"], Dir);
               (["home"; "dev"; ".imageio"; "testdir"; "old.png"], File)].

Definition sample_appdata_dir (appname : string) (fs : gmap (list string) node)
  : gmap (list string) node * outcome (list string) :=
  let d := ["home"; "dev"; "." +:+ appname] in
  (if isdir fs d then fs else <[d := Dir]> fs, Return d).

(** * Properties *)

(** ** Directive scanning *)

Lemma is_code_numeric_shaped (w : string) : is_code w = true <-> numeric_shaped w.
Proof.
  unfold is_code, numeric_shaped. destruct w as [|c ds].
  - split; [discriminate | intros (c & ds & H & _); discriminate].
  - rewrite andb_true_iff. split.
    + intros [Hn Hc]. exists c, ds. split; [reflexivity|].
      split.
      * simpl in Hc. rewrite !orb_true_iff in Hc. simpl.
        destruct Hc as [H|[H|[H|[H|[H|H]]]]]; try discriminate;
          apply Ascii.eqb_eq in H; subst; tauto.
      * unfold PyStr.isnumeric in Hn. destruct ds; [discriminate|]. split; [discriminate|exact Hn].
    + intros (c' & ds' & Heq & Hin & Hne & Hall). injection Heq as -> ->.
      split.
      * unfold PyStr.isnumeric. destruct ds'; [contradiction|exact Hall].
      * simpl in Hin. simpl. rewrite !orb_true_iff.
        destruct Hin as [H|[H|[H|[H|[H|[]]]]]]; subst; rewrite ?Ascii.eqb_refl; tauto.
Qed.

(** A letter followed by digits is taken as a code; the converse fails
    for the numeric characters that are no digits. *)
Lemma code_shaped_numeric (w : string) : code_shaped w -> numeric_shaped w.
Proof.
  intros (c & ds & Hw & Hc & Hne & Hall). exists c, ds.
  split; [exact Hw|]. split; [exact Hc|]. split; [exact Hne|].
  clear Hw Hne. induction ds as [|d ds IH]; [reflexivity|].
  cbn [PyStr.all_chars] in *. apply andb_prop in Hall. destruct Hall as [Hd Hds].
  rewrite (IH Hds), andb_true_r. unfold PyStr.isnumeric_char. rewrite Hd. reflexivity.
Qed.

Lemma scan_line_spec (line : string) (skip : bool) (ignores : list string) :
  scan_line line (skip, ignores) = (skip || skip_directive line, ignores ++ line_codes line).
Proof.
  unfold scan_line, skip_directive, line_codes, ignore_directive, marker, tokens.
  destruct (PyStr.startswith "# styletest:" line); simpl.
  - destruct (PyStr.contains "skip" line); simpl.
    + rewrite orb_true_r, app_nil_r. reflexivity.
    + rewrite orb_false_r. destruct (PyStr.contains "ignore" line); simpl.
      * reflexivity.
      * rewrite app_nil_r. reflexivity.
  - rewrite orb_false_r, app_nil_r. reflexivity.
Qed.

Lemma scan_lines_spec (lines : list string) :
  forall i skip ignores,
    scan_lines i lines (skip, ignores) =
    (skip || existsb skip_directive (take (21 - i) lines),
     ignores ++ flat_map line_codes (take (21 - i) lines)).
Proof.
  induction lines as [|line rest IH]; intros i skip ignores.
  - simpl. rewrite take_nil. simpl. rewrite orb_false_r, app_nil_r. reflexivity.
  - cbn [scan_lines]. destruct (20 <? i) eqn:Hi.
    + apply Nat.ltb_lt in Hi. replace (21 - i) with 0 by lia.
      simpl. rewrite orb_false_r, app_nil_r. reflexivity.
    + apply Nat.ltb_ge in Hi. rewrite scan_line_spec, IH.
      replace (21 - i) with (S (21 - S i)) by lia.
      cbn [take existsb flat_map].
      rewrite orb_assoc, app_assoc. reflexivity.
Qed.

Lemma scan_text_spec (text : string) :
  scan_text text = (file_skipped text, file_codes text).
Proof. unfold scan_text. rewrite scan_lines_spec. reflexivity. Qed.

Lemma _get_style_test_options_eq (read_text : string -> outcome string)
      (filename text : string) (p : Process) :
  read_text filename = Return text ->
  _get_style_test_options read_text filename p
  = (p, Return (file_skipped text, file_codes text)).
Proof.
  intros H. unfold _get_style_test_options, bind, lift, ret. rewrite H.
  rewrite scan_text_spec. reflexivity.
Qed.

(** The scan on text beyond ASCII: NEL ends a line, so that a directive
    after it starts a line of its own; the lines it makes count for
    the bound of 21; a numeric character that is no digit passes the
    test on a token; the no-break space is stripped from a token. *)
Example nel_ends_a_line :
  scan_text ("# a comment" +:+ NEL +:+ "# styletest: skip" +:+ newline) = (true, []).
Proof. vm_compute. reflexivity. Qed.

Example nel_lines_count :
  length (PyStr.splitlines (nel_lines 15 +:+ "# styletest: skip" +:+ newline)) = 31
  /\ scan_text (nel_lines 15 +:+ "# styletest: skip" +:+ newline) = (false, []).
Proof. split; vm_compute; reflexivity. Qed.

Example numeric_character_passes :
  scan_text ("# styletest: ignore " +:+ E5_squared +:+ ",W605" +:+ newline)
  = (false, [E5_squared; "W605"]).
Proof. vm_compute. reflexivity. Qed.

Example nbsp_is_stripped :
  scan_text ("# styletest: ignore E501" +:+ NBSP +:+ "," +:+ NBSP +:+ "W605" +:+ newline)
  = (false, ["E501"; "W605"]).
Proof. vm_compute. reflexivity. Qed.

(** C1, as stated, fails: in [/proj/a.py] the only directive stands on
    line 21, after the first 20 lines, which the file shares with
    [/proj/b.py]; yet [/proj/a.py] is skipped and [/proj/b.py] is not. *)
Lemma directive_on_line_21_is_honored :
  take 20 (PyStr.splitlines (blank_lines 20 +:+ "# styletest: skip" +:+ newline))
  = take 20 (PyStr.splitlines (blank_lines 20 +:+ "import os" +:+ newline))
  /\ PyStr.splitlines (blank_lines 20 +:+ "# styletest: skip" +:+ newline) !! 20
     = Some "# styletest: skip"
  /\ _get_style_test_options sample_files "/proj/a.py" sample_process
     = (sample_process, Return (true, []))
  /\ _get_style_test_options sample_files "/proj/b.py" sample_process
     = (sample_process, Return (false, [])).
Proof. split; [|split; [|split]]; vm_compute; reflexivity. Qed.

(** C1, amended: the scan reaches the first 21 lines (indices 0 to 20).
    Two files with the same first 21 lines get the same skip flag and
    ignore list, whatever follows; and within those lines every skip
    directive and every ignore directive is honored. *)
Theorem directives_honored_in_first_21_lines
        (read_text : string -> outcome string) (f1 f2 t1 t2 : string) (p : Process) :
  read_text f1 = Return t1 ->
  read_text f2 = Return t2 ->
  take 21 (PyStr.splitlines t1) = take 21 (PyStr.splitlines t2) ->
  _get_style_test_options read_text f1 p = _get_style_test_options read_text f2 p
  /\ _get_style_test_options read_text f1 p
     = (p, Return (existsb skip_directive (take 21 (PyStr.splitlines t1)),
                   flat_map line_codes (take 21 (PyStr.splitlines t1)))).
Proof.
  intros H1 H2 Heq.
  rewrite (_get_style_test_options_eq _ _ _ _ H1), (_get_style_test_options_eq _ _ _ _ H2).
  unfold file_skipped, file_codes, scanned_lines. rewrite Heq. split; reflexivity.
Qed.

Lemma directives_honored_in_first_21_lines_witness :
  _get_style_test_options sample_files "/proj/c.py" sample_process
  = _get_style_test_options sample_files "/proj/d.py" sample_process
  /\ _get_style_test_options sample_files "/proj/c.py" sample_process
     = (sample_process,
        Return (existsb skip_directive
                        (take 21 (PyStr.splitlines (blank_lines 21 +:+ "# styletest: skip" +:+ newline))),
                flat_map line_codes
                         (take 21 (PyStr.splitlines (blank_lines 21 +:+ "# styletest: skip" +:+ newline))))).
Proof.
  apply (directives_honored_in_first_21_lines sample_files "/proj/c.py" "/proj/d.py"
           (blank_lines 21 +:+ "# styletest: skip" +:+ newline)
           (blank_lines 21 +:+ "import os" +:+ newline) sample_process);
    vm_compute; reflexivity.
Defined.

(** C10: on a line that starts with the marker and contains [skip],
    the scan sets the skip flag and collects nothing, whatever else the
    line contains; a scanned line of that kind marks its file as
    skipped; and a line adds to the ignore list only if it starts with
    the marker, does not contain [skip] and contains [ignore]. *)
Theorem skip_wins_within_a_line (line : string) (skip : bool) (ignores : list string) :
  PyStr.startswith "# styletest:" line = true ->
  PyStr.contains "skip" line = true ->
  scan_line line (skip, ignores) = (true, ignores)
  /\ (forall text i, PyStr.splitlines text !! i = Some line -> i <= 20 ->
                     fst (scan_text text) = true)
  /\ (forall line' skip' ignores',
         snd (scan_line line' (skip', ignores')) <> ignores' ->
         PyStr.startswith "# styletest:" line' = true
         /\ PyStr.contains "skip" line' = false
         /\ PyStr.contains "ignore" line' = true).
Proof.
  intros Hm Hs. split; [|split].
  - unfold scan_line. rewrite Hm, Hs. reflexivity.
  - intros text i Hi Hle. rewrite scan_text_spec. simpl.
    unfold file_skipped, scanned_lines. apply existsb_exists. exists line. split.
    + apply list_elem_of_In, list_elem_of_lookup. exists i.
      rewrite lookup_take_lt by lia. exact Hi.
    + unfold skip_directive, marker. rewrite Hm, Hs. reflexivity.
  - intros line' skip' ignores'. unfold scan_line.
    destruct (PyStr.startswith "# styletest:" line'); [|simpl; congruence].
    destruct (PyStr.contains "skip" line'); [simpl; congruence|].
    destruct (PyStr.contains "ignore" line'); [auto|simpl; congruence].
Qed.

Lemma skip_wins_within_a_line_witness :
  scan_line "# styletest: skip, do not ignore E501" (false, ["W291"]) = (true, ["W291"])
  /\ (forall text i,
         PyStr.splitlines text !! i = Some "# styletest: skip, do not ignore E501" -> i <= 20 ->
         fst (scan_text text) = true)
  /\ (forall line' skip' ignores',
         snd (scan_line line' (skip', ignores')) <> ignores' ->
         PyStr.startswith "# styletest:" line' = true
         /\ PyStr.contains "skip" line' = false
         /\ PyStr.contains "ignore" line' = true).
Proof.
  apply (skip_wins_within_a_line "# styletest: skip, do not ignore E501" false ["W291"]);
    reflexivity.
Defined.

(** ** Output streams *)

Lemma emit_all_nil (p : Process) : emit_all [] p = p.
Proof. destruct p. unfold emit_all. simpl. rewrite app_nil_r. reflexivity. Qed.

Lemma emit_all_app (evs1 evs2 : list event) (p : Process) :
  emit_all evs2 (emit_all evs1 p) = emit_all (evs1 ++ evs2) p.
Proof. unfold emit_all. simpl. rewrite app_assoc. reflexivity. Qed.

Lemma emit_emit_all (ev : event) (p : Process) : emit ev p = emit_all [ev] p.
Proof. reflexivity. Qed.

Lemma calls_app (t1 t2 : list event) : calls (t1 ++ t2) = calls t1 ++ calls t2.
Proof. unfold calls. apply flat_map_app. Qed.

Section StreamFacts.

Variable ROOT_DIR : string.

Lemma stream_flush_output (s : stream) (p : Process) :
  exists evs, stream_flush s p = (emit_all evs p, Return tt) /\ calls evs = [].
Proof.
  induction s as [|s IH]; simpl.
  - exists [StdoutFlush]. split; reflexivity.
  - exact IH.
Qed.

Lemma relpath_raises (d path start : string) (e : exception) :
  PosixPath.relpath d path start = Raise e -> exc_type e = ValueError.
Proof.
  unfold PosixPath.relpath. destruct (String.eqb path "").
  - intros [= <-]. reflexivity.
  - destruct (_ ++ _); discriminate.
Qed.

(** Writing changes the process by output events only, and fails only
    with the [ValueError] of [relpath]. *)
Lemma stream_write_output (s : stream) :
  forall (msg : string) (p : Process),
  exists evs r, stream_write ROOT_DIR s msg p = (emit_all evs p, r) /\ calls evs = []
                /\ forall e, r = Raise e -> exc_type e = ValueError.
Proof.
  induction s as [|s IH]; intros msg p; simpl.
  - exists [StdoutWrite msg], (Return tt). repeat split. discriminate.
  - unfold bind at 1.
    assert (Hfwd : exists o,
      (if PyStr.startswith ROOT_DIR msg
       then bind getcwd (fun d => lift (PosixPath.relpath d msg ROOT_DIR))
       else ret msg) p = (p, o) /\ forall e, o = Raise e -> exc_type e = ValueError).
    { destruct (PyStr.startswith ROOT_DIR msg).
      - eexists. split; [reflexivity|]. intros e He. eapply relpath_raises, He.
      - eexists. split; [reflexivity|]. discriminate. }
    destruct Hfwd as (o & -> & Ho). destruct o as [fwd|e].
    + unfold bind. destruct (IH fwd p) as (evs1 & r1 & -> & Hc1 & Hr1).
      destruct r1 as [[]|e].
      * destruct (stream_flush_output s (emit_all evs1 p)) as (evs2 & -> & Hc2).
        exists (evs1 ++ evs2), (Return tt). rewrite emit_all_app, calls_app, Hc1, Hc2.
        repeat split. discriminate.
      * exists evs1, (Raise e). repeat split; [exact Hc1|exact Hr1].
    + exists [], (Raise e). rewrite emit_all_nil. repeat split.
      intros e' [= <-]. apply Ho. reflexivity.
Qed.

Lemma print_output (msg : string) (p : Process) :
  exists evs r, print ROOT_DIR msg p = (emit_all evs p, r) /\ calls evs = []
                /\ forall e, r = Raise e -> exc_type e = ValueError.
Proof.
  unfold print, bind, get.
  destruct (stream_write_output (sys_stdout p) msg p) as (evs1 & r1 & -> & Hc1 & Hr1).
  destruct r1 as [[]|e].
  - destruct (stream_write_output (sys_stdout p) (String "010"%char "") (emit_all evs1 p))
      as (evs2 & r2 & -> & Hc2 & Hr2).
    exists (evs1 ++ evs2), r2. rewrite emit_all_app, calls_app, Hc1, Hc2.
    repeat split. exact Hr2.
  - exists evs1, (Raise e). repeat split; [exact Hc1|exact Hr1].
Qed.

Lemma write_all_output (msgs : list string) :
  forall p : Process,
  exists evs r, write_all ROOT_DIR msgs p = (emit_all evs p, r) /\ calls evs = []
                /\ forall e, r = Raise e -> exc_type e = ValueError.
Proof.
  induction msgs as [|msg rest IH]; intros p; simpl.
  - exists [], (Return tt). rewrite emit_all_nil. repeat split. discriminate.
  - unfold bind, get.
    destruct (stream_write_output (sys_stdout p) msg p) as (evs1 & r1 & -> & Hc1 & Hr1).
    destruct r1 as [[]|e].
    + destruct (IH (emit_all evs1 p)) as (evs2 & r2 & -> & Hc2 & Hr2).
      exists (evs1 ++ evs2), r2. rewrite emit_all_app, calls_app, Hc1, Hc2.
      repeat split. exact Hr2.
    + exists evs1, (Raise e). repeat split; [exact Hc1|exact Hr1].
Qed.

End StreamFacts.

(** ** [_test_style] *)

Section StyleFacts.

Variable ROOT_DIR : string.
Variable flake8_installed : bool.
Variable flake8_main : list string -> string -> list string * outcome unit.

(** What one call of [_test_style] does to the process: the list
    object of [sys.argv] holds the new arguments, the trace has grown by
    one invocation (if flake8 is there) and by output, and nothing else
    has changed. *)
Lemma _test_style_spec (filename : string) (ignore : list string) (p : Process) :
  exists evs res,
    _test_style ROOT_DIR flake8_installed flake8_main filename ignore p
    = (emit_all evs
         (set_lists (<[sys_argv p := style_argv (argv_contents p) filename ignore]> (lists p)) p),
       res)
    /\ calls evs = (if flake8_installed
                    then [(style_argv (argv_contents p) filename ignore, ROOT_DIR)]
                    else [])
    /\ (forall r, res = Return r ->
                  flake8_installed = true /\
                  truthy r = failing flake8_main
                                     (style_argv (argv_contents p) filename ignore, ROOT_DIR)).
Proof.
  set (A := style_argv (argv_contents p) filename ignore).
  unfold _test_style, bind at 1 2 3 4 5 6 7, get, getcwd, chdir, modify, try_finally, try_except,
    list_assign_from1, list_append, list_assign_all.
  cbn -[PyStr.join String.append call_flake8_main].
  match goal with
  | |- context [ bind (call_flake8_main _ _ _) _ ?st ] =>
      assert (Hpre : st = set_cwd ROOT_DIR (set_lists (<[sys_argv p := A]> (lists p)) p))
  end.
  { unfold set_lists, set_cwd, deref. cbn -[PyStr.join String.append].
    rewrite lookup_insert_eq. cbn -[PyStr.join String.append].
    rewrite insert_insert_eq. unfold A, style_argv, argv_contents, deref.
    rewrite <- app_assoc. reflexivity. }
  rewrite Hpre. clear Hpre.
  unfold bind, call_flake8_main. destruct flake8_installed.
  - unfold bind, get, getcwd, modify, lift.
    cbn -[PyStr.join String.append write_all].
    assert (Hargv : argv_contents (set_cwd ROOT_DIR (set_lists (<[sys_argv p:=A]> (lists p)) p)) = A).
    { unfold argv_contents, deref. simpl. rewrite lookup_insert_eq. reflexivity. }
    rewrite Hargv. clear Hargv.
    destruct (write_all_output ROOT_DIR (flake8_main A ROOT_DIR).1
                (emit (Flake8Main A ROOT_DIR)
                      (set_cwd ROOT_DIR (set_lists (<[sys_argv p:=A]> (lists p)) p))))
      as (evs & r & -> & Hc & Hr).
    exists (Flake8Main A ROOT_DIR :: evs).
    assert (Hpost : forall res : outcome (option bool),
      (set_lists
         (<[sys_argv p := deref (set_cwd (cwd p)
              (emit_all evs (emit (Flake8Main A ROOT_DIR)
                 (set_cwd ROOT_DIR (set_lists (<[sys_argv p:=A]> (lists p)) p))))) (sys_argv p)]>
            (<[sys_argv p:=A]> (lists p)))
         (set_cwd (cwd p)
            (emit_all evs (emit (Flake8Main A ROOT_DIR)
               (set_cwd ROOT_DIR (set_lists (<[sys_argv p:=A]> (lists p)) p))))), res)
      = (emit_all (Flake8Main A ROOT_DIR :: evs)
           (set_lists (<[sys_argv p:=A]> (lists p)) p), res)).
    { intros res. f_equal. destruct p. unfold set_lists, set_cwd, emit_all, emit, deref.
      cbn -[A]. rewrite lookup_insert_eq. cbn -[A]. rewrite insert_insert_eq.
      rewrite <- app_assoc. reflexivity. }
    assert (Hcalls : calls (Flake8Main A ROOT_DIR :: evs) = [(A, ROOT_DIR)]).
    { change (Flake8Main A ROOT_DIR :: evs) with ([Flake8Main A ROOT_DIR] ++ evs).
      rewrite calls_app, Hc. reflexivity. }
    unfold failing. cbn [fst snd].
    destruct r as [[]|e].
    + destruct (flake8_main A ROOT_DIR).2 as [[]|e] eqn:Hout.
      * eexists. cbn -[A calls]. split; [apply Hpost|]. split; [exact Hcalls|].
        intros r [= <-]. split; reflexivity.
      * cbn -[A calls]. destruct (is_SystemExit e) eqn:Hse.
        -- destruct (code_is_success (exc_arg e)) eqn:Hcode; eexists; cbn -[A calls];
             (split; [apply Hpost|]); (split; [exact Hcalls|]);
             intros r [= <-]; split; reflexivity.
        -- eexists. split; [apply Hpost|]. split; [exact Hcalls|]. intros r [=].
    + cbn -[A calls]. assert (Hse : is_SystemExit e = false).
      { unfold is_SystemExit. rewrite (Hr e eq_refl). reflexivity. }
      rewrite Hse. eexists. split; [apply Hpost|]. split; [exact Hcalls|]. intros r [=].
  - unfold raise. cbn -[A calls]. exists [].
    exists (Raise (Exc ImportError (VStr "flake8"))).
    split; [|split; [reflexivity|intros r Hr; discriminate Hr]].
    f_equal. destruct p. unfold set_lists, set_cwd, emit_all, deref.
    cbn -[A]. rewrite lookup_insert_eq. cbn -[A]. rewrite insert_insert_eq, app_nil_r.
    reflexivity.
Qed.

Lemma _test_style_run_step (filename : string) (ignore : list string) (p p' : Process)
      (res : outcome (option bool)) :
  _test_style ROOT_DIR flake8_installed flake8_main filename ignore p = (p', res) ->
  cwd p' = cwd p /\ sys_argv p' = sys_argv p /\ sys_stdout p' = sys_stdout p
  /\ argv_contents p' = style_argv (argv_contents p) filename ignore
  /\ calls (trace p')
     = calls (trace p) ++
       (if flake8_installed
        then [(style_argv (argv_contents p) filename ignore, ROOT_DIR)] else [])
  /\ (forall r, res = Return r ->
                flake8_installed = true /\
                truthy r = failing flake8_main
                                   (style_argv (argv_contents p) filename ignore, ROOT_DIR)).
Proof.
  intros H. destruct (_test_style_spec filename ignore p) as (evs & res' & Heq & Hc & Hr).
  rewrite Heq in H. injection H as <- <-.
  repeat split; try reflexivity.
  - unfold argv_contents, deref. simpl. rewrite lookup_insert_eq. reflexivity.
  - simpl. rewrite calls_app, Hc. reflexivity.
  - apply (Hr r H).
  - apply (Hr r H).
Qed.

End StyleFacts.

(** ** The walk of [test_style] *)

Lemma run_step_refl (p : Process) : run_step p p [].
Proof. unfold run_step. rewrite app_nil_r. auto. Qed.

Lemma run_step_trans (p1 p2 p3 : Process) (a1 a2 : list (list string * string)) :
  run_step p1 p2 a1 -> run_step p2 p3 a2 -> run_step p1 p3 (a1 ++ a2).
Proof.
  unfold run_step. intros (H1 & H2 & H3 & H4) (K1 & K2 & K3 & K4).
  rewrite K1, K2, K3, K4, H1, H2, H3, H4, app_assoc. auto.
Qed.

Lemma run_step_output (evs : list event) (p : Process) :
  calls evs = [] -> run_step p (emit_all evs p) [].
Proof.
  intros H. unfold run_step. simpl. rewrite calls_app, H. auto.
Qed.

Section WalkFacts.

Variable ROOT_DIR : string.
Variable flake8_installed : bool.
Variable flake8_main : list string -> string -> list string * outcome unit.
Variable os_walk : string -> list (string * list string * list string).
Variable read_text : string -> outcome string.

Lemma print_run_step (msg : string) (p p' : Process) (r : outcome unit) :
  print ROOT_DIR msg p = (p', r) -> run_step p p' [].
Proof.
  intros H. destruct (print_output ROOT_DIR msg p) as (evs & r' & Heq & Hc & _).
  rewrite Heq in H. injection H as <- <-. apply run_step_output, Hc.
Qed.

Lemma flush_run_step (p p' : Process) (r : outcome unit) :
  stream_flush (sys_stdout p) p = (p', r) -> run_step p p' [] /\ r = Return tt.
Proof.
  intros H. destruct (stream_flush_output (sys_stdout p) p) as (evs & Heq & Hc).
  rewrite Heq in H. injection H as <- <-. split; [apply run_step_output, Hc|reflexivity].
Qed.

(** The inner loop: the invocations it adds are those of files it does
    not skip, each with the codes of its own file; and if it ends
    normally, the count has grown by their number and the failure flag
    is set exactly if it was set or one of them failed. *)
Lemma check_files_inv (ignores : list string) (dir : string) (filenames : list string) :
  forall (st : nat * bool) (p p' : Process) (res : outcome (nat * bool)),
    check_files ROOT_DIR flake8_installed flake8_main read_text ignores dir filenames st p
    = (p', res) ->
    exists added,
      run_step p p' added
      /\ Forall (call_for_file ROOT_DIR read_text ignores) added
      /\ (forall st', res = Return st' ->
                      fst st' = fst st + length added
                      /\ snd st' = snd st || existsb (failing flake8_main) added).
Proof.
  induction filenames as [|fname rest IH]; intros st p p' res H.
  - injection H as <- <-. exists []. split; [apply run_step_refl|]. split; [constructor|].
    intros st' [= <-]. simpl. rewrite orb_false_r. split; [lia|reflexivity].
  - cbn [check_files] in H. destruct (PyStr.endswith ".py" fname); [|apply (IH _ _ _ _ H)].
    unfold bind at 1 in H. unfold _get_style_test_options, bind, lift, ret in H.
    set (filename := PosixPath.join ROOT_DIR [dir; fname]) in *.
    destruct (read_text filename) as [text|e] eqn:Hread.
    2:{ injection H as <- <-. exists []. split; [apply run_step_refl|].
        split; [constructor|]. intros st' [=]. }
    rewrite scan_text_spec in H.
    destruct (file_skipped text) eqn:Hskip; [apply (IH _ _ _ _ H)|].
    destruct (_test_style ROOT_DIR flake8_installed flake8_main filename
                          (ignores ++ file_codes text) p) as [p1 r1] eqn:Hts.
    destruct (_test_style_run_step _ _ _ _ _ _ _ _ Hts) as (Hc1 & Ha1 & Hs1 & _ & Hcalls & Hres).
    assert (Hcall : flake8_installed = true ->
                    call_for_file ROOT_DIR read_text ignores
                      (style_argv (argv_contents p) filename (ignores ++ file_codes text), ROOT_DIR)).
    { intros _. exists (take 1 (argv_contents p)), filename, text. simpl.
      repeat split; auto. rewrite length_take. lia. }
    destruct r1 as [thisfail|e].
    2:{ injection H as <- <-.
        exists (if flake8_installed
                then [(style_argv (argv_contents p) filename (ignores ++ file_codes text), ROOT_DIR)]
                else []).
        split; [unfold run_step; auto|]. split; [|intros st' [=]].
        destruct flake8_installed; [constructor; [apply Hcall; reflexivity|constructor]|constructor]. }
    destruct (Hres _ eq_refl) as [Hinst Htruthy]. rewrite Hinst in Hcalls.
    specialize (Hcall Hinst).
    set (call := (style_argv (argv_contents p) filename (ignores ++ file_codes text), ROOT_DIR)) in *.
    assert (Hstep1 : run_step p p1 [call]) by (unfold run_step; auto).
    (* the separator, printed for a failing file *)
    match type of H with
    | (let (_, _) := ?X in _) = _ => destruct X as [p2 r2] eqn:Hsep
    end.
    assert (Hstep2 : run_step p1 p2 [] /\
                     forall fail, r2 = Return fail -> fail = st.2 || failing flake8_main call).
    { rewrite <- Htruthy. destruct (truthy thisfail).
      - destruct (print ROOT_DIR "----" p1) as [p2' [[]|e]] eqn:Hpr;
          injection Hsep as <- <-; (split; [apply (print_run_step _ _ _ _ Hpr)|]).
        + intros fail [= <-]. rewrite orb_true_r. reflexivity.
        + intros fail [=].
      - injection Hsep as <- <-. split; [apply run_step_refl|].
        intros fail [= <-]. rewrite orb_false_r. reflexivity. }
    destruct Hstep2 as [Hstep2 Hfail].
    pose proof (run_step_trans _ _ _ _ _ Hstep1 Hstep2) as Hstep12.
    destruct r2 as [fail|e].
    2:{ injection H as <- <-. exists ([call] ++ []). split; [exact Hstep12|].
        split; [|intros st' [=]]. constructor; [exact Hcall|constructor]. }
    specialize (Hfail _ eq_refl).
    unfold get in H.
    destruct (stream_flush (sys_stdout p2) p2) as [p3 r3] eqn:Hfl.
    destruct (flush_run_step _ _ _ Hfl) as [Hstep3 ->].
    pose proof (run_step_trans _ _ _ _ _ Hstep12 Hstep3) as Hstep123.
    destruct (IH _ _ _ _ H) as (added & Hstep4 & Hall & Hst).
    exists ((([call] ++ []) ++ []) ++ added).
    split; [apply (run_step_trans _ _ _ _ _ Hstep123 Hstep4)|].
    split; [simpl; constructor; assumption|].
    intros st' Hst'. destruct (Hst _ Hst') as [Hcount Hflag]. simpl in *.
    split; [lia|]. rewrite Hflag, Hfail, orb_assoc. reflexivity.
Qed.

(** The outer loop has the same invariant. *)
Lemma walk_dirs_inv (ignores : list string) (triples : list (string * list string * list string)) :
  forall (st : nat * bool) (p p' : Process) (res : outcome (nat * bool)),
    walk_dirs ROOT_DIR flake8_installed flake8_main read_text ignores triples st p = (p', res) ->
    exists added,
      run_step p p' added
      /\ Forall (call_for_file ROOT_DIR read_text ignores) added
      /\ (forall st', res = Return st' ->
                      fst st' = fst st + length added
                      /\ snd st' = snd st || existsb (failing flake8_main) added).
Proof.
  induction triples as [|[[dir dirnames] filenames] rest IH]; intros st p p' res H.
  - injection H as <- <-. exists []. split; [apply run_step_refl|]. split; [constructor|].
    intros st' [= <-]. simpl. rewrite orb_false_r. split; [lia|reflexivity].
  - cbn [walk_dirs] in H. unfold bind at 1 2 in H. unfold getcwd, get, lift in H.
    destruct (PosixPath.relpath (cwd p) dir ROOT_DIR) as [rel|e].
    2:{ injection H as <- <-. exists []. split; [apply run_step_refl|].
        split; [constructor|]. intros st' [=]. }
    destruct (excluded rel); [apply (IH _ _ _ _ H)|].
    unfold bind at 1 in H.
    destruct (check_files ROOT_DIR flake8_installed flake8_main read_text ignores rel
                          filenames st p) as [p1 r1] eqn:Hcf.
    destruct (check_files_inv _ _ _ _ _ _ _ Hcf) as (a1 & Hstep1 & Hall1 & Hst1).
    destruct r1 as [st1|e].
    2:{ injection H as <- <-. exists a1. split; [exact Hstep1|].
        split; [exact Hall1|]. intros st' [=]. }
    destruct (IH _ _ _ _ H) as (a2 & Hstep2 & Hall2 & Hst2).
    exists (a1 ++ a2). split; [apply (run_step_trans _ _ _ _ _ Hstep1 Hstep2)|].
    split; [apply Forall_app; auto|].
    intros st' Hst'. destruct (Hst1 _ eq_refl) as [Hc1 Hf1].
    destruct (Hst2 _ Hst') as [Hc2 Hf2].
    rewrite length_app, existsb_app, Hc2, Hf2, Hc1, Hf1, orb_assoc. split; [lia|reflexivity].
Qed.

End WalkFacts.

(** ** [test_style] as a whole *)

Lemma startswith_absolute_root (ROOT_DIR : string) (c : ascii) (rest : string) :
  PosixPath.isabs ROOT_DIR = true -> c <> "/"%char ->
  PyStr.startswith ROOT_DIR (String c rest) = false.
Proof.
  unfold PosixPath.isabs, PyStr.startswith. destruct ROOT_DIR as [|a r]; [discriminate|].
  cbn [PyStr.startswith]. destruct (Ascii.eqb_spec "/" a) as [<-|]; [|discriminate].
  intros _ Hc. destruct (Ascii.eqb_spec "/" c) as [<-|]; [contradiction|reflexivity].
Qed.

(** A text that does not start with the root passes every proxy
    unchanged and the write returns. *)
Lemma stream_write_plain (ROOT_DIR : string) (s : stream) (msg : string) (p : Process) :
  PyStr.startswith ROOT_DIR msg = false ->
  exists evs, stream_write ROOT_DIR s msg p = (emit_all evs p, Return tt) /\ calls evs = [].
Proof.
  intros Hmsg. revert p. induction s as [|s IH]; intros p; simpl.
  - exists [StdoutWrite msg]. split; reflexivity.
  - rewrite Hmsg. unfold bind, ret. destruct (IH p) as (evs1 & -> & Hc1).
    destruct (stream_flush_output s (emit_all evs1 p)) as (evs2 & -> & Hc2).
    exists (evs1 ++ evs2). rewrite emit_all_app, calls_app, Hc1, Hc2. split; reflexivity.
Qed.

Lemma print_plain (ROOT_DIR : string) (c : ascii) (rest : string) (p : Process) :
  PosixPath.isabs ROOT_DIR = true -> c <> "/"%char ->
  exists evs, print ROOT_DIR (String c rest) p = (emit_all evs p, Return tt) /\ calls evs = [].
Proof.
  intros Habs Hc. unfold print, bind, get.
  destruct (stream_write_plain ROOT_DIR (sys_stdout p) (String c rest) p
              (startswith_absolute_root _ _ _ Habs Hc)) as (evs1 & -> & Hc1).
  destruct (stream_write_plain ROOT_DIR (sys_stdout p) (String "010"%char "") (emit_all evs1 p))
    as (evs2 & -> & Hc2).
  { apply startswith_absolute_root; [exact Habs|discriminate]. }
  exists (evs1 ++ evs2). rewrite emit_all_app, calls_app, Hc1, Hc2. split; reflexivity.
Qed.

Lemma print_to_stdout (ROOT_DIR msg : string) (p : Process) :
  sys_stdout p = Stdout ->
  print ROOT_DIR msg p = (emit_all [StdoutWrite msg; StdoutWrite newline] p, Return tt).
Proof.
  intros Hso. unfold print, bind, get. rewrite Hso. cbn [stream_write]. unfold modify.
  rewrite !emit_emit_all, emit_all_app. reflexivity.
Qed.

Section RunFacts.

Variable ROOT_DIR : string.
Variable flake8_main : list string -> string -> list string * outcome unit.
Variable os_walk : string -> list (string * list string * list string).
Variable read_text : string -> outcome string.

(** [test_style], with flake8 installed and an absolute root, in terms
    of how its walk ends. *)
Lemma test_style_unfold (p p2 : Process) (res : outcome (nat * bool)) :
  PosixPath.isabs ROOT_DIR = true ->
  walk_dirs ROOT_DIR true flake8_main read_text global_ignores (os_walk ROOT_DIR) (0, false)
            (walk_start ROOT_DIR p) = (p2, res) ->
  test_style ROOT_DIR true flake8_main os_walk read_text p
  = match res with
    | Raise e => (p2, Raise e)
    | Return (count, fail) =>
        if count =? 0 then
          (set_stdout (sys_stdout p) p2,
           Raise (Exc RuntimeError (VStr "    Arg! flake8 did not check any files")))
        else if fail : bool then
          (set_stdout (sys_stdout p) p2,
           Raise (Exc RuntimeError
                      (VStr ("    Arg! flake8 failed (checked "
                             +:+ PyStr.format_i count +:+ " files)"))))
        else
          print ROOT_DIR ("    Hooray! flake8 passed (checked "
                          +:+ PyStr.format_i count +:+ " files)")
                (set_stdout (sys_stdout p) p2)
    end.
Proof.
  intros Habs Hwalk. unfold walk_start in Hwalk.
  destruct (print_plain ROOT_DIR "R" ("unning flake8 on " +:+ ROOT_DIR) p Habs)
    as (evs & Hpr & Hc); [discriminate|].
  change (String "R" ("unning flake8 on " +:+ ROOT_DIR))
    with ("Running flake8 on " +:+ ROOT_DIR) in Hpr.
  rewrite Hpr in Hwalk. cbn [fst] in Hwalk.
  destruct (walk_dirs_inv _ _ _ _ _ _ _ _ _ _ Hwalk) as (added & Hstep & _).
  destruct Hstep as (_ & _ & Hso & _). cbn [sys_stdout set_stdout emit_all] in Hso.
  unfold test_style. cbn [negb]. unfold bind at 1. rewrite Hpr.
  unfold bind at 1 2. unfold get at 1, modify at 1. cbn [sys_stdout emit_all].
  unfold bind at 1. rewrite Hwalk.
  destruct res as [[count fail]|e]; [|reflexivity].
  unfold bind at 1 2. unfold get at 1. rewrite Hso. cbn [stream_revert]. unfold modify.
  destruct (count =? 0); [reflexivity|]. destruct fail; reflexivity.
Qed.

End RunFacts.

Section RunCalls.

Variable ROOT_DIR : string.
Variable flake8_installed : bool.
Variable flake8_main : list string -> string -> list string * outcome unit.
Variable os_walk : string -> list (string * list string * list string).
Variable read_text : string -> outcome string.

(** Every invocation a run of [test_style] adds to the trace is that of
    a file it does not skip, with the codes of that file. *)
Lemma test_style_calls (p : Process) :
  exists added,
    calls (trace (test_style ROOT_DIR flake8_installed flake8_main os_walk read_text p).1)
    = calls (trace p) ++ added
    /\ Forall (call_for_file ROOT_DIR read_text global_ignores) added.
Proof.
  unfold test_style. destruct flake8_installed; cbn [negb].
  - unfold bind at 1.
    destruct (print ROOT_DIR ("Running flake8 on " +:+ ROOT_DIR) p) as [p1 r1] eqn:Hpr.
    destruct (print_run_step _ _ _ _ _ Hpr) as (_ & _ & Hs1 & Hc1).
    destruct r1 as [[]|e]; [|exists []; split; [exact Hc1|constructor]].
    unfold bind at 1 2. unfold get at 1, modify at 1.
    unfold bind at 1.
    destruct (walk_dirs ROOT_DIR true flake8_main read_text global_ignores (os_walk ROOT_DIR)
                        (0, false) (set_stdout (FileForTesting (sys_stdout p1)) p1))
      as [p2 r2] eqn:Hwalk.
    destruct (walk_dirs_inv _ _ _ _ _ _ _ _ _ _ Hwalk) as (added & Hstep & Hall & _).
    destruct Hstep as (_ & _ & Hs2 & Hc2). cbn [sys_stdout set_stdout trace] in Hs2, Hc2.
    rewrite Hc1, app_nil_r in Hc2.
    exists added. split; [|exact Hall].
    destruct r2 as [[count fail]|e]; [|exact Hc2].
    unfold bind at 1 2. unfold get at 1. rewrite Hs2. cbn [stream_revert]. unfold modify.
    destruct (count =? 0); [exact Hc2|]. destruct fail; [exact Hc2|].
    match goal with
    | |- context [ print ?r ?m ?st ] => destruct (print r m st) as [p3 r3] eqn:Hpr3
    end.
    destruct (print_run_step _ _ _ _ _ Hpr3) as (_ & _ & _ & Hc3).
    cbn [fst]. rewrite Hc3, app_nil_r. exact Hc2.
  - destruct (print ROOT_DIR "Skipping flake8 test, flake8 not installed" p) as [p1 r1] eqn:Hpr.
    destruct (print_run_step _ _ _ _ _ Hpr) as (_ & _ & _ & Hc1).
    exists []. split; [exact Hc1|constructor].
Qed.

End RunCalls.

Lemma file_codes_spec (text w : string) :
  In w (file_codes text) <->
  exists line, In line (scanned_lines text) /\ ignore_directive line = true
               /\ In w (tokens line) /\ numeric_shaped w.
Proof.
  unfold file_codes. rewrite in_flat_map. split.
  - intros (line & Hline & Hw). exists line. unfold line_codes in Hw.
    destruct (ignore_directive line); [|contradiction].
    apply filter_In in Hw. destruct Hw as [Hw Hc]. apply is_code_numeric_shaped in Hc. auto.
  - intros (line & Hline & Hdir & Hw & Hc). exists line. split; [exact Hline|].
    unfold line_codes. rewrite Hdir. apply filter_In. split; [exact Hw|].
    apply is_code_numeric_shaped, Hc.
Qed.

Lemma skip_directive_skips (text line : string) (i : nat) :
  PyStr.splitlines text !! i = Some line -> i <= 20 ->
  PyStr.startswith "# styletest:" line = true -> PyStr.contains "skip" line = true ->
  file_skipped text = true.
Proof.
  intros Hi Hle Hm Hs. unfold file_skipped, scanned_lines.
  apply existsb_exists. exists line. split.
  - apply list_elem_of_In, list_elem_of_lookup. exists i.
    rewrite lookup_take_lt by lia. exact Hi.
  - unfold skip_directive, marker. rewrite Hm, Hs. reflexivity.
Qed.

(** C5: a source file with a skip directive among its scanned lines is
    passed over: the loop goes on in the same state, with no invocation
    of the tool, no output and the same tally, whatever else the file
    contains ([text] is arbitrary apart from that line); and no run of
    [test_style] adds an invocation with that file as its file
    argument. *)
Theorem skipped_file_is_passed_over
        (ROOT_DIR : string) (flake8_main : list string -> string -> list string * outcome unit)
        (read_text : string -> outcome string)
        (ignores : list string) (dir fname : string) (rest : list string)
        (st : nat * bool) (p : Process) (text line : string) (i : nat) :
  read_text (PosixPath.join ROOT_DIR [dir; fname]) = Return text ->
  PyStr.splitlines text !! i = Some line -> i <= 20 ->
  PyStr.startswith "# styletest:" line = true ->
  PyStr.contains "skip" line = true ->
  (forall flake8_installed,
      check_files ROOT_DIR flake8_installed flake8_main read_text ignores dir (fname :: rest) st p
      = check_files ROOT_DIR flake8_installed flake8_main read_text ignores dir rest st p
      /\ check_files ROOT_DIR flake8_installed flake8_main read_text ignores dir [fname] st p
         = (p, Return st))
  /\ (forall flake8_installed os_walk p0 call,
         In call (calls (trace (test_style ROOT_DIR flake8_installed flake8_main os_walk
                                           read_text p0).1)) ->
         In call (calls (trace p0))
         \/ forall head opt,
             fst call <> head ++ [PosixPath.join ROOT_DIR [dir; fname]; opt]).
Proof.
  intros Hread Hi Hle Hm Hs.
  pose proof (skip_directive_skips text line i Hi Hle Hm Hs) as Hskip.
  split.
  - intros flake8_installed.
    assert (Hgen : forall rest',
      check_files ROOT_DIR flake8_installed flake8_main read_text ignores dir (fname :: rest') st p
      = check_files ROOT_DIR flake8_installed flake8_main read_text ignores dir rest' st p).
    { intros rest'. cbn [check_files]. destruct (PyStr.endswith ".py" fname); [|reflexivity].
      unfold bind at 1. rewrite (_get_style_test_options_eq _ _ _ _ Hread), Hskip.
      reflexivity. }
    split; [apply Hgen|]. rewrite Hgen. reflexivity.
  - intros flake8_installed os_walk p0 call Hin.
    destruct (test_style_calls ROOT_DIR flake8_installed flake8_main os_walk read_text p0)
      as (added & Heq & Hall).
    rewrite Heq in Hin. apply in_app_or in Hin. destruct Hin as [Hin|Hin]; [left; exact Hin|].
    right. intros head opt Hcall.
    rewrite Forall_forall in Hall. apply list_elem_of_In in Hin.
    destruct (Hall _ Hin) as (head' & f' & text' & Hargv & _ & _ & Hread' & Hskip').
    rewrite Hcall in Hargv.
    change [PosixPath.join ROOT_DIR [dir; fname]; opt]
      with ([PosixPath.join ROOT_DIR [dir; fname]] ++ [opt]) in Hargv.
    change [f'; "--ignore=" +:+ PyStr.join "," (global_ignores ++ file_codes text')]
      with ([f'] ++ ["--ignore=" +:+ PyStr.join "," (global_ignores ++ file_codes text')]) in Hargv.
    rewrite !app_assoc in Hargv.
    apply app_inj_tail in Hargv. destruct Hargv as [Hargv _].
    apply app_inj_tail in Hargv. destruct Hargv as [_ Hf]. subst f'.
    rewrite Hread in Hread'. injection Hread' as <-. congruence.
Qed.

Lemma skipped_file_is_passed_over_witness :
  (forall flake8_installed,
      check_files "/proj" flake8_installed sample_flake8 sample_tree global_ignores "."
                  ["skipped.py"; "other.py"] (3, false) sample_process
      = check_files "/proj" flake8_installed sample_flake8 sample_tree global_ignores "."
                    ["other.py"] (3, false) sample_process
      /\ check_files "/proj" flake8_installed sample_flake8 sample_tree global_ignores "."
                     ["skipped.py"] (3, false) sample_process
         = (sample_process, Return (3, false)))
  /\ (forall flake8_installed os_walk p0 call,
         In call (calls (trace (test_style "/proj" flake8_installed sample_flake8 os_walk
                                           sample_tree p0).1)) ->
         In call (calls (trace p0))
         \/ forall head opt,
             fst call <> head ++ [PosixPath.join "/proj" ["."; "skipped.py"]; opt]).
Proof.
  apply (skipped_file_is_passed_over "/proj" sample_flake8 sample_tree global_ignores
           "." "skipped.py" ["other.py"] (3, false) sample_process
           ("# a module" +:+ newline +:+ "# styletest: ignore E501" +:+ newline
            +:+ "# styletest: skip" +:+ newline)
           "# styletest: skip" 2);
    [vm_compute; reflexivity | vm_compute; reflexivity | lia | reflexivity | reflexivity].
Defined.

(** Events that are no invocation leave the argument list, the working
    directory and the invocations as they are. *)
Lemma quiet_step (evs : list event) (p : Process) :
  calls evs = [] ->
  argv_contents (emit_all evs p) = argv_contents p
  /\ cwd (emit_all evs p) = cwd p
  /\ calls (trace (emit_all evs p)) = calls (trace p).
Proof.
  intros Hc. split; [reflexivity|]. split; [reflexivity|].
  cbn [trace emit_all]. rewrite calls_app, Hc, app_nil_r. reflexivity.
Qed.

Section ExactWalk.

Variable ROOT_DIR : string.
Variable flake8_installed : bool.
Variable flake8_main : list string -> string -> list string * outcome unit.
Variable read_text : string -> outcome string.

Lemma check_files_exact (ignores : list string) (rel : string) (argv0 : string)
      (filenames : list string) :
  forall (st st' : nat * bool) (p p' : Process) (rest0 : list string),
    argv_contents p = argv0 :: rest0 ->
    check_files ROOT_DIR flake8_installed flake8_main read_text ignores rel filenames st p
    = (p', Return st') ->
    calls (trace p')
    = calls (trace p)
      ++ map (call_of ROOT_DIR read_text ignores argv0)
             (checked_in_dir ROOT_DIR read_text rel filenames)
    /\ fst st' = fst st + length (checked_in_dir ROOT_DIR read_text rel filenames)
    /\ (exists rest', argv_contents p' = argv0 :: rest')
    /\ cwd p' = cwd p.
Proof.
  induction filenames as [|fname rest IH]; intros st st' p p' rest0 Hargv H.
  - injection H as <- <-. cbn. rewrite app_nil_r. repeat split; eauto; lia.
  - cbn [check_files] in H. unfold checked_in_dir. cbn [List.filter].
    destruct (PyStr.endswith ".py" fname); [|apply (IH _ _ _ _ _ Hargv H)].
    cbn [map List.filter].
    unfold bind at 1 in H. unfold _get_style_test_options, bind, lift, ret in H.
    set (filename := PosixPath.join ROOT_DIR [rel; fname]) in *.
    destruct (read_text filename) as [text|e] eqn:Hread; [|discriminate H].
    rewrite scan_text_spec in H.
    destruct (file_skipped text) eqn:Hskip; cbn [negb]; [apply (IH _ _ _ _ _ Hargv H)|].
    destruct (_test_style ROOT_DIR flake8_installed flake8_main filename
                          (ignores ++ file_codes text) p) as [p1 r1] eqn:Hts.
    destruct (_test_style_run_step _ _ _ _ _ _ _ _ Hts) as (Hc1 & _ & _ & Ha1 & Hcalls & Hres).
    destruct r1 as [thisfail|e]; [|discriminate H].
    destruct (Hres _ eq_refl) as [Hinst _]. rewrite Hinst in Hcalls.
    rewrite Hargv in Ha1, Hcalls. unfold style_argv in Ha1, Hcalls. cbn [take app] in Ha1, Hcalls.
    match type of H with
    | (let (_, _) := ?X in _) = _ => destruct X as [p2 r2] eqn:Hsep
    end.
    assert (Hp2 : exists evs, p2 = emit_all evs p1 /\ calls evs = []).
    { destruct (truthy thisfail).
      - destruct (print_output ROOT_DIR "----" p1) as (evs & r & Hpr & Hc & _).
        rewrite Hpr in Hsep. exists evs. split; [|exact Hc].
        destruct r; injection Hsep as <- _; reflexivity.
      - injection Hsep as <- _. exists []. rewrite emit_all_nil. split; reflexivity. }
    destruct Hp2 as (evs2 & -> & Hc2).
    destruct r2 as [fail|e]; [|discriminate H].
    unfold get in H.
    destruct (stream_flush_output (sys_stdout (emit_all evs2 p1)) (emit_all evs2 p1))
      as (evs3 & Hfl & Hc3).
    rewrite Hfl in H.
    destruct (quiet_step evs2 p1 Hc2) as (Hq2a & Hq2c & Hq2t).
    destruct (quiet_step evs3 (emit_all evs2 p1) Hc3) as (Hq3a & Hq3c & Hq3t).
    assert (Hargv3 : argv_contents (emit_all evs3 (emit_all evs2 p1))
                     = argv0 :: [filename;
                                 "--ignore=" +:+ PyStr.join "," (ignores ++ file_codes text)]).
    { rewrite Hq3a, Hq2a. exact Ha1. }
    destruct (IH _ _ _ _ _ Hargv3 H) as (Hcalls' & Hcount & Hrest & Hcwd).
    unfold checked_in_dir in Hcalls', Hcount.
    split; [|split; [|split]].
    + rewrite Hcalls', Hq3t, Hq2t, Hcalls, <- app_assoc. cbn [map app].
      unfold call_of at 2. rewrite Hread. reflexivity.
    + rewrite Hcount. cbn [fst length]. lia.
    + exact Hrest.
    + rewrite Hcwd, Hq3c, Hq2c. exact Hc1.
Qed.

Lemma walk_dirs_exact (ignores : list string) (argv0 : string)
      (triples : list (string * list string * list string)) :
  forall (st st' : nat * bool) (p p' : Process) (rest0 : list string),
    argv_contents p = argv0 :: rest0 ->
    walk_dirs ROOT_DIR flake8_installed flake8_main read_text ignores triples st p
    = (p', Return st') ->
    calls (trace p')
    = calls (trace p)
      ++ map (call_of ROOT_DIR read_text ignores argv0)
             (checked_files ROOT_DIR read_text (cwd p) triples)
    /\ fst st' = fst st + length (checked_files ROOT_DIR read_text (cwd p) triples)
    /\ (exists rest', argv_contents p' = argv0 :: rest')
    /\ cwd p' = cwd p.
Proof.
  induction triples as [|[[dir dirnames] filenames] rest IH]; intros st st' p p' rest0 Hargv H.
  - injection H as <- <-. cbn. rewrite app_nil_r. repeat split; eauto; lia.
  - cbn [walk_dirs] in H. unfold bind at 1 2 in H. unfold getcwd, get, lift in H.
    unfold checked_files. cbn [flat_map fst snd]. fold (checked_files ROOT_DIR read_text (cwd p) rest).
    destruct (PosixPath.relpath (cwd p) dir ROOT_DIR) as [rel|e]; [|discriminate H].
    destruct (excluded rel).
    + cbn [app]. apply (IH _ _ _ _ _ Hargv H).
    + unfold bind at 1 in H.
      destruct (check_files ROOT_DIR flake8_installed flake8_main read_text ignores rel
                            filenames st p) as [p1 [st1|e]] eqn:Hcf; [|discriminate H].
      destruct (check_files_exact _ _ _ _ _ _ _ _ _ Hargv Hcf)
        as (Hcalls1 & Hcount1 & (rest1 & Hargv1) & Hcwd1).
      destruct (IH _ _ _ _ _ Hargv1 H) as (Hcalls2 & Hcount2 & Hrest2 & Hcwd2).
      rewrite Hcwd1 in Hcalls2, Hcount2.
      split; [|split; [|split]].
      * rewrite Hcalls2, Hcalls1, map_app, app_assoc. reflexivity.
      * rewrite Hcount2, Hcount1, length_app. lia.
      * exact Hrest2.
      * rewrite Hcwd2. exact Hcwd1.
Qed.

End ExactWalk.

(** The announcement and the proxy leave the argument list, the working
    directory and the invocations as they are. *)
Lemma walk_start_quiet (ROOT_DIR : string) (p : Process) :
  argv_contents (walk_start ROOT_DIR p) = argv_contents p
  /\ cwd (walk_start ROOT_DIR p) = cwd p
  /\ calls (trace (walk_start ROOT_DIR p)) = calls (trace p).
Proof.
  destruct (print_output ROOT_DIR ("Running flake8 on " +:+ ROOT_DIR) p)
    as (evs & r & Hpr & Hc & _).
  unfold walk_start. rewrite Hpr. cbn [fst].
  destruct (quiet_step evs p Hc) as (Ha & Hd & Ht).
  split; [exact Ha|]. split; [exact Hd|exact Ht].
Qed.

(** After the walk [test_style] invokes nothing. *)
Lemma test_style_calls_after_walk
      (ROOT_DIR : string) (flake8_main : list string -> string -> list string * outcome unit)
      (os_walk : string -> list (string * list string * list string))
      (read_text : string -> outcome string) (p p2 : Process) (count : nat) (fail : bool) :
  PosixPath.isabs ROOT_DIR = true ->
  walk_dirs ROOT_DIR true flake8_main read_text global_ignores (os_walk ROOT_DIR) (0, false)
            (walk_start ROOT_DIR p) = (p2, Return (count, fail)) ->
  calls (trace (test_style ROOT_DIR true flake8_main os_walk read_text p).1)
  = calls (trace p2).
Proof.
  intros Habs Hwalk. rewrite (test_style_unfold _ _ _ _ _ _ _ Habs Hwalk).
  destruct (count =? 0); [reflexivity|]. destruct fail; [reflexivity|].
  match goal with
  | |- context [ print ?a ?m ?st ] =>
      destruct (print_output a m st) as (evs3 & r3 & -> & Hc3 & _)
  end.
  cbn [fst]. destruct (quiet_step evs3 (set_stdout (sys_stdout p) p2) Hc3) as (_ & _ & ->).
  reflexivity.
Qed.

(** A file the walk hands to flake8 was read and carries no skip
    directive. *)
Lemma checked_files_readable (ROOT_DIR : string) (read_text : string -> outcome string)
      (d : string) (triples : list (string * list string * list string)) (f : string) :
  In f (checked_files ROOT_DIR read_text d triples) ->
  exists text, read_text f = Return text /\ file_skipped text = false.
Proof.
  unfold checked_files. intros Hin. apply in_flat_map in Hin.
  destruct Hin as (t & _ & Hin).
  destruct (PosixPath.relpath d t.1.1 ROOT_DIR) as [rel|e]; [|destruct Hin].
  destruct (excluded rel); [destruct Hin|].
  unfold checked_in_dir in Hin. apply filter_In in Hin. destruct Hin as [_ Hf].
  destruct (read_text f) as [text|e]; [|discriminate Hf].
  exists text. split; [reflexivity|]. destruct (file_skipped text); [discriminate Hf|reflexivity].
Qed.

Lemma call_of_own_codes (ROOT_DIR : string) (read_text : string -> outcome string)
      (ignores : list string) (argv0 f : string) :
  call_of ROOT_DIR read_text ignores argv0 f
  = ([argv0; f; "--ignore=" +:+ PyStr.join "," (ignores ++ own_codes read_text f)], ROOT_DIR).
Proof.
  unfold call_of, own_codes. destruct (read_text f) as [text|e]; [|reflexivity].
  rewrite scan_text_spec. reflexivity.
Qed.

(** C7, as stated, fails: the test on a token is [str.isnumeric], which
    holds for more than digits.  The one file of the tree lists the
    token made of [E] and the character one half in its ignore
    directive; that token is no letter followed by digits, and yet it
    is in the ignore option flake8 gets for the file. *)
Lemma ignore_token_need_not_be_digits :
  calls (trace (test_style "/proj" true passing_flake8 odd_walk odd_tree sample_process).1)
  = [(["make"; "/proj/./odd.py";
       "--ignore=E226,E241,E265,W291,W293," +:+ E_half +:+ ",W605"], "/proj")]
  /\ In E_half (tokens ("# styletest: ignore " +:+ E_half +:+ ",W605"))
  /\ ~ code_shaped E_half.
Proof.
  split; [vm_compute; reflexivity|]. split; [vm_compute; auto|].
  intros (c & digits & Hw & _ & _ & Hall). unfold E_half in Hw.
  injection Hw as <- <-. vm_compute in Hall. discriminate Hall.
Qed.

(** C7, amended: a token is taken as a code when it is a letter of E,
    W, F, C, N followed by one character or more for which
    [str.isnumeric] holds (the digits, but also superscripts and
    fractions).  Let [sys.argv] be not empty and the walk of
    [test_style] end normally.  Then the invocations of the run are,
    in the order of the walk and one for each checked file, the first
    element of [sys.argv], the file, and the ignore option made of the
    fixed global list followed by the codes of that file; every checked
    file was read and is not skipped, and its codes are exactly the
    tokens of that shape on the ignore directive lines among its
    scanned lines.  On any run at all, also one that ends in an
    exception, every invocation has this form for the file it names,
    so that no token of another file's directives enters. *)
Theorem ignore_set_is_global_plus_own_codes
        (ROOT_DIR : string) (flake8_main : list string -> string -> list string * outcome unit)
        (os_walk : string -> list (string * list string * list string))
        (read_text : string -> outcome string)
        (p p2 : Process) (count : nat) (fail : bool) (argv0 : string) (rest0 : list string) :
  PosixPath.isabs ROOT_DIR = true ->
  argv_contents p = argv0 :: rest0 ->
  walk_dirs ROOT_DIR true flake8_main read_text global_ignores (os_walk ROOT_DIR) (0, false)
            (walk_start ROOT_DIR p) = (p2, Return (count, fail)) ->
  calls (trace (test_style ROOT_DIR true flake8_main os_walk read_text p).1)
  = calls (trace p)
    ++ map (fun f => ([argv0; f;
                       "--ignore=" +:+
                       PyStr.join "," (["E226"; "E241"; "E265"; "W291"; "W293"]
                                       ++ own_codes read_text f)], ROOT_DIR))
           (checked_files ROOT_DIR read_text (cwd p) (os_walk ROOT_DIR))
  /\ (forall f, In f (checked_files ROOT_DIR read_text (cwd p) (os_walk ROOT_DIR)) ->
                exists text,
                  read_text f = Return text
                  /\ fst (scan_text text) = false
                  /\ own_codes read_text f = snd (scan_text text)
                  /\ forall w, In w (snd (scan_text text)) <->
                               exists line, In line (take 21 (PyStr.splitlines text))
                                            /\ ignore_directive line = true
                                            /\ In w (tokens line) /\ numeric_shaped w)
  /\ (forall flake8_installed os_walk' p0,
         exists added,
           calls (trace (test_style ROOT_DIR flake8_installed flake8_main os_walk'
                                    read_text p0).1)
           = calls (trace p0) ++ added
           /\ Forall (fun call =>
                        exists head filename text,
                          fst call
                          = head ++ [filename;
                                     "--ignore=" +:+
                                     PyStr.join "," (["E226"; "E241"; "E265"; "W291"; "W293"]
                                                     ++ snd (scan_text text))]
                          /\ length head <= 1
                          /\ read_text filename = Return text
                          /\ fst (scan_text text) = false)
                     added).
Proof.
  intros Habs Hargv Hwalk.
  destruct (walk_start_quiet ROOT_DIR p) as (Ha & Hd & Ht).
  rewrite <- Ha in Hargv.
  destruct (walk_dirs_exact _ _ _ _ _ _ _ _ _ _ _ _ Hargv Hwalk) as (Hcalls & _ & _ & _).
  rewrite Hd, Ht in Hcalls.
  split; [|split].
  - rewrite (test_style_calls_after_walk _ _ _ _ _ _ _ _ Habs Hwalk), Hcalls.
    f_equal. apply map_ext. intros f. apply call_of_own_codes.
  - intros f Hin. destruct (checked_files_readable _ _ _ _ _ Hin) as (text & Hread & Hskip).
    exists text. unfold own_codes. rewrite Hread, scan_text_spec. cbn [fst snd].
    split; [reflexivity|]. split; [exact Hskip|]. split; [reflexivity|].
    intros w. apply file_codes_spec.
  - intros flake8_installed os_walk' p0.
    destruct (test_style_calls ROOT_DIR flake8_installed flake8_main os_walk' read_text p0)
      as (added & Heq & Hall).
    exists added. split; [exact Heq|].
    eapply Forall_impl; [exact Hall|].
    intros call (head & filename & text & Hcall & Hlen & _ & Hread & Hskip).
    exists head, filename, text. rewrite scan_text_spec. cbn [fst snd]. auto.
Qed.

Lemma ignore_set_is_global_plus_own_codes_witness :
  calls (trace (test_style "/proj" true passing_flake8 sample_walk sample_tree
                           sample_process).1)
  = [(["make"; "/proj/./setup.py"; "--ignore=E226,E241,E265,W291,W293,E501,W605"], "/proj");
     (["make"; "/proj/imageio/core.py"; "--ignore=E226,E241,E265,W291,W293"], "/proj")]
  /\ (forall w, In w ["E501"; "W605"] <->
                exists line,
                  In line ["# styletest: ignore E501,W605"; "import os"]
                  /\ ignore_directive line = true
                  /\ In w (tokens line) /\ numeric_shaped w).
Proof.
  destruct (ignore_set_is_global_plus_own_codes
              "/proj" passing_flake8 sample_walk sample_tree sample_process sample_walk_end
              2 false "make" ["test"; "style"])
    as (Hcalls & Hown & _).
  - reflexivity.
  - reflexivity.
  - vm_compute. reflexivity.
  - split.
    + refine (eq_trans Hcalls _). vm_compute. reflexivity.
    + destruct (Hown "/proj/./setup.py") as (text & Hread & _ & _ & Hcodes).
      * vm_compute. left. reflexivity.
      * vm_compute in Hread. injection Hread as <-. exact Hcodes.
Defined.

(** C3: with flake8 installed, let the walk of [test_style] end in
    state [p2] with the tally ([count], [fail]).  Then [count] is the
    number of invocations the walk made and [fail] says whether one of
    them failed; [test_style] ends with [sys.stdout] bound to what it
    was bound to at the start; with no file checked it raises the
    configuration error, with a failing file it raises the aggregate
    error that carries the count, both in the state where [sys.stdout]
    is already restored, and otherwise it returns after printing the
    summary with the count to the restored stream. *)
Theorem test_style_reports
        (ROOT_DIR : string) (flake8_main : list string -> string -> list string * outcome unit)
        (os_walk : string -> list (string * list string * list string))
        (read_text : string -> outcome string)
        (p p2 : Process) (count : nat) (fail : bool) :
  PosixPath.isabs ROOT_DIR = true ->
  walk_dirs ROOT_DIR true flake8_main read_text global_ignores (os_walk ROOT_DIR) (0, false)
            (walk_start ROOT_DIR p) = (p2, Return (count, fail)) ->
  exists added,
    calls (trace p2) = calls (trace p) ++ added
    /\ count = length added
    /\ fail = existsb (failing flake8_main) added
    /\ sys_stdout (test_style ROOT_DIR true flake8_main os_walk read_text p).1 = sys_stdout p
    /\ (count = 0 ->
        test_style ROOT_DIR true flake8_main os_walk read_text p
        = (set_stdout (sys_stdout p) p2,
           Raise (Exc RuntimeError (VStr "    Arg! flake8 did not check any files"))))
    /\ (count <> 0 -> fail = true ->
        test_style ROOT_DIR true flake8_main os_walk read_text p
        = (set_stdout (sys_stdout p) p2,
           Raise (Exc RuntimeError
                      (VStr ("    Arg! flake8 failed (checked "
                             +:+ PyStr.format_i count +:+ " files)")))))
    /\ (count <> 0 -> fail = false ->
        exists evs,
          test_style ROOT_DIR true flake8_main os_walk read_text p
          = (emit_all evs (set_stdout (sys_stdout p) p2), Return tt)
          /\ print ROOT_DIR ("    Hooray! flake8 passed (checked "
                             +:+ PyStr.format_i count +:+ " files)")
                   (set_stdout (sys_stdout p) p2)
             = (emit_all evs (set_stdout (sys_stdout p) p2), Return tt)
          /\ (sys_stdout p = Stdout ->
              evs = [StdoutWrite ("    Hooray! flake8 passed (checked "
                                  +:+ PyStr.format_i count +:+ " files)");
                     StdoutWrite newline])).
Proof.
  intros Habs Hwalk.
  pose proof (test_style_unfold ROOT_DIR flake8_main os_walk read_text p p2 _ Habs Hwalk) as Hts.
  destruct (walk_dirs_inv _ _ _ _ _ _ _ _ _ _ Hwalk) as (added & Hstep & _ & Hst).
  destruct (Hst _ eq_refl) as [Hcount Hfail]. cbn [fst snd] in Hcount, Hfail.
  destruct Hstep as (_ & _ & _ & Hcalls).
  assert (Hstart : calls (trace (walk_start ROOT_DIR p)) = calls (trace p)).
  { unfold walk_start.
    destruct (print ROOT_DIR ("Running flake8 on " +:+ ROOT_DIR) p) as [p1 r1] eqn:Hpr.
    destruct (print_run_step _ _ _ _ _ Hpr) as (_ & _ & _ & Hc). cbn [fst set_stdout trace].
    rewrite Hc, app_nil_r. reflexivity. }
  rewrite Hstart in Hcalls.
  destruct (print_plain ROOT_DIR " " ("   Hooray! flake8 passed (checked "
                                       +:+ PyStr.format_i count +:+ " files)")
                        (set_stdout (sys_stdout p) p2) Habs) as (evs & Hpr & Hc);
    [discriminate|].
  change (String " " ("   Hooray! flake8 passed (checked " +:+ PyStr.format_i count +:+ " files)"))
    with ("    Hooray! flake8 passed (checked " +:+ PyStr.format_i count +:+ " files)") in Hpr.
  exists added. split; [exact Hcalls|]. split; [exact Hcount|]. split; [exact Hfail|].
  split; [|split; [|split]].
  - rewrite Hts. destruct (count =? 0); [reflexivity|]. destruct fail; [reflexivity|].
    rewrite Hpr. reflexivity.
  - intros ->. exact Hts.
  - intros Hne ->. rewrite Hts. destruct (Nat.eqb_spec count 0); [contradiction|reflexivity].
  - intros Hne ->. rewrite Hts. destruct (Nat.eqb_spec count 0); [contradiction|].
    exists evs. split; [exact Hpr|]. split; [exact Hpr|].
    intros Hso. rewrite print_to_stdout in Hpr by exact Hso.
    injection Hpr as Hpr. apply app_inv_head in Hpr. symmetry. exact Hpr.
Qed.

Lemma test_style_reports_witness :
  exists added,
    calls (trace sample_walk_end) = calls (trace sample_process) ++ added
    /\ 2 = length added
    /\ false = existsb (failing passing_flake8) added
    /\ sys_stdout (test_style "/proj" true passing_flake8 sample_walk sample_tree
                              sample_process).1
       = sys_stdout sample_process
    /\ (2 = 0 ->
        test_style "/proj" true passing_flake8 sample_walk sample_tree sample_process
        = (set_stdout (sys_stdout sample_process) sample_walk_end,
           Raise (Exc RuntimeError (VStr "    Arg! flake8 did not check any files"))))
    /\ (2 <> 0 -> false = true ->
        test_style "/proj" true passing_flake8 sample_walk sample_tree sample_process
        = (set_stdout (sys_stdout sample_process) sample_walk_end,
           Raise (Exc RuntimeError
                      (VStr ("    Arg! flake8 failed (checked "
                             +:+ PyStr.format_i 2 +:+ " files)")))))
    /\ (2 <> 0 -> false = false ->
        exists evs,
          test_style "/proj" true passing_flake8 sample_walk sample_tree sample_process
          = (emit_all evs (set_stdout (sys_stdout sample_process) sample_walk_end), Return tt)
          /\ print "/proj" ("    Hooray! flake8 passed (checked "
                            +:+ PyStr.format_i 2 +:+ " files)")
                   (set_stdout (sys_stdout sample_process) sample_walk_end)
             = (emit_all evs (set_stdout (sys_stdout sample_process) sample_walk_end), Return tt)
          /\ (sys_stdout sample_process = Stdout ->
              evs = [StdoutWrite ("    Hooray! flake8 passed (checked "
                                  +:+ PyStr.format_i 2 +:+ " files)");
                     StdoutWrite newline])).
Proof.
  apply (test_style_reports "/proj" passing_flake8 sample_walk sample_tree
           sample_process sample_walk_end 2 false);
    vm_compute; reflexivity.
Defined.

(** C2 fails on the code: [orig_argv = sys.argv] names the list object
    itself, so the slice assignment and the [append] change it too, and
    [sys.argv[:] = orig_argv] copies the changed list onto itself.
    Here [sys.argv] is [make test style] before the call and holds the
    file and the ignore option after it; the working directory, saved
    as a string, is restored. *)
Lemma _test_style_leaves_argv_changed :
  argv_contents sample_process = ["make"; "test"; "style"]
  /\ argv_contents
       (_test_style "/proj" true sample_flake8 "/proj/imageio/a.py" ["E226"; "E241"]
                    sample_process).1
     = ["make"; "/proj/imageio/a.py"; "--ignore=E226,E241"]
  /\ cwd (_test_style "/proj" true sample_flake8 "/proj/imageio/a.py" ["E226"; "E241"]
                      sample_process).1
     = cwd sample_process
  /\ (_test_style "/proj" true sample_flake8 "/proj/imageio/a.py" ["E226"; "E241"]
                  sample_process).2
     = Return (Some true).
Proof. split; [|split; [|split]]; vm_compute; reflexivity. Qed.

(** ** Paths below the root *)

Lemma append_cons (x : ascii) (a b : string) : String x a +:+ b = String x (a +:+ b).
Proof. reflexivity. Qed.

Lemma append_assoc (a b c : string) : (a +:+ b) +:+ c = a +:+ (b +:+ c).
Proof.
  induction a as [|x a IH]; [reflexivity|]. rewrite !append_cons, IH. reflexivity.
Qed.

Lemma split_no_sep (c : string) :
  PyStr.char_in "/"%char c = false -> PyStr.split "/"%char c = [c].
Proof.
  induction c as [|x c IH]; [reflexivity|]. cbn [PyStr.char_in PyStr.split].
  intros H. apply orb_false_elim in H. destruct H as [Hx Hc].
  rewrite Ascii.eqb_sym, Hx, (IH Hc). reflexivity.
Qed.

Lemma split_app_sep (a b : string) :
  PyStr.char_in "/"%char a = false ->
  PyStr.split "/"%char (a +:+ String "/"%char b) = a :: PyStr.split "/"%char b.
Proof.
  induction a as [|x a IH]; [reflexivity|]. rewrite append_cons. cbn [PyStr.char_in PyStr.split].
  intros H. apply orb_false_elim in H. destruct H as [Hx Ha].
  rewrite Ascii.eqb_sym, Hx, (IH Ha). reflexivity.
Qed.

Lemma join_cons (sep c : string) (comps : list string) :
  comps <> [] -> PyStr.join sep (c :: comps) = c +:+ sep +:+ PyStr.join sep comps.
Proof. destruct comps; [contradiction|reflexivity]. Qed.

Lemma split_join (comps : list string) :
  Forall clean comps -> comps <> [] ->
  PyStr.split "/"%char (PyStr.join "/" comps) = comps.
Proof.
  induction 1 as [|c comps (_ & _ & _ & Hc) Hall IH]; [contradiction|]. intros _.
  destruct comps as [|c' comps'].
  - apply split_no_sep, Hc.
  - rewrite join_cons by discriminate.
    change ("/" +:+ PyStr.join "/" (c' :: comps')) with (String "/"%char (PyStr.join "/" (c' :: comps'))).
    rewrite split_app_sep by exact Hc. rewrite IH by discriminate. reflexivity.
Qed.

Lemma norm_comps_clean (slashes : nat) (comps : list string) :
  Forall clean comps ->
  forall acc, PosixPath.norm_comps slashes comps acc = rev acc ++ comps.
Proof.
  induction 1 as [|c comps (H1 & H2 & H3 & _) Hall IH]; intros acc.
  - cbn [PosixPath.norm_comps]. rewrite app_nil_r. reflexivity.
  - cbn [PosixPath.norm_comps].
    destruct (String.eqb_spec c ""); [contradiction|].
    destruct (String.eqb_spec c "."); [contradiction|].
    destruct (String.eqb_spec c ".."); [contradiction|].
    cbn [orb negb]. rewrite IH. cbn [rev]. rewrite <- app_assoc. reflexivity.
Qed.

Lemma filter_nonempty_clean (comps : list string) :
  Forall clean comps ->
  List.filter (fun x => negb (String.eqb x "")) comps = comps.
Proof.
  induction 1 as [|c comps (H1 & _) Hall IH]; [reflexivity|]. cbn [List.filter].
  destruct (String.eqb_spec c ""); [contradiction|]. cbn [negb]. rewrite IH. reflexivity.
Qed.

Lemma clean_first_char (c : string) :
  clean c -> exists x rest, c = String x rest /\ Ascii.eqb x "/" = false.
Proof.
  intros (H1 & _ & _ & H4). destruct c as [|x rest]; [contradiction|].
  exists x, rest. split; [reflexivity|]. cbn [PyStr.char_in] in H4.
  apply orb_false_elim in H4. rewrite Ascii.eqb_sym. apply H4.
Qed.

Lemma join_first_char (comps : list string) :
  Forall clean comps -> comps <> [] ->
  exists x rest, PyStr.join "/" comps = String x rest /\ Ascii.eqb "/" x = false.
Proof.
  intros Hall Hne. destruct comps as [|c comps']; [contradiction|].
  apply Forall_cons in Hall. destruct Hall as [Hc _].
  destruct (clean_first_char c Hc) as (x & rest & -> & Hx). rewrite Ascii.eqb_sym in Hx.
  destruct comps'; cbn [PyStr.join]; rewrite ?append_cons; eauto.
Qed.

Lemma normpath_abs_clean (comps : list string) :
  Forall clean comps -> comps <> [] ->
  PosixPath.normpath (String "/"%char (PyStr.join "/" comps))
  = String "/"%char (PyStr.join "/" comps).
Proof.
  intros Hall Hne.
  destruct (join_first_char comps Hall Hne) as (x & rest & HJ & Hx).
  assert (H1 : PyStr.startswith "/" (String "/"%char (PyStr.join "/" comps)) = true)
    by reflexivity.
  assert (H2 : PyStr.startswith "//" (String "/"%char (PyStr.join "/" comps)) = false).
  { rewrite HJ. cbn [PyStr.startswith]. rewrite Hx. reflexivity. }
  assert (H3 : PyStr.split "/"%char (String "/"%char (PyStr.join "/" comps)) = "" :: comps).
  { cbn [PyStr.split]. rewrite Ascii.eqb_refl, (split_join comps Hall Hne). reflexivity. }
  unfold PosixPath.normpath. cbv zeta. rewrite H1, H2, H3.
  cbn [String.eqb andb PosixPath.norm_comps orb].
  rewrite (norm_comps_clean 1 comps Hall []). reflexivity.
Qed.

(** The components of an absolute path written with clean components. *)
Lemma abs_components (d : string) (comps : list string) :
  Forall clean comps -> comps <> [] ->
  PosixPath.nonempty_comps (PosixPath.abspath d ("/" +:+ PyStr.join "/" comps)) = comps.
Proof.
  intros Hall Hne. unfold PosixPath.abspath, PosixPath.isabs.
  change ("/" +:+ PyStr.join "/" comps) with (String "/"%char (PyStr.join "/" comps)).
  replace (PyStr.startswith "/" (String "/"%char (PyStr.join "/" comps))) with true
    by reflexivity.
  rewrite (normpath_abs_clean comps Hall Hne).
  unfold PosixPath.nonempty_comps. cbn [PyStr.split].
  rewrite Ascii.eqb_refl, (split_join comps Hall Hne). cbn [List.filter String.eqb negb].
  apply filter_nonempty_clean, Hall.
Qed.

Lemma join_app (c1 c2 : list string) :
  c1 <> [] -> c2 <> [] ->
  PyStr.join "/" (c1 ++ c2) = PyStr.join "/" c1 +:+ "/" +:+ PyStr.join "/" c2.
Proof.
  intros H1 H2. induction c1 as [|c c1 IH]; [contradiction|].
  destruct c1 as [|c' c1'].
  - cbn [app]. apply join_cons, H2.
  - cbn [app] in *. rewrite join_cons by discriminate. rewrite IH by discriminate.
    rewrite (join_cons "/" c (c' :: c1')) by discriminate.
    rewrite !append_assoc. reflexivity.
Qed.

Lemma common_len_app (c1 c2 : list string) :
  PosixPath.common_len c1 (c1 ++ c2) = length c1.
Proof.
  induction c1 as [|c c1 IH]; [destruct c2; reflexivity|].
  cbn [app PosixPath.common_len length]. rewrite String.eqb_refl, IH. reflexivity.
Qed.

Lemma endswith_sep_app (a b : string) :
  b <> "" -> PyStr.endswith "/" (a +:+ b) = PyStr.endswith "/" b.
Proof.
  intros Hb. induction a as [|x a IH]; [reflexivity|].
  rewrite append_cons. cbn [PyStr.endswith]. rewrite IH.
  replace (String.eqb "/" (String x (a +:+ b))) with false; [reflexivity|].
  symmetry. cbn [String.eqb]. destruct (Ascii.eqb "/" x); [|reflexivity].
  destruct (a +:+ b) eqn:Hab; [|reflexivity].
  destruct a; [cbn in Hab; contradiction|discriminate].
Qed.

Lemma endswith_sep_clean (c : string) :
  PyStr.char_in "/"%char c = false -> PyStr.endswith "/" c = false.
Proof.
  induction c as [|x c IH]; [reflexivity|]. cbn [PyStr.char_in PyStr.endswith String.eqb].
  intros H. apply orb_false_elim in H. destruct H as [Hx Hc].
  rewrite Hx, (IH Hc). reflexivity.
Qed.

(** [os.path.join] of clean components puts one slash between them. *)
Lemma posix_join_clean (comps : list string) :
  Forall clean comps ->
  forall acc, acc <> "" -> PyStr.endswith "/" acc = false -> comps <> [] ->
              PosixPath.join acc comps = acc +:+ "/" +:+ PyStr.join "/" comps.
Proof.
  unfold PosixPath.join.
  induction 1 as [|c comps Hc Hall IH]; intros acc Hacc Hend Hne; [contradiction|].
  cbn [fold_left]. unfold PosixPath.join2 at 2.
  destruct (clean_first_char c Hc) as (x & rest & -> & Hx).
  cbn [PyStr.startswith]. rewrite Ascii.eqb_sym, Hx. cbn [andb].
  destruct (String.eqb_spec acc ""); [contradiction|]. rewrite Hend. cbn [orb].
  destruct comps as [|c' comps'].
  - reflexivity.
  - rewrite IH.
    + rewrite (join_cons "/" (String x rest) (c' :: comps')) by discriminate.
      rewrite !append_assoc. reflexivity.
    + destruct acc; [contradiction|rewrite append_cons; discriminate].
    + rewrite !endswith_sep_app by discriminate.
      apply endswith_sep_clean. destruct Hc as (_ & _ & _ & Hc). exact Hc.
    + discriminate.
Qed.

(** Below a root written with clean components, [relpath] takes the
    root and the slash after it off. *)
Lemma relpath_below_root (d : string) (root_comps comps : list string) :
  Forall clean root_comps -> Forall clean comps -> root_comps <> [] -> comps <> [] ->
  PosixPath.relpath d (("/" +:+ PyStr.join "/" root_comps) +:+ "/" +:+ PyStr.join "/" comps)
                    ("/" +:+ PyStr.join "/" root_comps)
  = Return (PyStr.join "/" comps).
Proof.
  intros Hroot Hcomps Hr Hc.
  assert (Hmsg : ("/" +:+ PyStr.join "/" root_comps) +:+ "/" +:+ PyStr.join "/" comps
                 = "/" +:+ PyStr.join "/" (root_comps ++ comps)).
  { rewrite join_app by assumption. rewrite !append_assoc. reflexivity. }
  rewrite Hmsg. unfold PosixPath.relpath.
  change ("/" +:+ PyStr.join "/" (root_comps ++ comps))
    with (String "/"%char (PyStr.join "/" (root_comps ++ comps))) at 1.
  cbn [String.eqb].
  rewrite (abs_components d root_comps Hroot Hr).
  rewrite (abs_components d (root_comps ++ comps)).
  2:{ apply Forall_app; auto. }
  2:{ destruct root_comps; [contradiction|discriminate]. }
  rewrite common_len_app, Nat.sub_diag, drop_app_length. cbn [repeat app].
  destruct comps as [|c comps']; [contradiction|].
  destruct comps' as [|c' comps''].
  - reflexivity.
  - apply Forall_cons in Hcomps. destruct Hcomps as [Hc1 Hrest].
    rewrite (posix_join_clean _ Hrest).
    + reflexivity.
    + destruct Hc1 as (H1 & _). exact H1.
    + apply endswith_sep_clean. destruct Hc1 as (_ & _ & _ & H4). exact H4.
    + discriminate.
Qed.

(** ** [FileForTesting.write] *)

Lemma relpath_returns (d path start : string) :
  path <> "" -> exists rel, PosixPath.relpath d path start = Return rel.
Proof.
  intros Hne. unfold PosixPath.relpath.
  destruct (String.eqb_spec path ""); [contradiction|].
  destruct (_ ++ _); eexists; reflexivity.
Qed.

Lemma write_then_flush_stdout (ROOT_DIR msg : string) (p : Process) :
  bind (stream_write ROOT_DIR Stdout msg) (fun _ => stream_flush Stdout) p
  = (emit_all [StdoutWrite msg; StdoutFlush] p, Return tt).
Proof.
  unfold bind. cbn [stream_write stream_flush]. unfold modify.
  rewrite !emit_emit_all, emit_all_app. reflexivity.
Qed.

Lemma startswith_app (a b : string) : PyStr.startswith a (a +:+ b) = true.
Proof.
  induction a as [|x a IH]; [reflexivity|]. rewrite append_cons. cbn [PyStr.startswith].
  rewrite Ascii.eqb_refl, IH. reflexivity.
Qed.

(** C6: a write through the proxy forwards one text to the wrapped
    stream and then flushes that stream.  The text is
    [os.path.relpath(msg, ROOT_DIR)] if [msg] starts with the root (a
    test on the characters), and [msg] itself otherwise; for a message
    that is the root, a slash and a path of clean components, it is
    that path, the root and the slash taken off. *)
Theorem write_forwards_root_relative
        (ROOT_DIR msg : string) (original : stream) (p : Process) :
  PosixPath.isabs ROOT_DIR = true ->
  exists forwarded,
    (PyStr.startswith ROOT_DIR msg = true ->
     PosixPath.relpath (cwd p) msg ROOT_DIR = Return forwarded)
    /\ (PyStr.startswith ROOT_DIR msg = false -> forwarded = msg)
    /\ stream_write ROOT_DIR (FileForTesting original) msg p
       = bind (stream_write ROOT_DIR original forwarded) (fun _ => stream_flush original) p
    /\ (original = Stdout ->
        stream_write ROOT_DIR (FileForTesting original) msg p
        = (emit_all [StdoutWrite forwarded; StdoutFlush] p, Return tt))
    /\ (forall root_comps comps,
          Forall clean root_comps -> Forall clean comps ->
          root_comps <> [] -> comps <> [] ->
          ROOT_DIR = "/" +:+ PyStr.join "/" root_comps ->
          msg = ROOT_DIR +:+ "/" +:+ PyStr.join "/" comps ->
          forwarded = PyStr.join "/" comps).
Proof.
  intros Habs. cbn [stream_write]. destruct (PyStr.startswith ROOT_DIR msg) eqn:Hpre.
  - assert (Hne : msg <> "").
    { intros ->. destruct ROOT_DIR; discriminate. }
    destruct (relpath_returns (cwd p) msg ROOT_DIR Hne) as [rel Hrel].
    exists rel. split; [intros _; exact Hrel|]. split; [discriminate|].
    assert (Heq : bind (bind getcwd (fun d => lift (PosixPath.relpath d msg ROOT_DIR)))
                       (fun m => bind (stream_write ROOT_DIR original m)
                                      (fun _ => stream_flush original)) p
                  = bind (stream_write ROOT_DIR original rel)
                         (fun _ => stream_flush original) p).
    { unfold bind at 1 2. unfold getcwd, get, lift. rewrite Hrel. reflexivity. }
    split; [exact Heq|]. split.
    + intros ->. rewrite Heq. apply write_then_flush_stdout.
    + intros root_comps comps Hrc Hc Hrne Hcne Hroot Hmsg. subst ROOT_DIR msg.
      rewrite (relpath_below_root (cwd p) root_comps comps Hrc Hc Hrne Hcne) in Hrel.
      injection Hrel as <-. reflexivity.
  - exists msg. split; [discriminate|]. split; [reflexivity|].
    split; [reflexivity|]. split.
    + intros ->. apply write_then_flush_stdout.
    + intros root_comps comps _ _ _ _ _ Hmsg. subst msg.
      rewrite startswith_app in Hpre. discriminate.
Qed.

Lemma write_forwards_root_relative_witness :
  stream_write "/proj" (FileForTesting Stdout) "/proj/tests/a.py:1: E1 bad" sample_process
  = (emit_all [StdoutWrite "tests/a.py:1: E1 bad"; StdoutFlush] sample_process, Return tt).
Proof.
  destruct (write_forwards_root_relative "/proj" "/proj/tests/a.py:1: E1 bad" Stdout
              sample_process eq_refl) as (forwarded & Hrel & _ & _ & Hout & _).
  specialize (Hrel eq_refl). vm_compute in Hrel. injection Hrel as <-.
  exact (Hout eq_refl).
Defined.

(** ** [test_unit] *)

Lemma _enable_faulthandler_plain (ROOT_DIR : string) (faulthandler_available : bool)
      (p : Process) :
  PosixPath.isabs ROOT_DIR = true ->
  exists evs,
    _enable_faulthandler ROOT_DIR faulthandler_available p = (emit_all evs p, Return tt)
    /\ calls evs = [].
Proof.
  intros Habs. unfold _enable_faulthandler, try_except. destruct faulthandler_available.
  - destruct (print_plain ROOT_DIR "F" "aulthandler enabled" p Habs) as (evs & Hpr & Hc);
      [discriminate|].
    change (String "F" "aulthandler enabled") with "Faulthandler enabled" in Hpr.
    rewrite Hpr. exists evs. split; [reflexivity|exact Hc].
  - unfold raise. cbn [is_Exception exc_type].
    destruct (print_plain ROOT_DIR "C" "ould not enable faulthandler" p Habs) as (evs & Hpr & Hc);
      [discriminate|].
    change (String "C" "ould not enable faulthandler") with "Could not enable faulthandler" in Hpr.
    rewrite Hpr. exists evs. split; [reflexivity|exact Hc].
Qed.

Lemma test_unit_eq (ROOT_DIR : string) (faulthandler_available : bool)
      (pytest_main : string -> M Z) (cov_report : string) (p : Process) :
  test_unit ROOT_DIR faulthandler_available pytest_main cov_report p
  = let '(p1, r) :=
      bind _clear_imageio
           (fun _ => bind (_enable_faulthandler ROOT_DIR faulthandler_available)
                          (fun _ => pytest_main
                                      ("-v --cov imageio --cov-config .coveragerc --cov-report "
                                       +:+ cov_report +:+ " tests")))
           (set_cwd ROOT_DIR p) in
    (set_cwd (cwd p) p1, r).
Proof.
  unfold test_unit, try_finally, chdir, getcwd, get, modify. unfold bind at 1 2.
  match goal with
  | |- context [ let '(_, _) := ?X in _ ] => destruct X as [p1 r]
  end.
  reflexivity.
Qed.

(** C9: after [test_unit] the working directory is what it was before,
    however the call ends.  With an absolute root the test runner is
    reached, in the root directory and with the modules of imageio
    purged, and [test_unit] ends as the runner ends: it returns the
    runner's exit code or lets its exception through, in the runner's
    final state but for the working directory, which is restored. *)
Theorem test_unit_restores_cwd
        (ROOT_DIR : string) (faulthandler_available : bool) (pytest_main : string -> M Z)
        (cov_report : string) (p : Process) :
  cwd (test_unit ROOT_DIR faulthandler_available pytest_main cov_report p).1 = cwd p
  /\ (PosixPath.isabs ROOT_DIR = true ->
      exists p1,
        cwd p1 = ROOT_DIR
        /\ sys_modules p1
           = List.filter (fun key => negb (PyStr.startswith "imageio" key)) (sys_modules p)
        /\ forall p2 r,
            pytest_main ("-v --cov imageio --cov-config .coveragerc --cov-report "
                         +:+ cov_report +:+ " tests") p1 = (p2, r) ->
            test_unit ROOT_DIR faulthandler_available pytest_main cov_report p
            = (set_cwd (cwd p) p2, r)
            /\ forall code : Z, r = Return code ->
                 (test_unit ROOT_DIR faulthandler_available pytest_main cov_report p).2
                 = Return code).
Proof.
  rewrite test_unit_eq. split.
  - match goal with
    | |- context [ let '(_, _) := ?X in _ ] => destruct X as [p1 r]
    end.
    reflexivity.
  - intros Habs.
    set (q := set_modules
                (List.filter (fun key => negb (PyStr.startswith "imageio" key))
                             (sys_modules (set_cwd ROOT_DIR p)))
                (set_cwd ROOT_DIR p)).
    destruct (_enable_faulthandler_plain ROOT_DIR faulthandler_available q Habs)
      as (evs & Hfh & _).
    exists (emit_all evs q). split; [reflexivity|]. split; [reflexivity|].
    intros p2 r Hrun. unfold bind, _clear_imageio, modify. fold q. rewrite Hfh, Hrun.
    split; [reflexivity|]. intros code ->. reflexivity.
Qed.

Lemma test_unit_restores_cwd_witness :
  cwd (test_unit "/proj" true sample_pytest "term" sample_process).1 = "/home/dev"
  /\ (test_unit "/proj" true sample_pytest "term" sample_process).2 = Return 1%Z.
Proof.
  destruct (test_unit_restores_cwd "/proj" true sample_pytest "term" sample_process)
    as [Hcwd Hrun].
  split; [exact Hcwd|].
  destruct (Hrun eq_refl) as (p1 & _ & _ & Hp1).
  destruct (sample_pytest "-v --cov imageio --cov-config .coveragerc --cov-report term tests" p1)
    as [p2 r] eqn:Hpy.
  destruct (Hp1 p2 r Hpy) as [_ Hcode].
  apply Hcode. unfold sample_pytest in Hpy. injection Hpy as _ <-. reflexivity.
Defined.

(** ** The patched [pytest_runtest_call] *)

(** C8, as stated, fails: a [KeyboardInterrupt] raised by the wrapped
    invocation passes [except Exception] by; it goes on unchanged, but
    the three slots stay as they were (here: unset). *)
Lemma keyboard_interrupt_is_not_recorded :
  pytest_runtest_call string interrupted_test "test_read" sample_process
  = (sample_process,
     Failed (Exc KeyboardInterrupt VNone)
            ["pytest_runtest_call"; "pytest_runtest_call_orig"; "test_read"])
  /\ sys_last_type (pytest_runtest_call string interrupted_test "test_read" sample_process).1
     = None
  /\ sys_last_value (pytest_runtest_call string interrupted_test "test_read" sample_process).1
     = None
  /\ sys_last_traceback (pytest_runtest_call string interrupted_test "test_read" sample_process).1
     = None.
Proof. split; [|split; [|split]]; reflexivity. Qed.

(** C8, amended: every exception raised by the wrapped invocation goes
    on to the caller as it is, never swallowed or replaced.  If it is
    an instance of [Exception], its type, the exception itself and its
    traceback from the frame below the wrapper's on are stored in
    [sys.last_type], [sys.last_value] and [sys.last_traceback] first;
    otherwise the slots are left as they are. *)
Theorem pytest_runtest_call_reraises
        (item : Type) (pytest_runtest_call_orig : item -> Process -> Process * traced unit)
        (it : item) (p p1 : Process) (e : exception) (tb : traceback) :
  pytest_runtest_call_orig it p = (p1, Failed e tb) ->
  (pytest_runtest_call item pytest_runtest_call_orig it p).2
  = Failed e ("pytest_runtest_call" :: tb)
  /\ (is_Exception (exc_type e) = true ->
      (pytest_runtest_call item pytest_runtest_call_orig it p).1 = set_last e tb p1
      /\ sys_last_type (pytest_runtest_call item pytest_runtest_call_orig it p).1
         = Some (exc_type e)
      /\ sys_last_value (pytest_runtest_call item pytest_runtest_call_orig it p).1 = Some e
      /\ sys_last_traceback (pytest_runtest_call item pytest_runtest_call_orig it p).1
         = Some (tb_next ("pytest_runtest_call" :: tb)))
  /\ (is_Exception (exc_type e) = false ->
      (pytest_runtest_call item pytest_runtest_call_orig it p).1 = p1).
Proof.
  intros Horig. unfold pytest_runtest_call. rewrite Horig.
  destruct (is_Exception (exc_type e)); (split; [reflexivity|]); split;
    try discriminate; intros _; repeat split.
Qed.

Lemma pytest_runtest_call_reraises_witness :
  (pytest_runtest_call string failing_test "test_read" sample_process).2
  = Failed (Exc (OtherException "AssertionError") (VStr "assert 1 == 2"))
           ["pytest_runtest_call"; "pytest_runtest_call_orig"; "test_read"]
  /\ sys_last_traceback (pytest_runtest_call string failing_test "test_read" sample_process).1
     = Some ["pytest_runtest_call_orig"; "test_read"].
Proof.
  destruct (pytest_runtest_call_reraises string failing_test "test_read"
              sample_process sample_process
              (Exc (OtherException "AssertionError") (VStr "assert 1 == 2"))
              ["pytest_runtest_call_orig"; "test_read"] eq_refl)
    as (Hraise & Hrec & _).
  split; [exact Hraise|]. destruct (Hrec eq_refl) as (_ & _ & _ & Htb). exact Htb.
Defined.

(** ** The scratch directory *)

Lemma parent_snoc (p : list string) (c : string) : parent (p ++ [c]) = p.
Proof.
  unfold parent. rewrite length_app. simpl.
  replace (length p + 1 - 1) with (length p) by lia. apply take_app_length.
Qed.

Lemma node_at_cons (fs : gmap (list string) node) (p : list string) :
  p <> [] -> node_at fs p = fs !! p.
Proof. destruct p; [contradiction|reflexivity]. Qed.

Lemma rmtree_lookup (d k : list string) (fs : gmap (list string) node) :
  rmtree d fs !! k = if decide (d `prefix_of` k) then None else fs !! k.
Proof.
  unfold rmtree. destruct (decide (d `prefix_of` k)) as [Hp|Hp].
  - apply map_lookup_filter_None. right. intros x _ Hn. apply Hn. exact Hp.
  - destruct (fs !! k) as [x|] eqn:Hk.
    + apply map_lookup_filter_Some. split; [exact Hk|exact Hp].
    + apply map_lookup_filter_None. left. exact Hk.
Qed.

(** In a well-formed file system everything above an entry is a
    directory. *)
Lemma wf_fs_parent (fs : gmap (list string) node) (k : list string) (x : node) :
  wf_fs fs = true -> fs !! k = Some x -> node_at fs (parent k) = Some Dir.
Proof.
  unfold wf_fs. rewrite forallb_forall. intros Hwf Hk.
  specialize (Hwf (k, x)). cbn [fst] in Hwf. unfold isdir in Hwf.
  destruct (node_at fs (parent k)) as [[]|]; try reflexivity;
    discriminate Hwf; apply list_elem_of_In, elem_of_map_to_list, Hk.
Qed.

Lemma wf_fs_above (fs : gmap (list string) node) (q : list string) :
  wf_fs fs = true ->
  forall suffix x, fs !! (q ++ suffix) = Some x -> suffix <> [] -> node_at fs q = Some Dir.
Proof.
  intros Hwf suffix. induction suffix as [|c suffix IH] using rev_ind; intros x Hk Hne.
  - contradiction.
  - pose proof (wf_fs_parent fs _ x Hwf Hk) as Hpar.
    rewrite app_assoc, parent_snoc in Hpar.
    destruct suffix as [|c' suffix'].
    + rewrite app_nil_r in Hpar. exact Hpar.
    + rewrite node_at_cons in Hpar by (destruct q; discriminate).
      apply (IH Dir Hpar). discriminate.
Qed.

Lemma no_file_on_path_prefix (fs : gmap (list string) node) (d q : list string) :
  no_file_on_path fs d = true -> q `prefix_of` d -> node_at fs q <> Some File.
Proof.
  unfold no_file_on_path. rewrite forallb_forall. intros Hno [k ->] Hq.
  specialize (Hno (length q)). rewrite take_app_length in Hno.
  unfold is_file in Hno. rewrite Hq in Hno. discriminate Hno.
  apply in_seq. rewrite length_app. lia.
Qed.

(** [makedirs] succeeds where there is nothing yet and no regular file
    is in the way; it makes [name] a directory and touches only paths
    that lead to it. *)
Lemma makedirs_rev_ok (rname : list string) :
  forall fs : gmap (list string) node,
    (forall q, q `prefix_of` rev rname -> node_at fs q <> Some File) ->
    node_at fs (rev rname) = None ->
    exists fs',
      makedirs_rev rname fs = (fs', Return tt)
      /\ node_at fs' (rev rname) = Some Dir
      /\ (forall k, ~ k `prefix_of` rev rname -> fs' !! k = fs !! k).
Proof.
  induction rname as [|c rhead IH]; intros fs Hno Habsent.
  - discriminate Habsent.
  - cbn [makedirs_rev]. cbn [rev] in *.
    assert (Hname : rev rhead ++ [c] <> []) by (destruct (rev rhead); discriminate).
    assert (Hmk : forall fs1,
               node_at fs1 (rev rhead) = Some Dir ->
               fs1 !! (rev rhead ++ [c]) = None ->
               mkdir (rev rhead ++ [c]) fs1 = (<[rev rhead ++ [c] := Dir]> fs1, Return tt)).
    { intros fs1 Hhead Hnone. unfold mkdir. rewrite parent_snoc, Hhead.
      unfold path_exists. rewrite node_at_cons by exact Hname. rewrite Hnone. reflexivity. }
    rewrite node_at_cons in Habsent by exact Hname.
    unfold path_exists at 1. destruct (node_at fs (rev rhead)) as [n|] eqn:Hhead; cbn [negb].
    + assert (n = Dir) as ->.
      { destruct n; [reflexivity|]. exfalso. apply (Hno (rev rhead)); [|exact Hhead].
        apply prefix_app_r. reflexivity. }
      rewrite (Hmk fs Hhead Habsent). eexists. split; [reflexivity|].
      split.
      * rewrite node_at_cons by exact Hname. apply lookup_insert_eq.
      * intros k Hk. apply lookup_insert_ne. intros <-. apply Hk. reflexivity.
    + destruct (IH fs) as (fs1 & Hrec & Hdir & Hframe).
      { intros q Hq. apply Hno. apply prefix_app_r, Hq. }
      { exact Hhead. }
      rewrite Hrec.
      assert (Hnone : fs1 !! (rev rhead ++ [c]) = None).
      { rewrite Hframe; [exact Habsent|]. apply prefix_snoc_not. }
      rewrite (Hmk fs1 Hdir Hnone). eexists. split; [reflexivity|].
      split.
      * rewrite node_at_cons by exact Hname. apply lookup_insert_eq.
      * intros k Hk. rewrite lookup_insert_ne.
        -- apply Hframe. intros Hk'. apply Hk. apply prefix_app_r, Hk'.
        -- intros <-. apply Hk. reflexivity.
Qed.

Lemma makedirs_ok (d : list string) (fs : gmap (list string) node) :
  (forall q, q `prefix_of` d -> node_at fs q <> Some File) ->
  node_at fs d = None ->
  exists fs',
    makedirs d fs = (fs', Return tt)
    /\ node_at fs' d = Some Dir
    /\ (forall k, ~ k `prefix_of` d -> fs' !! k = fs !! k).
Proof.
  intros Hno Habsent. unfold makedirs.
  pose proof (makedirs_rev_ok (rev d) fs) as H. rewrite rev_involutive in H.
  apply H; assumption.
Qed.

(** C4: when the scratch directory has not been set up in this process
    (and [appdata_dir] answers with [a], in a well-formed file system
    where no regular file stands at or above the target), the first
    call of [get_test_dir] returns [a/testdir], which is then a
    directory with nothing in it, whatever was there before, and
    registers the exit hook; and every later call, while the global
    keeps its value, returns the same path and leaves the file system
    and the hooks exactly as it finds them. *)
Theorem get_test_dir_fresh_then_same
        (appdata_dir : string -> gmap (list string) node ->
                       gmap (list string) node * outcome (list string))
        (st : TestDirState) (fs1 : gmap (list string) node) (a : list string) :
  _the_test_dir st = None ->
  appdata_dir "imageio" (fs st) = (fs1, Return a) ->
  wf_fs fs1 = true ->
  no_file_on_path fs1 (a ++ ["testdir"]) = true ->
  exists st1,
    get_test_dir appdata_dir st = (st1, Return (a ++ ["testdir"]))
    /\ isdir (fs st1) (a ++ ["testdir"]) = true
    /\ (forall k, a ++ ["testdir"] `prefix_of` k -> k <> a ++ ["testdir"] ->
                  fs st1 !! k = None)
    /\ atexit_hooks st1 = atexit_hooks st ++ [RmtreeTestDir]
    /\ (forall st2, _the_test_dir st2 = _the_test_dir st1 ->
                    get_test_dir appdata_dir st2 = (st2, Return (a ++ ["testdir"]))).
Proof.
  intros Hnone Happ Hwf Hno. unfold get_test_dir at 1. rewrite Hnone, Happ.
  set (d := a ++ ["testdir"]) in *.
  assert (Hd : d <> []) by (unfold d; destruct a; discriminate).
  assert (Hfinish : forall fs2,
    (forall q, q `prefix_of` d -> node_at fs2 q <> Some File) ->
    node_at fs2 d = None ->
    (forall k, d `prefix_of` k -> k <> d -> fs2 !! k = None) ->
    exists st1,
      match makedirs d fs2 with
      | (fs3, Return _) =>
          (mkTestDirState fs3 (Some d) (atexit_hooks st ++ [RmtreeTestDir]), Return d)
      | (fs3, Raise e) => (mkTestDirState fs3 (Some d) (atexit_hooks st), Raise e)
      end = (st1, Return d)
      /\ isdir (fs st1) d = true
      /\ (forall k, d `prefix_of` k -> k <> d -> fs st1 !! k = None)
      /\ atexit_hooks st1 = atexit_hooks st ++ [RmtreeTestDir]
      /\ (forall st2, _the_test_dir st2 = _the_test_dir st1 ->
                      get_test_dir appdata_dir st2 = (st2, Return d))).
  { intros fs2 Hno2 Habs2 Hempty2.
    destruct (makedirs_ok d fs2 Hno2 Habs2) as (fs3 & -> & Hdir & Hframe).
    eexists. split; [reflexivity|]. cbn [fs atexit_hooks _the_test_dir].
    split; [unfold isdir; rewrite Hdir; reflexivity|].
    split; [|split; [reflexivity|]].
    - intros k Hk Hne. rewrite Hframe; [apply Hempty2; assumption|].
      intros Hk'. apply Hne. apply (anti_symm prefix); assumption.
    - intros st2 Hst2. unfold get_test_dir. rewrite Hst2. reflexivity. }
  destruct (isdir fs1 d) eqn:Hisdir.
  - apply Hfinish.
    + intros q Hq. destruct q as [|c q]; [discriminate|]. cbn [node_at].
      rewrite rmtree_lookup. destruct (decide (d `prefix_of` c :: q)); [discriminate|].
      apply (no_file_on_path_prefix fs1 d (c :: q) Hno Hq).
    + rewrite node_at_cons by exact Hd. rewrite rmtree_lookup.
      destruct (decide (d `prefix_of` d)) as [|Hn]; [reflexivity|]. exfalso. apply Hn. reflexivity.
    + intros k Hk _. rewrite rmtree_lookup.
      destruct (decide (d `prefix_of` k)); [reflexivity|contradiction].
  - assert (Habs : node_at fs1 d = None).
    { pose proof (no_file_on_path_prefix fs1 d d Hno (reflexivity d)) as Hnf.
      unfold isdir in Hisdir. destruct (node_at fs1 d) as [[]|]; congruence. }
    apply Hfinish.
    + intros q Hq. apply (no_file_on_path_prefix fs1 d q Hno Hq).
    + exact Habs.
    + intros k [suffix ->] Hne. destruct (fs1 !! (d ++ suffix)) as [x|] eqn:Hk; [|reflexivity].
      exfalso. assert (Hs : suffix <> []) by (intros ->; apply Hne; apply app_nil_r).
      rewrite (wf_fs_above fs1 d Hwf suffix x Hk Hs) in Habs. discriminate.
Qed.

Lemma get_test_dir_fresh_then_same_witness :
  exists st1,
    get_test_dir sample_appdata_dir (mkTestDirState sample_fs None [])
    = (st1, Return ["home"; "dev"; ".imageio"; "testdir"])
    /\ isdir (fs st1) ["home"; "dev"; ".imageio"; "testdir"] = true
    /\ (forall k, ["home"; "dev"; ".imageio"; "testdir"] `prefix_of` k ->
                  k <> ["home"; "dev"; ".imageio"; "testdir"] -> fs st1 !! k = None)
    /\ atexit_hooks st1 = [RmtreeTestDir]
    /\ (forall st2, _the_test_dir st2 = _the_test_dir st1 ->
                    get_test_dir sample_appdata_dir st2
                    = (st2, Return ["home"; "dev"; ".imageio"; "testdir"])).
Proof.
  apply (get_test_dir_fresh_then_same sample_appdata_dir (mkTestDirState sample_fs None [])
           sample_fs ["home"; "dev"; ".imageio"]);
    vm_compute; reflexivity.
Defined.

(** * Further properties of the module *)

(** ** The root directory *)

Lemma ancestor_succ_r (k : nat) (p : string) : ancestor k (dirname p) = ancestor (S k) p.
Proof. unfold ancestor. symmetry. apply Nat.iter_succ_r. Qed.

Lemma climb_nearest (isfile : string -> bool) (n : nat) :
  forall this, 1 <= n ->
    exists k, 1 <= k <= n
              /\ climb isfile n this = ancestor k this
              /\ (forall j, 1 <= j < k -> marked isfile (ancestor j this) = false)
              /\ (k < n -> marked isfile (ancestor k this) = true).
Proof.
  induction n as [|n IH]; intros this Hn; [lia|].
  cbn [climb]. fold (marked isfile (dirname this)).
  destruct (marked isfile (dirname this)) eqn:Hm.
  - exists 1. split; [lia|]. split; [reflexivity|]. split; [intros j Hj; lia|].
    intros _. exact Hm.
  - destruct n as [|n'].
    + exists 1. split; [lia|]. split; [reflexivity|]. split; [intros j Hj; lia|lia].
    + destruct (IH (dirname this)) as (k & Hk & Heq & Hbelow & Hat); [lia|].
      exists (S k). split; [lia|]. rewrite Heq, ancestor_succ_r.
      split; [reflexivity|]. split.
      * intros j Hj. destruct j as [|[|j']]; [lia|exact Hm|].
        rewrite <- ancestor_succ_r. apply Hbelow. lia.
      * intros Hlt. rewrite <- ancestor_succ_r. apply Hat. lia.
Qed.

(** X1: [ROOT_DIR] is the nearest directory above the module's own,
    one to nine levels up, that holds a [.gitignore]; if none of those
    nine does, it is the ninth.  The module's own directory is not
    looked at. *)
Theorem root_is_nearest_marked_ancestor (isfile : string -> bool) (d file : string) :
  exists k,
    1 <= k <= 9
    /\ locate_root isfile d file = ancestor k (PosixPath.abspath d (dirname file))
    /\ (forall j, 1 <= j < k ->
                  marked isfile (ancestor j (PosixPath.abspath d (dirname file))) = false)
    /\ (k < 9 -> marked isfile (ancestor k (PosixPath.abspath d (dirname file))) = true).
Proof. unfold locate_root. apply climb_nearest. lia. Qed.

(** Absolute paths stay absolute one level up. *)
Lemma rstrip_sep_empty (s : string) :
  rstrip_sep s = "" -> PyStr.all_chars is_sep s = true.
Proof.
  induction s as [|c s IH]; [reflexivity|]. cbn [rstrip_sep PyStr.all_chars].
  destruct (rstrip_sep s) eqn:Hr; [|discriminate].
  destruct (is_sep c); [|discriminate]. intros _. apply IH. reflexivity.
Qed.

Lemma dirname_isabs (p : string) :
  PosixPath.isabs p = true -> PosixPath.isabs (dirname p) = true.
Proof.
  unfold PosixPath.isabs. destruct p as [|c p]; [discriminate|].
  cbn [PyStr.startswith]. rewrite andb_true_r. intros Hc.
  apply Ascii.eqb_eq in Hc. subst c.
  assert (Hhead : exists h, head_through_last_sep (String "/" p) = String "/" h).
  { cbn [head_through_last_sep]. destruct (head_through_last_sep p); eexists; reflexivity. }
  destruct Hhead as [h Hh]. unfold dirname. rewrite Hh. cbn [String.eqb negb andb].
  destruct (PyStr.all_chars is_sep (String "/" h)) eqn:Hall; cbn [negb].
  - reflexivity.
  - cbn [rstrip_sep]. destruct (rstrip_sep h) eqn:Hr; [|reflexivity].
    cbn [PyStr.all_chars] in Hall. rewrite (rstrip_sep_empty h Hr) in Hall. discriminate.
Qed.

Lemma normpath_isabs (p : string) :
  PosixPath.isabs p = true -> PosixPath.isabs (PosixPath.normpath p) = true.
Proof.
  unfold PosixPath.isabs. intros Hp. unfold PosixPath.normpath.
  destruct (String.eqb_spec p ""); [subst; discriminate|]. cbv zeta. rewrite Hp.
  destruct (PyStr.startswith "//" p && negb (PyStr.startswith "///" p)); reflexivity.
Qed.

Lemma abspath_isabs (d path : string) :
  PosixPath.isabs d = true -> PosixPath.isabs (PosixPath.abspath d path) = true.
Proof.
  intros Hd. unfold PosixPath.abspath. apply normpath_isabs.
  destruct (PosixPath.isabs path) eqn:Hp; [exact Hp|].
  unfold PosixPath.join. cbn [fold_left]. unfold PosixPath.join2.
  unfold PosixPath.isabs in Hp. rewrite Hp.
  unfold PosixPath.isabs in *. destruct d as [|c d']; [discriminate|].
  destruct (_ || _); rewrite append_cons; exact Hd.
Qed.

Lemma climb_isabs (isfile : string -> bool) (n : nat) :
  forall this, PosixPath.isabs this = true -> PosixPath.isabs (climb isfile n this) = true.
Proof.
  induction n as [|n IH]; intros this Habs; [exact Habs|]. cbn [climb].
  destruct (isfile _); [apply dirname_isabs, Habs|apply IH, dirname_isabs, Habs].
Qed.

(** X2: imported in an absolute working directory, the module computes
    an absolute [ROOT_DIR], wherever its file lies and whatever the
    file system holds. *)
Theorem root_is_absolute (isfile : string -> bool) (d file : string) :
  PosixPath.isabs d = true -> PosixPath.isabs (locate_root isfile d file) = true.
Proof.
  intros Hd. unfold locate_root. apply climb_isabs, abspath_isabs, Hd.
Qed.

Lemma root_is_absolute_witness :
  PosixPath.isabs (locate_root (fun f => String.eqb f "/home/dev/proj/.gitignore")
                               "/home/dev" "proj/imageio/testing.py") = true.
Proof.
  apply (root_is_absolute (fun f => String.eqb f "/home/dev/proj/.gitignore")
           "/home/dev" "proj/imageio/testing.py").
  reflexivity.
Defined.

(** ** The output proxy *)

Lemma startswith_nonempty (a msg : string) :
  PosixPath.isabs a = true -> PyStr.startswith a msg = true -> msg <> "".
Proof. intros Ha Hm ->. destruct a; discriminate. Qed.

Lemma write_all_returns_aux (ROOT_DIR : string) (s : stream) :
  PosixPath.isabs ROOT_DIR = true ->
  forall msg p, exists evs,
      stream_write ROOT_DIR s msg p = (emit_all evs p, Return tt) /\ calls evs = [].
Proof.
  intros Habs. induction s as [|s IH]; intros msg p.
  - exists [StdoutWrite msg]. split; reflexivity.
  - cbn [stream_write]. unfold bind at 1.
    assert (Hfwd : exists fwd,
      (if PyStr.startswith ROOT_DIR msg
       then bind getcwd (fun d => lift (PosixPath.relpath d msg ROOT_DIR))
       else ret msg) p = (p, Return fwd)).
    { destruct (PyStr.startswith ROOT_DIR msg) eqn:Hpre; [|eexists; reflexivity].
      destruct (relpath_returns (cwd p) msg ROOT_DIR (startswith_nonempty _ _ Habs Hpre))
        as [rel Hrel].
      exists rel. unfold bind, getcwd, get, lift. rewrite Hrel. reflexivity. }
    destruct Hfwd as [fwd ->]. unfold bind.
    destruct (IH fwd p) as (evs1 & -> & Hc1).
    destruct (stream_flush_output s (emit_all evs1 p)) as (evs2 & -> & Hc2).
    exists (evs1 ++ evs2). rewrite emit_all_app, calls_app, Hc1, Hc2. split; reflexivity.
Qed.

(** X3: with an absolute root no write and no [print] raises, through
    however many proxies [sys.stdout] is wrapped, and all either does
    to the process is to add output to the trace. *)
Theorem writing_never_raises (ROOT_DIR : string) :
  PosixPath.isabs ROOT_DIR = true ->
  (forall s msg p, exists evs,
        stream_write ROOT_DIR s msg p = (emit_all evs p, Return tt) /\ calls evs = [])
  /\ (forall msg p, exists evs,
         print ROOT_DIR msg p = (emit_all evs p, Return tt) /\ calls evs = []).
Proof.
  intros Habs. split.
  - intros s. apply write_all_returns_aux, Habs.
  - intros msg p. unfold print, bind, get.
    destruct (write_all_returns_aux ROOT_DIR (sys_stdout p) Habs msg p) as (evs1 & -> & Hc1).
    destruct (write_all_returns_aux ROOT_DIR (sys_stdout p) Habs (String "010"%char "")
                                    (emit_all evs1 p)) as (evs2 & -> & Hc2).
    exists (evs1 ++ evs2). rewrite emit_all_app, calls_app, Hc1, Hc2. split; reflexivity.
Qed.

Lemma writing_never_raises_witness :
  exists evs,
    print "/proj" "/proj/imageio/core.py:3:1: W605" (set_stdout (FileForTesting Stdout) sample_process)
    = (emit_all evs (set_stdout (FileForTesting Stdout) sample_process), Return tt)
    /\ calls evs = [].
Proof.
  destruct (writing_never_raises "/proj" eq_refl) as [_ Hprint].
  apply Hprint.
Defined.

(** The pieces of a split hold no separator. *)
Lemma split_pieces_no_sep (s : string) :
  Forall (fun w => PyStr.char_in "/"%char w = false) (PyStr.split "/"%char s).
Proof.
  induction s as [|c s IH]; [repeat constructor|]. cbn [PyStr.split].
  destruct (Ascii.eqb_spec c "/") as [->|Hc].
  - constructor; [reflexivity|exact IH].
  - destruct (PyStr.split "/"%char s) as [|w ws]; [repeat constructor|].
    + cbn [PyStr.char_in]. destruct (Ascii.eqb_spec "/" c); [subst; contradiction|reflexivity].
    + apply Forall_cons in IH. destruct IH as [Hw Hws]. constructor; [|exact Hws].
      cbn [PyStr.char_in]. rewrite Hw.
      destruct (Ascii.eqb_spec "/" c); [subst; contradiction|reflexivity].
Qed.

Lemma relative_comp_not_abs (w : string) : relative_comp w -> PosixPath.isabs w = false.
Proof.
  intros (x & rest & -> & Hx). unfold PosixPath.isabs. cbn [PyStr.startswith].
  rewrite Ascii.eqb_sym, Hx. reflexivity.
Qed.

Lemma nonempty_comps_relative (p : string) :
  Forall relative_comp (PosixPath.nonempty_comps p).
Proof.
  unfold PosixPath.nonempty_comps. pose proof (split_pieces_no_sep p) as H.
  induction H as [|w ws Hw _ IH]; [constructor|]. cbn [List.filter].
  destruct w as [|x rest]; [exact IH|]. cbn [String.eqb negb]. constructor; [|exact IH].
  exists x, rest. split; [reflexivity|]. cbn [PyStr.char_in] in Hw.
  apply orb_false_elim in Hw. rewrite Ascii.eqb_sym. apply Hw.
Qed.

Lemma posix_join_relative (comps : list string) :
  Forall relative_comp comps ->
  forall acc, relative_comp acc -> relative_comp (PosixPath.join acc comps).
Proof.
  unfold PosixPath.join. induction 1 as [|c comps Hc _ IH]; intros acc Hacc; [exact Hacc|].
  cbn [fold_left]. apply IH. unfold PosixPath.join2.
  rewrite (relative_comp_not_abs c Hc : PyStr.startswith "/" c = false).
  destruct Hacc as (x & rest & -> & Hx).
  destruct (_ || _); rewrite append_cons; eexists _, _; (split; [reflexivity|exact Hx]).
Qed.

(** What [relpath] returns never begins with a slash. *)
Lemma relpath_relative (d path start rel : string) :
  PosixPath.relpath d path start = Return rel -> relative_comp rel.
Proof.
  unfold PosixPath.relpath. destruct (String.eqb path ""); [discriminate|].
  set (start_list := PosixPath.nonempty_comps (PosixPath.abspath d start)).
  set (path_list := PosixPath.nonempty_comps (PosixPath.abspath d path)).
  set (i := PosixPath.common_len start_list path_list).
  assert (Hall : Forall relative_comp
                        (repeat ".." (length start_list - i) ++ drop i path_list)).
  { apply Forall_app. split.
    - apply Forall_forall. intros w Hw. apply list_elem_of_In, repeat_spec in Hw. subst w.
      exists "."%char, ".". split; reflexivity.
    - apply Forall_drop, nonempty_comps_relative. }
  destruct (_ ++ _) as [|a p].
  - intros [= <-]. exists "."%char, "". split; reflexivity.
  - apply Forall_cons in Hall. destruct Hall as [Ha Hp].
    intros [= <-]. apply posix_join_relative; assumption.
Qed.

Lemma proxy_write_eq (ROOT_DIR msg : string) (original : stream) (p : Process) :
  stream_write ROOT_DIR (FileForTesting original) msg p
  = match (if PyStr.startswith ROOT_DIR msg
           then PosixPath.relpath (cwd p) msg ROOT_DIR else Return msg) with
    | Return fwd =>
        bind (stream_write ROOT_DIR original fwd) (fun _ => stream_flush original) p
    | Raise e => (p, Raise e)
    end.
Proof.
  cbn [stream_write]. unfold bind at 1.
  destruct (PyStr.startswith ROOT_DIR msg).
  - unfold bind at 1. unfold getcwd, get, lift.
    destruct (PosixPath.relpath (cwd p) msg ROOT_DIR); reflexivity.
  - reflexivity.
Qed.

(** X4: with an absolute root, a proxy around a proxy forwards what a
    single proxy forwards: the text made relative once is not made
    relative again, and the wrapped stream gets one more flush. *)
Theorem nested_proxy_relativizes_once (ROOT_DIR msg : string) (original : stream) (p : Process) :
  PosixPath.isabs ROOT_DIR = true ->
  stream_write ROOT_DIR (FileForTesting (FileForTesting original)) msg p
  = bind (stream_write ROOT_DIR (FileForTesting original) msg)
         (fun _ => stream_flush original) p.
Proof.
  intros Habs.
  assert (Hfwd : exists fwd,
            (if PyStr.startswith ROOT_DIR msg
             then PosixPath.relpath (cwd p) msg ROOT_DIR else Return msg) = Return fwd
            /\ PyStr.startswith ROOT_DIR fwd = false).
  { destruct (PyStr.startswith ROOT_DIR msg) eqn:Hpre.
    - destruct (relpath_returns (cwd p) msg ROOT_DIR (startswith_nonempty _ _ Habs Hpre))
        as [rel Hrel].
      exists rel. split; [exact Hrel|].
      destruct (relpath_relative _ _ _ _ Hrel) as (x & rest & -> & Hx).
      apply startswith_absolute_root; [exact Habs|]. intros ->. discriminate Hx.
    - exists msg. split; [reflexivity|exact Hpre]. }
  destruct Hfwd as (fwd & Hfwd & Hplain).
  rewrite proxy_write_eq, Hfwd. unfold bind at 1 2.
  rewrite (proxy_write_eq ROOT_DIR fwd), (proxy_write_eq ROOT_DIR msg), Hfwd, Hplain.
  cbn [stream_flush]. reflexivity.
Qed.

Lemma nested_proxy_relativizes_once_witness :
  stream_write "/proj" (FileForTesting (FileForTesting Stdout)) "/proj/tests/a.py:1: E1 bad"
               sample_process
  = (emit_all [StdoutWrite "tests/a.py:1: E1 bad"; StdoutFlush; StdoutFlush] sample_process,
     Return tt).
Proof.
  rewrite (nested_proxy_relativizes_once "/proj" "/proj/tests/a.py:1: E1 bad" Stdout
             sample_process eq_refl).
  vm_compute. reflexivity.
Defined.

Lemma join_snoc_append (init : list string) (last suffix : string) :
  PyStr.join "/" (init ++ [last]) +:+ suffix = PyStr.join "/" (init ++ [last +:+ suffix]).
Proof.
  induction init as [|c init IH]; [reflexivity|]. cbn [app].
  rewrite !join_cons by (destruct init; discriminate).
  rewrite !append_assoc, IH. reflexivity.
Qed.

Lemma append_neq_self (a b : string) : b <> "" -> String.eqb a (a +:+ b) = false.
Proof.
  intros Hb. induction a as [|x a IH].
  - destruct b; [contradiction|reflexivity].
  - rewrite append_cons. cbn [String.eqb]. rewrite Ascii.eqb_refl. exact IH.
Qed.

Lemma common_len_sibling (init tail : list string) (last suffix : string) :
  suffix <> "" ->
  PosixPath.common_len (init ++ [last]) (init ++ (last +:+ suffix) :: tail) = length init.
Proof.
  intros Hs. induction init as [|c init IH].
  - cbn [app PosixPath.common_len]. rewrite (append_neq_self last suffix Hs). reflexivity.
  - cbn [app PosixPath.common_len length]. rewrite String.eqb_refl, IH. reflexivity.
Qed.

Lemma startswith_refl (a : string) : PyStr.startswith a a = true.
Proof.
  induction a as [|x a IH]; [reflexivity|]. cbn [PyStr.startswith].
  rewrite Ascii.eqb_refl, IH. reflexivity.
Qed.

(** X5: the test for the root is one on the characters, not on path
    components.  Written through the proxy, the root itself comes out
    as [.], and a path below a sibling directory whose name continues
    the last component of the root (such as [/project2/x.py] for the
    root [/proj]) comes out with [..] in front, not with the root
    taken off. *)
Theorem root_prefix_is_textual (init tail : list string) (last suffix : string) (p : Process) :
  Forall clean init -> clean last -> clean (last +:+ suffix) -> Forall clean tail ->
  suffix <> "" -> tail <> [] ->
  stream_write ("/" +:+ PyStr.join "/" (init ++ [last])) (FileForTesting Stdout)
               (("/" +:+ PyStr.join "/" (init ++ [last])) +:+ suffix
                +:+ "/" +:+ PyStr.join "/" tail) p
  = (emit_all [StdoutWrite ("../" +:+ last +:+ suffix +:+ "/" +:+ PyStr.join "/" tail);
               StdoutFlush] p, Return tt)
  /\ stream_write ("/" +:+ PyStr.join "/" (init ++ [last])) (FileForTesting Stdout)
                  ("/" +:+ PyStr.join "/" (init ++ [last])) p
     = (emit_all [StdoutWrite "."; StdoutFlush] p, Return tt).
Proof.
  intros Hinit Hlast Hsib Htail Hs Ht.
  assert (Hroot : Forall clean (init ++ [last])) by (apply Forall_app; auto).
  assert (Hrest : Forall clean ((last +:+ suffix) :: tail)) by (constructor; auto).
  assert (Hpath : Forall clean (init ++ (last +:+ suffix) :: tail)) by (apply Forall_app; auto).
  assert (Hne : forall (x : string) l, init ++ x :: l <> [])
    by (intros x l; destruct init; discriminate).
  set (root := "/" +:+ PyStr.join "/" (init ++ [last])).
  split.
  - rewrite proxy_write_eq, startswith_app.
    assert (Hrel : PosixPath.relpath (cwd p)
                     (root +:+ suffix +:+ "/" +:+ PyStr.join "/" tail) root
                   = Return ("../" +:+ last +:+ suffix +:+ "/" +:+ PyStr.join "/" tail)).
    { assert (Hmsg : root +:+ suffix +:+ "/" +:+ PyStr.join "/" tail
                     = "/" +:+ PyStr.join "/" (init ++ (last +:+ suffix) :: tail)).
      { unfold root. rewrite append_assoc. rewrite <- (append_assoc _ suffix).
        rewrite join_snoc_append.
        rewrite <- (join_app (init ++ [last +:+ suffix]) tail (Hne _ _) Ht).
        rewrite <- app_assoc. reflexivity. }
      rewrite Hmsg. unfold root, PosixPath.relpath.
      change ("/" +:+ PyStr.join "/" (init ++ (last +:+ suffix) :: tail))
        with (String "/"%char (PyStr.join "/" (init ++ (last +:+ suffix) :: tail))) at 1.
      cbn [String.eqb].
      rewrite (abs_components (cwd p) _ Hroot (Hne last [])).
      rewrite (abs_components (cwd p) _ Hpath (Hne _ _)).
      rewrite (common_len_sibling init tail last suffix Hs), length_app, drop_app_length.
      replace (length init + length [last] - length init) with 1 by (cbn [length]; lia).
      cbn [repeat app].
      rewrite (posix_join_clean _ Hrest ".."); [|discriminate|reflexivity|discriminate].
      rewrite (join_cons "/" (last +:+ suffix) tail Ht), !append_assoc. reflexivity. }
    rewrite Hrel. apply write_then_flush_stdout.
  - rewrite proxy_write_eq. fold root. rewrite startswith_refl.
    assert (Hrel : PosixPath.relpath (cwd p) root root = Return ".").
    { unfold root, PosixPath.relpath.
      change ("/" +:+ PyStr.join "/" (init ++ [last]))
        with (String "/"%char (PyStr.join "/" (init ++ [last]))) at 1.
      cbn [String.eqb].
      rewrite (abs_components (cwd p) _ Hroot (Hne last [])).
      pose proof (common_len_app (init ++ [last]) []) as Hc. rewrite app_nil_r in Hc.
      rewrite Hc, Nat.sub_diag, drop_all. reflexivity. }
    rewrite Hrel. apply write_then_flush_stdout.
Qed.

Lemma root_prefix_is_textual_witness :
  stream_write "/proj" (FileForTesting Stdout) "/project2/x.py:1:1: E1" sample_process
  = (emit_all [StdoutWrite "../project2/x.py:1:1: E1"; StdoutFlush] sample_process, Return tt)
  /\ stream_write "/proj" (FileForTesting Stdout) "/proj" sample_process
     = (emit_all [StdoutWrite "."; StdoutFlush] sample_process, Return tt).
Proof.
  apply (root_prefix_is_textual [] ["x.py:1:1: E1"] "proj" "ect2" sample_process).
  - constructor.
  - repeat split; discriminate.
  - repeat split; discriminate.
  - repeat constructor; discriminate.
  - discriminate.
  - discriminate.
Defined.

(** ** One file under flake8 *)

Lemma write_all_returns (ROOT_DIR : string) (msgs : list string) :
  PosixPath.isabs ROOT_DIR = true ->
  forall p, exists evs,
      write_all ROOT_DIR msgs p = (emit_all evs p, Return tt) /\ calls evs = [].
Proof.
  intros Habs. induction msgs as [|msg rest IH]; intros p; cbn [write_all].
  - exists []. rewrite emit_all_nil. split; reflexivity.
  - unfold bind, get.
    destruct (write_all_returns_aux ROOT_DIR (sys_stdout p) Habs msg p) as (evs1 & -> & Hc1).
    destruct (IH (emit_all evs1 p)) as (evs2 & -> & Hc2).
    exists (evs1 ++ evs2). rewrite emit_all_app, calls_app, Hc1, Hc2. split; reflexivity.
Qed.

(** X6: how [_test_style] ends, with flake8 installed and an absolute
    root.  It invokes [main] once, in the root directory, with
    [sys.argv] holding the old first element, the file and the ignore
    option.  [SystemExit] with code [None] or [0] gives [False], with
    any other code [True]; a [main] that returns gives [None]; every
    other exception goes on to the caller.  In each case the working
    directory is the one from before the call. *)
Theorem _test_style_outcome
        (ROOT_DIR : string) (flake8_main : list string -> string -> list string * outcome unit)
        (filename : string) (ignore : list string) (p : Process) :
  PosixPath.isabs ROOT_DIR = true ->
  (_test_style ROOT_DIR true flake8_main filename ignore p).2
  = style_result (flake8_main (style_argv (argv_contents p) filename ignore) ROOT_DIR).2
  /\ cwd (_test_style ROOT_DIR true flake8_main filename ignore p).1 = cwd p
  /\ calls (trace (_test_style ROOT_DIR true flake8_main filename ignore p).1)
     = calls (trace p) ++ [(style_argv (argv_contents p) filename ignore, ROOT_DIR)].
Proof.
  intros Habs.
  destruct (_test_style ROOT_DIR true flake8_main filename ignore p) as [p' res] eqn:Hts.
  destruct (_test_style_run_step _ _ _ _ _ _ _ _ Hts) as (Hcwd & _ & _ & _ & Hcalls & _).
  split; [|split; [exact Hcwd|exact Hcalls]]. cbn [snd].
  set (A := style_argv (argv_contents p) filename ignore) in *.
  revert Hts.
  unfold _test_style, bind at 1 2 3 4 5 6 7, get, getcwd, chdir, modify, try_finally, try_except,
    list_assign_from1, list_append, list_assign_all.
  cbn -[PyStr.join String.append call_flake8_main].
  match goal with
  | |- context [ bind (call_flake8_main _ _ _) _ ?st ] =>
      assert (Hpre : st = set_cwd ROOT_DIR (set_lists (<[sys_argv p := A]> (lists p)) p))
  end.
  { unfold set_lists, set_cwd, deref. cbn -[PyStr.join String.append].
    rewrite lookup_insert_eq. cbn -[PyStr.join String.append].
    rewrite insert_insert_eq. unfold A, style_argv, argv_contents, deref.
    rewrite <- app_assoc. reflexivity. }
  rewrite Hpre. clear Hpre.
  unfold bind, call_flake8_main, get, getcwd, modify, lift.
  cbn -[PyStr.join String.append write_all].
  assert (Hargv : argv_contents (set_cwd ROOT_DIR (set_lists (<[sys_argv p:=A]> (lists p)) p)) = A).
  { unfold argv_contents, deref. simpl. rewrite lookup_insert_eq. reflexivity. }
  rewrite Hargv. clear Hargv. unfold bind.
  destruct (write_all_returns ROOT_DIR (flake8_main A ROOT_DIR).1 Habs
              (emit (Flake8Main A ROOT_DIR)
                    (set_cwd ROOT_DIR (set_lists (<[sys_argv p:=A]> (lists p)) p))))
    as (evs & -> & _).
  unfold style_result.
  destruct (flake8_main A ROOT_DIR).2 as [[]|e].
  - intros [= _ <-]. reflexivity.
  - destruct (is_SystemExit e).
    + destruct (code_is_success (exc_arg e)); intros [= _ <-]; reflexivity.
    + intros [= _ <-]. reflexivity.
Qed.

Lemma _test_style_outcome_witness :
  (_test_style "/proj" true sample_flake8 "/proj/imageio/a.py" ["E226"] sample_process).2
  = Return (Some true)
  /\ (_test_style "/proj" true passing_flake8 "/proj/imageio/a.py" ["E226"] sample_process).2
     = Return (Some false)
  /\ (_test_style "/proj" true (fun _ _ => ([], Return tt)) "/proj/imageio/a.py" ["E226"]
                  sample_process).2
     = Return None
  /\ (_test_style "/proj" true (fun _ _ => ([], Raise (Exc KeyboardInterrupt VNone)))
                  "/proj/imageio/a.py" ["E226"] sample_process).2
     = Raise (Exc KeyboardInterrupt VNone).
Proof.
  split; [|split; [|split]].
  - apply (_test_style_outcome "/proj" sample_flake8 "/proj/imageio/a.py" ["E226"]
             sample_process eq_refl).
  - apply (_test_style_outcome "/proj" passing_flake8 "/proj/imageio/a.py" ["E226"]
             sample_process eq_refl).
  - apply (_test_style_outcome "/proj" (fun _ _ => ([], Return tt)) "/proj/imageio/a.py"
             ["E226"] sample_process eq_refl).
  - apply (_test_style_outcome "/proj" (fun _ _ => ([], Raise (Exc KeyboardInterrupt VNone)))
             "/proj/imageio/a.py" ["E226"] sample_process eq_refl).
Defined.

(** X7: without flake8, [_test_style] raises the [ImportError] of the
    import inside its [try]; by then [sys.argv] has been rewritten, and
    it stays so, while the working directory is put back; [main] is
    not invoked and nothing is printed. *)
Theorem _test_style_without_flake8
        (ROOT_DIR : string) (flake8_main : list string -> string -> list string * outcome unit)
        (filename : string) (ignore : list string) (p : Process) :
  _test_style ROOT_DIR false flake8_main filename ignore p
  = (set_lists (<[sys_argv p := style_argv (argv_contents p) filename ignore]> (lists p)) p,
     Raise (Exc ImportError (VStr "flake8"))).
Proof.
  unfold _test_style, bind, get, getcwd, chdir, modify, try_finally, try_except,
    list_assign_from1, list_append, list_assign_all, call_flake8_main, raise.
  cbn -[PyStr.join String.append]. f_equal.
  destruct p. unfold set_lists, set_cwd, deref, style_argv, argv_contents, deref.
  cbn -[PyStr.join String.append]. rewrite !lookup_insert_eq.
  cbn -[PyStr.join String.append]. rewrite !insert_insert_eq, <- app_assoc. reflexivity.
Qed.

(** X8: the first element of [sys.argv] is what every invocation keeps.
    When [sys.argv] is not empty, two calls in a row both pass it on as
    the program name; when [sys.argv] is empty, the file of the first
    call takes that place and is passed to the second call in front of
    the second file. *)
Theorem argv_head_across_calls
        (ROOT_DIR : string) (flake8_main : list string -> string -> list string * outcome unit)
        (f1 f2 : string) (i1 i2 : list string) (p : Process) :
  (forall argv0 rest, argv_contents p = argv0 :: rest ->
     calls (trace (_test_style ROOT_DIR true flake8_main f2 i2
                               (_test_style ROOT_DIR true flake8_main f1 i1 p).1).1)
     = calls (trace p)
       ++ [([argv0; f1; "--ignore=" +:+ PyStr.join "," i1], ROOT_DIR);
           ([argv0; f2; "--ignore=" +:+ PyStr.join "," i2], ROOT_DIR)])
  /\ (argv_contents p = [] ->
      calls (trace (_test_style ROOT_DIR true flake8_main f2 i2
                                (_test_style ROOT_DIR true flake8_main f1 i1 p).1).1)
      = calls (trace p)
        ++ [([f1; "--ignore=" +:+ PyStr.join "," i1], ROOT_DIR);
            ([f1; f2; "--ignore=" +:+ PyStr.join "," i2], ROOT_DIR)]).
Proof.
  destruct (_test_style ROOT_DIR true flake8_main f1 i1 p) as [p1 r1] eqn:H1.
  destruct (_test_style_run_step _ _ _ _ _ _ _ _ H1) as (_ & _ & _ & Ha1 & Hc1 & _).
  cbn [fst].
  destruct (_test_style ROOT_DIR true flake8_main f2 i2 p1) as [p2 r2] eqn:H2.
  destruct (_test_style_run_step _ _ _ _ _ _ _ _ H2) as (_ & _ & _ & _ & Hc2 & _).
  cbn [fst]. rewrite Hc2, Hc1, Ha1, <- app_assoc.
  split.
  - intros argv0 rest ->. reflexivity.
  - intros ->. reflexivity.
Qed.

Lemma argv_head_across_calls_witness :
  calls (trace (_test_style "/proj" true passing_flake8 "/proj/b.py" ["W291"]
                            (_test_style "/proj" true passing_flake8 "/proj/a.py" ["E226"]
                                         (set_lists {[ 0 := [] ]} sample_process)).1).1)
  = [(["/proj/a.py"; "--ignore=E226"], "/proj");
     (["/proj/a.py"; "/proj/b.py"; "--ignore=W291"], "/proj")].
Proof.
  destruct (argv_head_across_calls "/proj" passing_flake8 "/proj/a.py" "/proj/b.py"
              ["E226"] ["W291"] (set_lists {[ 0 := [] ]} sample_process)) as [_ Hempty].
  apply Hempty. reflexivity.
Defined.

(** ** The style check as a whole *)

(** X9: when the walk of [test_style] ends in an exception (a file that
    cannot be read or decoded, or an exception of flake8 other than
    [SystemExit]), [test_style] ends in that exception at once: no
    report is made and [sys.stdout] is left bound to the proxy. *)
Theorem test_style_exception_leaves_proxy
        (ROOT_DIR : string) (flake8_main : list string -> string -> list string * outcome unit)
        (os_walk : string -> list (string * list string * list string))
        (read_text : string -> outcome string) (p p2 : Process) (e : exception) :
  PosixPath.isabs ROOT_DIR = true ->
  walk_dirs ROOT_DIR true flake8_main read_text global_ignores (os_walk ROOT_DIR) (0, false)
            (walk_start ROOT_DIR p) = (p2, Raise e) ->
  test_style ROOT_DIR true flake8_main os_walk read_text p = (p2, Raise e)
  /\ sys_stdout p2 = FileForTesting (sys_stdout p).
Proof.
  intros Habs Hwalk.
  split; [apply (test_style_unfold _ _ _ _ _ _ _ Habs Hwalk)|].
  destruct (walk_dirs_inv _ _ _ _ _ _ _ _ _ _ Hwalk) as (added & (_ & _ & Hso & _) & _).
  rewrite Hso. reflexivity.
Qed.

Lemma test_style_exception_leaves_proxy_witness :
  (test_style "/proj" true passing_flake8 unreadable_walk sample_tree sample_process).2
  = Raise (Exc IOError (VStr "/proj/./missing.py"))
  /\ sys_stdout (test_style "/proj" true passing_flake8 unreadable_walk sample_tree
                            sample_process).1
     = FileForTesting Stdout.
Proof.
  destruct (test_style_exception_leaves_proxy "/proj" passing_flake8 unreadable_walk
              sample_tree sample_process
              (walk_dirs "/proj" true passing_flake8 sample_tree global_ignores
                         (unreadable_walk "/proj") (0, false)
                         (walk_start "/proj" sample_process)).1
              (Exc IOError (VStr "/proj/./missing.py")) eq_refl)
    as [Hts Hso].
  - vm_compute. reflexivity.
  - rewrite Hts. split; [reflexivity|exact Hso].
Defined.

(** X10: which files a completed style check hands to flake8.  When
    [sys.argv] is not empty and the walk ends normally, the
    invocations of the run are, in the order of the walk and once
    each, those of the files named [*.py] outside the excluded
    directories that carry no skip directive; each has three
    arguments: the first element of [sys.argv], the file, and the
    ignore option made of the global list and the file's own codes.
    The tally counts exactly these files. *)
Theorem test_style_checks_exactly
        (ROOT_DIR : string) (flake8_main : list string -> string -> list string * outcome unit)
        (os_walk : string -> list (string * list string * list string))
        (read_text : string -> outcome string)
        (p p2 : Process) (count : nat) (fail : bool) (argv0 : string) (rest0 : list string) :
  PosixPath.isabs ROOT_DIR = true ->
  argv_contents p = argv0 :: rest0 ->
  walk_dirs ROOT_DIR true flake8_main read_text global_ignores (os_walk ROOT_DIR) (0, false)
            (walk_start ROOT_DIR p) = (p2, Return (count, fail)) ->
  calls (trace (test_style ROOT_DIR true flake8_main os_walk read_text p).1)
  = calls (trace p)
    ++ map (call_of ROOT_DIR read_text global_ignores argv0)
           (checked_files ROOT_DIR read_text (cwd p) (os_walk ROOT_DIR))
  /\ count = length (checked_files ROOT_DIR read_text (cwd p) (os_walk ROOT_DIR)).
Proof.
  intros Habs Hargv Hwalk.
  destruct (print_output ROOT_DIR ("Running flake8 on " +:+ ROOT_DIR) p)
    as (evs & r & Hpr & Hc & _).
  assert (Hstart : walk_start ROOT_DIR p
                   = set_stdout (FileForTesting (sys_stdout p)) (emit_all evs p)).
  { unfold walk_start. rewrite Hpr. reflexivity. }
  destruct (quiet_step evs p Hc) as (_ & _ & Htr).
  assert (Hargv' : argv_contents (walk_start ROOT_DIR p) = argv0 :: rest0).
  { rewrite Hstart. exact Hargv. }
  destruct (walk_dirs_exact _ _ _ _ _ _ _ _ _ _ _ _ Hargv' Hwalk)
    as (Hcalls & Hcount & _ & _).
  rewrite Hstart in Hcalls, Hcount. cbn [cwd set_stdout emit_all trace fst] in Hcalls, Hcount.
  cbn [trace emit_all] in Htr. rewrite Htr in Hcalls.
  split; [|exact Hcount].
  rewrite (test_style_unfold _ _ _ _ _ _ _ Habs Hwalk).
  destruct (count =? 0); [exact Hcalls|]. destruct fail; [exact Hcalls|].
  match goal with
  | |- context [ print ?a ?m ?st ] =>
      destruct (print_output a m st) as (evs3 & r3 & -> & Hc3 & _)
  end.
  cbn [fst]. destruct (quiet_step evs3 (set_stdout (sys_stdout p) p2) Hc3) as (_ & _ & ->).
  exact Hcalls.
Qed.

Lemma test_style_checks_exactly_witness :
  calls (trace (test_style "/proj" true passing_flake8 sample_walk sample_tree
                           sample_process).1)
  = map (call_of "/proj" sample_tree global_ignores "make")
        ["/proj/./setup.py"; "/proj/imageio/core.py"]
  /\ 2 = length (checked_files "/proj" sample_tree "/home/dev" (sample_walk "/proj")).
Proof.
  apply (test_style_checks_exactly "/proj" passing_flake8 sample_walk sample_tree
           sample_process sample_walk_end 2 false "make" ["test"; "style"]);
    vm_compute; reflexivity.
Defined.

(** X11: without flake8 the style check is a notice on the standard
    output and nothing else: with an absolute root it returns
    normally, invokes nothing, and the tree and its files play no
    part in what it does. *)
Theorem test_style_without_flake8
        (ROOT_DIR : string) (flake8_main : list string -> string -> list string * outcome unit)
        (os_walk : string -> list (string * list string * list string))
        (read_text : string -> outcome string) (p : Process) :
  PosixPath.isabs ROOT_DIR = true ->
  exists evs,
    test_style ROOT_DIR false flake8_main os_walk read_text p = (emit_all evs p, Return tt)
    /\ calls evs = []
    /\ (sys_stdout p = Stdout ->
        evs = [StdoutWrite "Skipping flake8 test, flake8 not installed"; StdoutWrite newline])
    /\ (forall flake8_main' os_walk' read_text',
           test_style ROOT_DIR false flake8_main' os_walk' read_text' p
           = test_style ROOT_DIR false flake8_main os_walk read_text p).
Proof.
  intros Habs. unfold test_style. cbn [negb].
  destruct (print_plain ROOT_DIR "S" "kipping flake8 test, flake8 not installed" p Habs)
    as (evs & Hpr & Hc); [discriminate|].
  change (String "S" "kipping flake8 test, flake8 not installed")
    with "Skipping flake8 test, flake8 not installed" in Hpr.
  exists evs. split; [exact Hpr|]. split; [exact Hc|]. split; [|reflexivity].
  intros Hso. rewrite print_to_stdout in Hpr by exact Hso.
  injection Hpr as Hpr. apply app_inv_head in Hpr. symmetry. exact Hpr.
Qed.

Lemma test_style_without_flake8_witness :
  test_style "/proj" false sample_flake8 sample_walk sample_tree sample_process
  = (emit_all [StdoutWrite "Skipping flake8 test, flake8 not installed"; StdoutWrite newline]
              sample_process, Return tt).
Proof.
  destruct (test_style_without_flake8 "/proj" sample_flake8 sample_walk sample_tree
              sample_process eq_refl) as (evs & Hts & _ & Hevs & _).
  rewrite Hts, (Hevs eq_refl). reflexivity.
Defined.

(** ** [run_tests_if_main] *)

Lemma pyvalue_eqb_eq (a b : pyvalue) : pyvalue_eqb a b = true <-> a = b.
Proof.
  destruct a, b; cbn [pyvalue_eqb]; split; try discriminate; try reflexivity.
  - intros H. apply Z.eqb_eq in H. subst. reflexivity.
  - intros [= ->]. apply Z.eqb_refl.
  - intros H. apply String.eqb_eq in H. subst. reflexivity.
  - intros [= ->]. apply String.eqb_refl.
Qed.

Lemma is_main_spec (local_vars : gmap string pyvalue) :
  pyvalue_eqb (default (VStr "") (local_vars !! "__name__")) (VStr "__main__") = true
  <-> local_vars !! "__name__" = Some (VStr "__main__").
Proof.
  rewrite pyvalue_eqb_eq. destruct (local_vars !! "__name__") as [v|]; simpl.
  - split; [intros H; rewrite H; reflexivity|intros [= H]; exact H].
  - split; discriminate.
Qed.

(** X12: called from a frame whose [__name__] is not the string
    [__main__] (or that has no [__name__]), [run_tests_if_main] does
    nothing: the process is as before, whatever the flag, the test
    runner and the browser are. *)
Theorem run_tests_if_main_elsewhere
        (ROOT_DIR : string) (faulthandler_available : bool) (pytest_main : string -> M Z)
        (open_new_tab : string -> M unit)
        (local_vars : gmap string pyvalue) (show_coverage : bool) (p : Process) :
  local_vars !! "__name__" <> Some (VStr "__main__") ->
  run_tests_if_main ROOT_DIR faulthandler_available pytest_main open_new_tab
                    local_vars show_coverage p
  = (p, Return tt).
Proof.
  intros Hname. unfold run_tests_if_main.
  destruct (pyvalue_eqb _ _) eqn:Hm; [|reflexivity].
  apply is_main_spec in Hm. contradiction.
Qed.

Lemma run_tests_if_main_elsewhere_witness :
  run_tests_if_main "/proj" true sample_pytest sample_browser
                    {[ "__name__" := VStr "tests.test_core"; "__file__" := VStr "tests/test_core.py" ]}
                    true sample_process
  = (sample_process, Return tt).
Proof.
  apply (run_tests_if_main_elsewhere "/proj" true sample_pytest sample_browser).
  vm_compute. discriminate.
Defined.

(** X13: called from the main module of a frame that has no
    [__file__], [run_tests_if_main] raises the [KeyError] of the
    lookup.  By then the working directory is the root, and it stays
    so; the modules are not purged and neither the test runner nor the
    browser is reached. *)
Theorem run_tests_if_main_without_file
        (ROOT_DIR : string) (faulthandler_available : bool) (pytest_main : string -> M Z)
        (open_new_tab : string -> M unit)
        (local_vars : gmap string pyvalue) (show_coverage : bool) (p : Process) :
  local_vars !! "__name__" = Some (VStr "__main__") ->
  local_vars !! "__file__" = None ->
  run_tests_if_main ROOT_DIR faulthandler_available pytest_main open_new_tab
                    local_vars show_coverage p
  = (set_cwd ROOT_DIR p, Raise (Exc (OtherException "KeyError") (VStr "__file__"))).
Proof.
  intros Hname Hfile. unfold run_tests_if_main.
  apply is_main_spec in Hname. rewrite Hname, Hfile. reflexivity.
Qed.

Lemma run_tests_if_main_without_file_witness :
  run_tests_if_main "/proj" true sample_pytest sample_browser
                    {[ "__name__" := VStr "__main__" ]} true sample_process
  = (set_cwd "/proj" sample_process,
     Raise (Exc (OtherException "KeyError") (VStr "__file__"))).
Proof.
  apply (run_tests_if_main_without_file "/proj" true sample_pytest sample_browser);
    reflexivity.
Defined.

(** X14: called from the main module with [__file__] set and an
    absolute root, [run_tests_if_main] reaches the test runner in the
    root directory, with the modules of imageio purged, and hands it
    the options followed by the file.  If the runner returns, the
    coverage page [ROOT_DIR/htmlcov/index.html] is opened exactly when
    the flag is set; if it raises, the exception goes on and no page is
    opened.  The working directory is not put back: the call ends in
    the state the runner (or the browser) leaves. *)
Theorem run_tests_if_main_runs
        (ROOT_DIR : string) (faulthandler_available : bool) (pytest_main : string -> M Z)
        (open_new_tab : string -> M unit)
        (local_vars : gmap string pyvalue) (show_coverage : bool) (p : Process)
        (file : pyvalue) :
  PosixPath.isabs ROOT_DIR = true ->
  local_vars !! "__name__" = Some (VStr "__main__") ->
  local_vars !! "__file__" = Some file ->
  exists p1,
    cwd p1 = ROOT_DIR
    /\ sys_modules p1
       = List.filter (fun key => negb (PyStr.startswith "imageio" key)) (sys_modules p)
    /\ forall p2 r,
        pytest_main ("-v -x --color=yes --cov imageio --cov-config .coveragerc --cov-report html "
                     +:+ py_str file) p1 = (p2, r) ->
        run_tests_if_main ROOT_DIR faulthandler_available pytest_main open_new_tab
                          local_vars show_coverage p
        = match r with
          | Return _ =>
              if show_coverage
              then open_new_tab (PosixPath.join ROOT_DIR ["htmlcov"; "index.html"]) p2
              else (p2, Return tt)
          | Raise e => (p2, Raise e)
          end.
Proof.
  intros Habs Hname Hfile. unfold run_tests_if_main.
  apply is_main_spec in Hname. rewrite Hname, Hfile. cbn [negb].
  set (q := set_modules
              (List.filter (fun key => negb (PyStr.startswith "imageio" key))
                           (sys_modules (set_cwd ROOT_DIR p)))
              (set_cwd ROOT_DIR p)).
  destruct (_enable_faulthandler_plain ROOT_DIR faulthandler_available q Habs)
    as (evs & Hfh & _).
  exists (emit_all evs q). split; [reflexivity|]. split; [reflexivity|].
  intros p2 r Hrun. unfold bind, chdir, ret, _clear_imageio, modify. fold q.
  rewrite Hfh, Hrun. destruct r; [|reflexivity]. destruct show_coverage; reflexivity.
Qed.

Lemma run_tests_if_main_runs_witness :
  (run_tests_if_main "/proj" true sample_pytest sample_browser
                     {[ "__name__" := VStr "__main__"; "__file__" := VStr "tests/test_core.py" ]}
                     true sample_process).2
  = Return tt
  /\ cwd (run_tests_if_main "/proj" true sample_pytest sample_browser
                            {[ "__name__" := VStr "__main__";
                               "__file__" := VStr "tests/test_core.py" ]}
                            true sample_process).1
     = "/tmp/pytest-0".
Proof.
  destruct (run_tests_if_main_runs "/proj" true sample_pytest sample_browser
              {[ "__name__" := VStr "__main__"; "__file__" := VStr "tests/test_core.py" ]}
              true sample_process (VStr "tests/test_core.py"))
    as (p1 & _ & _ & Hrun); [reflexivity|vm_compute; reflexivity|vm_compute; reflexivity|].
  rewrite (Hrun _ _ eq_refl). split; reflexivity.
Defined.

(** ** The scratch directory, further *)

(** X15: when a regular file stands where the scratch directory should
    be (in an existing directory), the first call of [get_test_dir]
    raises [FileExistsError] and registers no exit hook; yet the global
    is set by then, so every later call returns the path although
    there is no directory at it. *)
Theorem get_test_dir_blocked_by_file
        (appdata_dir : string -> gmap (list string) node ->
                       gmap (list string) node * outcome (list string))
        (st : TestDirState) (fs1 : gmap (list string) node) (a : list string) :
  _the_test_dir st = None ->
  appdata_dir "imageio" (fs st) = (fs1, Return a) ->
  node_at fs1 (a ++ ["testdir"]) = Some File ->
  isdir fs1 a = true ->
  get_test_dir appdata_dir st
  = (mkTestDirState fs1 (Some (a ++ ["testdir"])) (atexit_hooks st),
     Raise (Exc FileExistsError VNone))
  /\ get_test_dir appdata_dir
                  (mkTestDirState fs1 (Some (a ++ ["testdir"])) (atexit_hooks st))
     = (mkTestDirState fs1 (Some (a ++ ["testdir"])) (atexit_hooks st),
        Return (a ++ ["testdir"]))
  /\ isdir fs1 (a ++ ["testdir"]) = false.
Proof.
  intros Hnone Happ Hfile Hdir.
  assert (Hnd : isdir fs1 (a ++ ["testdir"]) = false) by (unfold isdir; rewrite Hfile; reflexivity).
  split; [|split; [reflexivity|exact Hnd]].
  unfold get_test_dir. rewrite Hnone, Happ, Hnd.
  unfold makedirs. rewrite rev_app_distr. cbn [rev app makedirs_rev].
  rewrite rev_involutive.
  assert (Ha : node_at fs1 a = Some Dir).
  { unfold isdir in Hdir. destruct (node_at fs1 a) as [[]|]; congruence. }
  unfold path_exists at 1. rewrite Ha. cbn [negb].
  unfold mkdir. rewrite parent_snoc, Ha. unfold path_exists. rewrite Hfile. reflexivity.
Qed.

Lemma get_test_dir_blocked_by_file_witness :
  get_test_dir sample_appdata_dir (mkTestDirState blocked_fs None [])
  = (mkTestDirState blocked_fs (Some ["home"; "dev"; ".imageio"; "testdir"]) [],
     Raise (Exc FileExistsError VNone))
  /\ get_test_dir sample_appdata_dir
                  (mkTestDirState blocked_fs (Some ["home"; "dev"; ".imageio"; "testdir"]) [])
     = (mkTestDirState blocked_fs (Some ["home"; "dev"; ".imageio"; "testdir"]) [],
        Return ["home"; "dev"; ".imageio"; "testdir"])
  /\ isdir blocked_fs ["home"; "dev"; ".imageio"; "testdir"] = false.
Proof.
  apply (get_test_dir_blocked_by_file sample_appdata_dir (mkTestDirState blocked_fs None [])
           blocked_fs ["home"; "dev"; ".imageio"]);
    vm_compute; reflexivity.
Defined.

Lemma mkdir_adds_dir (d : list string) (fs fs' : gmap (list string) node) (r : outcome unit) :
  mkdir d fs = (fs', r) ->
  forall k, fs' !! k = fs !! k \/ (fs !! k = None /\ fs' !! k = Some Dir /\ k = d).
Proof.
  unfold mkdir. destruct (node_at fs (parent d)) as [[]|]; [|intros [= <- _]; auto..].
  unfold path_exists. destruct (node_at fs d) eqn:Hd; intros [= <- _] k; [auto|].
  destruct (decide (k = d)) as [->|Hne].
  - right. destruct d; [discriminate Hd|]. cbn [node_at] in Hd.
    rewrite lookup_insert_eq. auto.
  - left. apply lookup_insert_ne. congruence.
Qed.

(** [makedirs], however it ends, changes the file system only by
    adding directories at places on the way to its target where
    nothing was. *)
Lemma makedirs_rev_adds_dirs (rname : list string) :
  forall (fs fs' : gmap (list string) node) (r : outcome unit),
    makedirs_rev rname fs = (fs', r) ->
    forall k, fs' !! k = fs !! k
              \/ (fs !! k = None /\ fs' !! k = Some Dir /\ k `prefix_of` rev rname).
Proof.
  induction rname as [|c rhead IH]; intros fs fs' r H k.
  - cbn [makedirs_rev] in H. destruct (mkdir_adds_dir _ _ _ _ H k) as [Hk|(H1 & H2 & ->)].
    + left. exact Hk.
    + right. split; [exact H1|]. split; [exact H2|reflexivity].
  - cbn [makedirs_rev] in H. cbn [rev].
    assert (Hhead : exists fs1 r1,
               (if negb (path_exists fs (rev rhead))
                then match makedirs_rev rhead fs with
                     | (fs1, Raise e) =>
                         if is_FileExistsError e then (fs1, Return tt) else (fs1, Raise e)
                     | r => r
                     end
                else (fs, Return tt)) = (fs1, r1)
               /\ (fs1 !! k = fs !! k
                   \/ (fs !! k = None /\ fs1 !! k = Some Dir /\ k `prefix_of` rev rhead))).
    { destruct (negb (path_exists fs (rev rhead))).
      - destruct (makedirs_rev rhead fs) as [fs1 r1] eqn:Hrec.
        pose proof (IH _ _ _ Hrec k) as Hk.
        destruct r1 as [[]|e]; [eauto|]. destruct (is_FileExistsError e); eauto.
      - eauto. }
    destruct Hhead as (fs1 & r1 & Heq & Hk1). rewrite Heq in H.
    assert (Hk1' : fs1 !! k = fs !! k
                   \/ (fs !! k = None /\ fs1 !! k = Some Dir
                       /\ k `prefix_of` rev rhead ++ [c])).
    { destruct Hk1 as [|(H1 & H2 & H3)]; [auto|]. right. split; [exact H1|].
      split; [exact H2|]. apply prefix_app_r, H3. }
    destruct r1 as [[]|e]; [|injection H as <- _; exact Hk1'].
    destruct (mkdir_adds_dir _ _ _ _ H k) as [Hk|(H1 & H2 & ->)].
    + rewrite Hk. exact Hk1'.
    + right. split; [|split; [exact H2|reflexivity]].
      destruct Hk1' as [<-|(H3 & _)]; [exact H1|exact H3].
Qed.

(** X16: the first call of [get_test_dir], however it ends, leaves
    everything outside the target as [appdata_dir] left it, but for
    directories it makes on the way to the target where nothing was:
    nothing outside the target is removed or replaced. *)
Theorem get_test_dir_touches_only_target
        (appdata_dir : string -> gmap (list string) node ->
                       gmap (list string) node * outcome (list string))
        (st : TestDirState) (fs1 : gmap (list string) node) (a k : list string) :
  _the_test_dir st = None ->
  appdata_dir "imageio" (fs st) = (fs1, Return a) ->
  ~ (a ++ ["testdir"]) `prefix_of` k ->
  fs (get_test_dir appdata_dir st).1 !! k = fs1 !! k
  \/ (fs1 !! k = None
      /\ fs (get_test_dir appdata_dir st).1 !! k = Some Dir
      /\ k `prefix_of` a ++ ["testdir"]).
Proof.
  intros Hnone Happ Hk. unfold get_test_dir. rewrite Hnone, Happ.
  set (d := a ++ ["testdir"]) in *.
  set (fs2 := if isdir fs1 d then rmtree d fs1 else fs1).
  assert (Hfs2 : fs2 !! k = fs1 !! k).
  { unfold fs2. destruct (isdir fs1 d); [|reflexivity].
    rewrite rmtree_lookup. destruct (decide (d `prefix_of` k)); [contradiction|reflexivity]. }
  destruct (makedirs d fs2) as [fs3 r] eqn:Hmk.
  unfold makedirs in Hmk.
  pose proof (makedirs_rev_adds_dirs _ _ _ _ Hmk k) as H3. rewrite rev_involutive in H3.
  rewrite Hfs2 in H3. destruct r; exact H3.
Qed.

Lemma get_test_dir_touches_only_target_witness :
  fs (get_test_dir sample_appdata_dir (mkTestDirState blocked_fs None [])).1
     !! ["home"; "dev"; "notes.txt"]
  = Some File.
Proof.
  destruct (get_test_dir_touches_only_target sample_appdata_dir
              (mkTestDirState blocked_fs None []) blocked_fs
              ["home"; "dev"; ".imageio"] ["home"; "dev"; "notes.txt"])
    as [H|(H & _)].
  - reflexivity.
  - vm_compute. reflexivity.
  - intros [l Hl]. discriminate Hl.
  - rewrite H. vm_compute. reflexivity.
  - vm_compute in H. discriminate H.
Defined.

(** ** Crash traces and the patch of pytest *)

(** X17: [_enable_faulthandler] does not fail: with an absolute root it
    returns normally whether or not the handler can be enabled, and
    all it does to the process is to print one line that says which. *)
Theorem _enable_faulthandler_is_soft
        (ROOT_DIR : string) (faulthandler_available : bool) (p : Process) :
  PosixPath.isabs ROOT_DIR = true ->
  exists evs,
    _enable_faulthandler ROOT_DIR faulthandler_available p = (emit_all evs p, Return tt)
    /\ calls evs = []
    /\ (sys_stdout p = Stdout ->
        evs = [StdoutWrite (if faulthandler_available then "Faulthandler enabled"
                            else "Could not enable faulthandler");
               StdoutWrite newline]).
Proof.
  intros Habs.
  destruct (_enable_faulthandler_plain ROOT_DIR faulthandler_available p Habs)
    as (evs & Hfh & Hc).
  exists evs. split; [exact Hfh|]. split; [exact Hc|].
  intros Hso. unfold _enable_faulthandler, try_except, raise in Hfh.
  destruct faulthandler_available; cbn [is_Exception exc_type] in Hfh;
    rewrite print_to_stdout in Hfh by exact Hso;
    injection Hfh as Hfh; apply app_inv_head in Hfh; symmetry; exact Hfh.
Qed.

Lemma _enable_faulthandler_is_soft_witness :
  _enable_faulthandler "/proj" false sample_process
  = (emit_all [StdoutWrite "Could not enable faulthandler"; StdoutWrite newline] sample_process,
     Return tt).
Proof.
  destruct (_enable_faulthandler_is_soft "/proj" false sample_process eq_refl)
    as (evs & Hfh & _ & Hevs).
  rewrite Hfh, (Hevs eq_refl). reflexivity.
Defined.

(** X18: the patch is applied once.  When this module's name starts
    with [imageio], running the patch on a runner whose hook is not
    from such a module installs the wrapper and saves the hook as the
    original; running it again changes nothing, so the saved original
    is never the wrapper itself. *)
Theorem patch_runner_is_applied_once (this_module : string) (runner : RunnerModule) :
  PyStr.startswith "imageio" this_module = true ->
  patch_runner this_module (patch_runner this_module runner) = patch_runner this_module runner
  /\ (PyStr.startswith "imageio" (fn_module (runner_pytest_runtest_call runner)) = false ->
      patch_runner this_module runner
      = mkRunner (wrapper this_module) (Some (runner_pytest_runtest_call runner)))
  /\ (forall f,
         runner_pytest_runtest_call_orig (patch_runner this_module runner) = Some f ->
         runner_pytest_runtest_call_orig runner = Some f
         \/ PyStr.startswith "imageio" (fn_module f) = false).
Proof.
  intros Hm. unfold patch_runner.
  destruct (PyStr.startswith "imageio" (fn_module (runner_pytest_runtest_call runner))) eqn:Hr;
    cbn [negb runner_pytest_runtest_call runner_pytest_runtest_call_orig wrapper fn_module].
  - rewrite Hr. cbn [negb]. split; [reflexivity|]. split; [discriminate|]. auto.
  - rewrite Hm. cbn [negb]. split; [reflexivity|]. split; [reflexivity|].
    intros f [= <-]. right. exact Hr.
Qed.

Lemma patch_runner_is_applied_once_witness :
  patch_runner "imageio.testing"
               (patch_runner "imageio.testing"
                             (mkRunner (mkFunc "_pytest.runner" "pytest_runtest_call") None))
  = mkRunner (mkFunc "imageio.testing" "pytest_runtest_call")
             (Some (mkFunc "_pytest.runner" "pytest_runtest_call")).
Proof.
  destruct (patch_runner_is_applied_once
              "imageio.testing" (mkRunner (mkFunc "_pytest.runner" "pytest_runtest_call") None)
              eq_refl) as (Hidem & Hfirst & _).
  rewrite Hidem. apply Hfirst. reflexivity.
Defined.

(** X19: the guard goes by the module name.  When the patch has been
    run by a module whose name does not start with [imageio] (the
    file run as a script, say), a second run of the patch, under
    whatever name, wraps the wrapper: the saved original is then the
    first wrapper, no longer pytest's own hook. *)
Theorem patch_runner_under_other_name
        (first_module second_module : string) (runner : RunnerModule) :
  PyStr.startswith "imageio" first_module = false ->
  PyStr.startswith "imageio" (fn_module (runner_pytest_runtest_call runner)) = false ->
  patch_runner second_module (patch_runner first_module runner)
  = mkRunner (wrapper second_module) (Some (wrapper first_module)).
Proof.
  intros H1 Hr. unfold patch_runner. rewrite Hr. cbn [negb runner_pytest_runtest_call wrapper fn_module].
  rewrite H1. reflexivity.
Qed.

Lemma patch_runner_under_other_name_witness :
  patch_runner "imageio.testing"
               (patch_runner "__main__"
                             (mkRunner (mkFunc "_pytest.runner" "pytest_runtest_call") None))
  = mkRunner (mkFunc "imageio.testing" "pytest_runtest_call")
             (Some (mkFunc "__main__" "pytest_runtest_call")).
Proof.
  apply (patch_runner_under_other_name "__main__" "imageio.testing"); reflexivity.
Defined.

(** ** Line ends *)

Lemma splitlines_lf (l rest : string) :
  one_line l -> PyStr.splitlines (l +:+ LF +:+ rest) = l :: PyStr.splitlines rest.
Proof.
  unfold one_line. induction l as [|c l IH]; intros Hl; [reflexivity|].
  cbn [PyStr.all_chars] in Hl. apply andb_prop in Hl. destruct Hl as [Hc Hl].
  rewrite append_cons. cbn [PyStr.splitlines].
  apply negb_true_iff in Hc. rewrite Hc, (IH Hl). reflexivity.
Qed.

Lemma splitlines_crlf (l rest : string) :
  one_line l -> PyStr.splitlines (l +:+ CRLF +:+ rest) = l :: PyStr.splitlines rest.
Proof.
  unfold one_line. induction l as [|c l IH]; intros Hl; [reflexivity|].
  cbn [PyStr.all_chars] in Hl. apply andb_prop in Hl. destruct Hl as [Hc Hl].
  rewrite append_cons. cbn [PyStr.splitlines].
  apply negb_true_iff in Hc. rewrite Hc, (IH Hl). reflexivity.
Qed.

Lemma splitlines_text_of_lines (eol : string) (lines : list string) :
  eol = LF \/ eol = CRLF -> Forall one_line lines ->
  PyStr.splitlines (text_of_lines eol lines) = lines.
Proof.
  intros Heol. induction 1 as [|l rest Hl _ IH]; [reflexivity|]. cbn [text_of_lines].
  destruct Heol as [-> | ->].
  - rewrite (splitlines_lf l _ Hl), IH. reflexivity.
  - rewrite (splitlines_crlf l _ Hl), IH. reflexivity.
Qed.

(** X20: the line ends of a file do not matter to its directives: a
    file with given lines yields the same skip flag and ignore list
    whether its lines end in LF or in CR LF, namely what the first 21
    of those lines say. *)
Theorem directives_independent_of_line_ends
        (read_text : string -> outcome string) (unix_file dos_file : string)
        (lines : list string) (p : Process) :
  Forall one_line lines ->
  read_text unix_file = Return (text_of_lines LF lines) ->
  read_text dos_file = Return (text_of_lines CRLF lines) ->
  _get_style_test_options read_text unix_file p = _get_style_test_options read_text dos_file p
  /\ _get_style_test_options read_text dos_file p
     = (p, Return (existsb skip_directive (take 21 lines),
                   flat_map line_codes (take 21 lines))).
Proof.
  intros Hlines Hunix Hdos.
  rewrite (_get_style_test_options_eq _ _ _ _ Hunix), (_get_style_test_options_eq _ _ _ _ Hdos).
  unfold file_skipped, file_codes, scanned_lines.
  rewrite !splitlines_text_of_lines by auto. split; reflexivity.
Qed.

Lemma directives_independent_of_line_ends_witness :
  _get_style_test_options
    (fun f => if String.eqb f "unix.py"
              then Return (text_of_lines LF ["# styletest: ignore E501,W605"; "import os"])
              else Return (text_of_lines CRLF ["# styletest: ignore E501,W605"; "import os"]))
    "dos.py" sample_process
  = (sample_process, Return (false, ["E501"; "W605"])).
Proof.
  destruct (directives_independent_of_line_ends
              (fun f => if String.eqb f "unix.py"
                        then Return (text_of_lines LF ["# styletest: ignore E501,W605"; "import os"])
                        else Return (text_of_lines CRLF ["# styletest: ignore E501,W605"; "import os"]))
              "unix.py" "dos.py" ["# styletest: ignore E501,W605"; "import os"] sample_process)
    as [_ Hdos].
  - repeat constructor.
  - reflexivity.
  - reflexivity.
  - rewrite Hdos. vm_compute. reflexivity.
Defined.
